(* ===== verification/_CoqProject ===== *)
-Q . S2P
Prelude.v
Codec.v
Repo.v
Timestamp.v
Scoring.v
Portfolio.v
Recommend.v
Fetcher.v
AIAdapter.v
Script.v
Dashboard.v
Pipeline.v
