(* ===== verification/Prelude.v ===== *)
(** * A verification development for GitAudit (github-portfolio-analyzer)

    The repository is one Streamlit script, [src/app.py].  Streamlit runs
    the whole script again on every interaction; a click on "ANALYZE
    PROFILE" runs a linear pipeline (app.py 411-443) and renders a
    dashboard (444-757):

    - the Data Fetcher [get_enhanced_github_data] (app.py 159-221) talks
      to the GitHub REST API: user profile, paginated repository list,
      per-repository README, languages and commit statistics, then the
      organisations; helpers [get_readme_content], [get_commit_activity]
      (136-157);
    - the Scoring Engine: three per-repository scores
      [calculate_documentation_score], [calculate_code_quality_score],
      [calculate_activity_score] (99-134), called by the fetcher on every
      repository, and the aggregate [calculate_portfolio_score] (223-285);
    - the Recommendation Generator [get_actionable_recommendations]
      (287-325), fed with the fetched bundle and the dimension map;
    - the AI Assessment Adapter [get_working_model] (87-97) and
      [analyze_with_ai] (327-390): model selection, prompt, fence
      stripping, JSON decoding;
    - the page script: [load_lottieurl] (82-85) at the top of every run,
      the input row and the click handler (396-429), and the dashboard
      (430-757): metric row, four tabs (overview charts, repository deep
      dive, recommendations, interview preparation), key takeaways and the
      export button.

    ** Files, in dependency order

    - [Prelude] (this file): the Python exception type [PyExc] and the
      result monad [result] with [let*] in [py_scope]; truthiness;
      [d[k]] on an association list ([py_getitem]); [sum_Z] and [mean_Q]
      (Python's [sum] and true division by [len]); [round(x, 1)] on exact
      rationals ([round_half_even], [py_round1]); the hint database
      [gitaudit], the tactics and the list, option and integer lemmas.
    - [Codec]: the library calls of app.py 143 as CPython 3.11 runs them:
      [base64.b64decode] ([b64decode]: the ASCII check, then the
      non-strict [binascii.a2b_base64] loop [a2b_go]), the strict UTF-8
      decoder ([utf8_valid], [utf8_decode]) and [str[:n]] by code points
      ([take_cp]); the encoders GitHub applies, for the round trip.
    - [Repo]: the JSON dicts as records: [RawRepo] (the keys the code
      reads), the enrichment [Enriched], the scored [Repo], [User], [Org],
      the fetched [Bundle] and the sentinel type [FetchResult].
    - [Timestamp]: [datetime.strptime(s, '%Y-%m-%dT%H:%M:%SZ')], CPython's
      ordinal arithmetic ([_ymd2ord], [_days_before_year]) and
      [timedelta.days]; parse/print round trip, calendar lemmas.
    - [Scoring] (Module [Scoring]): the three per-repository scores.
    - [Portfolio] (Module [Portfolio], stdpp's [gset] for the language
      set): [calculate_portfolio_score] and its six dimensions.
    - [Recommend] (Module [Recommend]): [get_actionable_recommendations]
      against the reference [all_recommendations] (the list before the cut).
    - [Fetcher]: the fetcher in a monad [M] of requests and exceptions
      (a request trace is threaded through), over a record [GitHub] of
      endpoints (a Section parameter, like the base64 decoder and the
      clock); [fetch_pages] is the [while] loop.
    - [AIAdapter]: [get_working_model] over a model listing, the prompt
      f-string (checked byte for byte against CPython), [str.replace] and
      [str.strip], [analyze_with_ai] over the SDK and [json.loads] as
      Section parameters.
    - [Script]: what a run shows ([Output], one constructor per [st.*]
      call that shows data) and the run as a writer monad of outputs with
      exceptions ([Script], [let%], [sfor], [finish]).
    - [Dashboard]: the [else] branch (app.py 430-757) statement by
      statement ([dashboard]) with its parts [language_distribution]
      ([Counter]), [activity_timeline] (pandas' stable descending sort),
      [deep_dive] ([st.selectbox], [next(...)]), [ai_items],
      [interview_tab]; Python's [d[k]], [in], slicing, iteration and
      [.items()] on each kind of decoded JSON value.
    - [Pipeline]: one run of the script ([run_script]) and sessions: a
      state [Session] (the text box, the selector's stored value), a step
      per event [session_step] under Streamlit's rerun rules (a button is
      [True] only in the run its click causes; a widget's state is dropped
      by a run that does not draw it) and the reachable states
      [reachable].

    ** What the theorems show

    - bounds: every per-repository score is in [0,100] (activity in
      [10,100]); the portfolio score is in [0,85], not [0,100], and 85 is
      reached; every dimension is in [0,100];
    - the fetcher: without a token nothing is sent; the loop collects
      exactly the first 60 repositories (two pages of 30, not 50); the
      unguarded languages call turns any network error into [ERROR]; a
      failed README request only marks the README absent; every returned
      repository carries its own scores and its portfolio score is in range;
    - recommendations: at most five; Scenario D for any bundle (six rules
      fire, the first five in evaluation order are kept); the cut ignores
      priorities (a qualifying High item is dropped behind five Medium
      ones); [KeyError] for a user without repositories;
    - the adapter: no key means no model; the chosen model is a listed
      [flash] model or the fallback; no fence reaches [json.loads];
      Scenario E; errors are reported and give [None]; any decoded JSON is
      returned unchecked (fail-open); the prompt lists each of the first
      ten repositories in API order and is blind to the stars of the
      others, so it does not name the most starred;
    - README decoding: base64 of UTF-8 text, wrapped with newlines as
      GitHub sends it, decodes back to the same text (round trip), and
      [get_readme_content] returns its first 500 code points; [[:n]] on
      UTF-8 bytes is [firstn n] on code points; any preview returned is
      valid UTF-8 of at most 500 code points; a [null] content or one that
      is not base64 of UTF-8 text makes the README count as absent;
    - the dashboard: [Counter(...).items()] equals its specification
      (distinct values in order of first occurrence, with their counts),
      so the language chart shows the first eight languages met with their
      true counts and leaves out any language met later, however often it
      is used; the timeline's sort is sorted, a permutation and stable;
      a reply without ["verdict"] crashes the dashboard; a user without
      repositories crashes the run after the AI call;
    - the page and sessions: the export download is never offered in any
      session; the demo button never starts an analysis; picking a
      repository hides the dashboard and is forgotten, so in every
      reachable state the deep dive's selector shows the first repository
      (invariant by rule induction over [reachable]); from every state,
      typing a name and clicking ANALYZE runs the analysis (liveness); an
      animation download that raises, or answers 200 with a body that is
      not JSON, ends every run.

    ** Fuel

    [fetch_pages] gets 50 rounds of fuel.  Each round either stops or adds
    a non-empty page, and the loop stops once 50 repositories are held, so
    it runs at most 50 rounds; the theorem [fetch_pages_fuel] shows that
    any fuel beyond what is left when rounds plus repositories reach 50
    gives the same run, so 50 is always enough.  All other recursion is
    structural.

    ** What is abstracted or left out

    Python floats are exact rationals [Q]: the weights 0.20 and 0.15 are
    1/5 and 3/20 and [round(x, 1)] rounds the exact value half to even.
    Network calls, the Gemini SDK and [json.loads] are parameters
    (oracles); the fetcher takes the README decoder as a parameter too,
    and the README theorems instantiate it with [Codec]'s model.
    [datetime.now()] is one value for the run.  Strings are byte strings
    (UTF-8 where the code decodes).  A chart is the data it is drawn from;
    CSS, headings, layout, [st.balloons], [st.spinner] and [time.sleep]
    (app.py 16-75 and the styling calls of the tabs) show no data and are
    not modelled; the [st.error] of the fetcher's [except] clause is not an
    output of the model.  pandas' [sort_values] is modelled for the at most
    ten rows of the timeline, where numpy's quicksort is an insertion sort. *)

From Stdlib Require Import ZArith QArith Qround Lqa String List Bool Lia DecimalString.
Import ListNotations.

Declare Scope py_scope.
Delimit Scope py_scope with py.

(** ** Python exceptions and the result monad *)

(** The exceptions the modelled code can raise or catch. *)
Inductive PyExc :=
| KeyError (key : string)          (* d[k] on a missing key *)
| TypeError (what : string)        (* e.g. strptime(None, ...) *)
| ValueError (what : string)       (* e.g. strptime on a mismatching string *)
| RequestException                 (* requests.get raising: connection, DNS, ... *)
| JSONDecodeError                  (* response.json() / json.loads on bad text *)
| BinasciiError (what : string)    (* binascii.Error, a ValueError: bad base64 *)
| UnicodeDecodeError               (* bytes.decode('utf-8') on malformed UTF-8 *)
| AttributeError (what : string)   (* e.g. .items() on a list *)
| StopIteration.                   (* next() on an exhausted generator *)

(** A Python computation that returns an [A] or raises. *)
Inductive result (A : Type) : Type :=
| Ok (a : A)
| Raise (e : PyExc).
Arguments Ok {A} a.
Arguments Raise {A} e.

Definition py_bind {A B} (c : result A) (k : A -> result B) : result B :=
  match c with
  | Ok a => k a
  | Raise e => Raise e
  end.

(** [try: c  except: h(e)] *)
Definition py_catch {A} (c : result A) (h : PyExc -> result A) : result A :=
  match c with
  | Ok a => Ok a
  | Raise e => h e
  end.

Notation "'let*' x ':=' c 'in' k" := (py_bind c (fun x => k))
  (at level 10, x name, c at level 100, k at level 200) : py_scope.

Definition is_ok {A} (r : result A) : bool :=
  match r with Ok _ => true | Raise _ => false end.

(** ** Python truthiness and numeric builtins *)

(** [str(n)] of an [int]. *)
Definition str_of_Z (z : Z) : string := NilEmpty.string_of_int (Z.to_int z).

(** [if x:] for a JSON string field that may be [null]: [None] and [""]
    are falsy. *)
Definition truthy_str (o : option string) : bool :=
  match o with
  | Some s => negb (String.eqb s "")
  | None => false
  end.

(** [d[k]] on a dict with string keys, kept in insertion order. *)
Fixpoint py_getitem {V} (d : list (string * V)) (k : string) : result V :=
  match d with
  | [] => Raise (KeyError k)
  | (k', v) :: d' => if String.eqb k k' then Ok v else py_getitem d' k
  end.

(** [x < y] on numbers that are floats in the code. *)
Definition Qltb (x y : Q) : bool := negb (Qle_bool y x).

(** [if xs:] for a list: only the empty list is falsy. *)
Definition truthy_list {A} (l : list A) : bool :=
  match l with
  | [] => false
  | _ :: _ => true
  end.

(** [sum(f(r) for r in l)] on integers. *)
Fixpoint sum_Z {A} (f : A -> Z) (l : list A) : Z :=
  match l with
  | [] => 0%Z
  | x :: l' => (f x + sum_Z f l')%Z
  end.

(** [total / n] with Python's true division (a float, here a rational). *)
Definition mean_Q (total : Z) (n : nat) : Q :=
  inject_Z total / inject_Z (Z.of_nat n).

(** Python rounds the exact value half to even. *)
Definition round_half_even (x : Q) : Z :=
  let f := Qfloor x in
  match Qcompare (x - inject_Z f) (1 # 2) with
  | Lt => f
  | Gt => (f + 1)%Z
  | Eq => if Z.even f then f else (f + 1)%Z
  end.

(** [round(x, 1)]: round [10 x], then scale back by one tenth. *)
Definition py_round1 (x : Q) : Q := inject_Z (round_half_even (x * 10)) * (1 # 10).

(** The integers [0 .. n - 1], for properties checked by evaluation over
    a small range (bytes, base64 digits). *)
Definition zrange (n : nat) : list Z := map Z.of_nat (seq 0 n).

Create HintDb gitaudit.

(** ** Tactics *)

(** Case on every [if] of the goal, keeping the tested equation. *)
Ltac destruct_ifs :=
  repeat match goal with
         | |- context [if ?b then _ else _] => destruct b eqn:?
         end.

(** ** Generic lemmas: sums *)

Lemma sum_Z_app {A} (f : A -> Z) (l1 l2 : list A) :
  sum_Z f (l1 ++ l2) = (sum_Z f l1 + sum_Z f l2)%Z.
Proof. induction l1 as [|x l1 IH]; simpl; lia. Qed.

Lemma sum_Z_bounds {A} (f : A -> Z) (lo hi : Z) (l : list A) :
  (forall x, In x l -> lo <= f x <= hi)%Z ->
  (lo * Z.of_nat (length l) <= sum_Z f l <= hi * Z.of_nat (length l))%Z.
Proof.
  induction l as [|x l IH]; intros H; cbn [length sum_Z]; [lia|].
  assert (Hx := H x (or_introl eq_refl)).
  assert (Hl := IH (fun y Hy => H y (or_intror Hy))).
  rewrite Nat2Z.inj_succ. nia.
Qed.

Lemma sum_Z_nonneg {A} (f : A -> Z) (l : list A) :
  (forall x, In x l -> 0 <= f x)%Z -> (0 <= sum_Z f l)%Z.
Proof.
  induction l as [|x l IH]; intros H; simpl; [lia|].
  specialize (IH (fun y Hy => H y (or_intror Hy))). specialize (H x (or_introl eq_refl)). lia.
Qed.
#[export] Hint Resolve sum_Z_nonneg : gitaudit.

(** ** Generic lemmas: points for a boolean signal *)

(** The points [k] a score adds when a boolean signal holds. *)
Definition pts (b : bool) (k : Z) : Z := if b then k else 0%Z.

Lemma pts_bounds (b : bool) (k : Z) : (0 <= k -> 0 <= pts b k <= k)%Z.
Proof. destruct b; simpl; lia. Qed.

Lemma pts_mono (b1 b2 : bool) (k : Z) :
  (b1 = true -> b2 = true) -> (0 <= k)%Z -> (pts b1 k <= pts b2 k)%Z.
Proof. destruct b1, b2; simpl; intuition (try discriminate; lia). Qed.
#[export] Hint Resolve pts_mono : gitaudit.

(** Replace every [pts b k] of the goal and the context by a fresh
    integer in [0, k]. *)
Ltac pts_bound_one b k :=
  let x := fresh "p" in
  pose proof (pts_bounds b k ltac:(lia)); set (x := pts b k) in *; clearbody x.

Ltac pts_bound_all :=
  repeat match goal with
         | _ : context [pts ?b ?k] |- _ => pts_bound_one b k
         | |- context [pts ?b ?k] => pts_bound_one b k
         end.

(** ** Generic lemmas: lists *)

Lemma In_firstn {A} (n : nat) (x : A) (l : list A) : In x (firstn n l) -> In x l.
Proof. intros H. rewrite <- (firstn_skipn n l). apply in_or_app. left. exact H. Qed.

Lemma In_skipn {A} (n : nat) (x : A) (l : list A) : In x (skipn n l) -> In x l.
Proof. intros H. rewrite <- (firstn_skipn n l). apply in_or_app. right. exact H. Qed.

Lemma firstn_app_skipn {A} (a b : nat) (l : list A) :
  firstn a l ++ firstn b (skipn a l) = firstn (a + b) l.
Proof.
  revert l. induction a as [|a IH]; intros [|x l]; simpl; auto.
  - destruct b; reflexivity.
  - f_equal. apply IH.
Qed.

(** A page [firstn (S b) (skipn a l)] is empty exactly when [l] has at
    most [a] elements. *)
Lemma firstn_skipn_nil {A} (a b : nat) (l : list A) :
  firstn (S b) (skipn a l) = [] -> (length l <= a)%nat.
Proof.
  intros H. destruct (skipn a l) as [|x r] eqn:E; [|discriminate].
  pose proof (length_skipn a l) as L. rewrite E in L. simpl in L. lia.
Qed.

(** ** Generic lemmas: dicts and comparisons *)

Lemma py_getitem_in {V} (d : list (string * V)) (k : string) :
  In k (map fst d) -> exists v, py_getitem d k = Ok v /\ In (k, v) d.
Proof.
  induction d as [|[k' v'] d IH]; simpl; [intros []|].
  intros H. destruct (String.eqb_spec k k') as [->|Ne].
  - exists v'. split; [reflexivity | left; reflexivity].
  - destruct H as [H|H]; [congruence|]. destruct (IH H) as (v & E & I). exists v. auto.
Qed.

Lemma py_getitem_nil {V} (k : string) : @py_getitem V [] k = Raise (KeyError k).
Proof. reflexivity. Qed.

Lemma Qltb_iff (x y : Q) : Qltb x y = true <-> x < y.
Proof.
  unfold Qltb. rewrite negb_true_iff. split.
  - intros H. apply Qnot_le_lt. intros C. apply Qle_bool_iff in C. congruence.
  - intros H. destruct (Qle_bool y x) eqn:E; [|reflexivity].
    apply Qle_bool_iff in E. exfalso. apply (Qlt_not_le x y H E).
Qed.

(** ** Generic lemmas: rationals *)

Lemma Zle_of_Q_half (a b : Z) : inject_Z a - (1 # 2) <= inject_Z b -> (a <= b)%Z.
Proof.
  intros H. destruct (Z.le_gt_cases a b) as [|C]; [assumption | exfalso].
  assert (C' : (b + 1 <= a)%Z) by lia.
  rewrite Zle_Qle, inject_Z_plus in C'. change (inject_Z 1) with 1 in C'. lra.
Qed.

Lemma mean_Q_bounds (lo hi total : Z) (n : nat) :
  (0 < n)%nat -> (lo * Z.of_nat n <= total <= hi * Z.of_nat n)%Z ->
  inject_Z lo <= mean_Q total n <= inject_Z hi.
Proof.
  intros Hn [A B]. unfold mean_Q.
  assert (P : 0 < inject_Z (Z.of_nat n)).
  { change 0 with (inject_Z 0). rewrite <- Zlt_Qlt. lia. }
  rewrite Zle_Qle, inject_Z_mult in A, B.
  split; [apply Qle_shift_div_l | apply Qle_shift_div_r]; auto.
Qed.

(** [round_half_even x] is within one half of [x]. *)
Lemma round_half_even_close (x : Q) :
  inject_Z (round_half_even x) - (1 # 2) <= x <= inject_Z (round_half_even x) + (1 # 2).
Proof.
  unfold round_half_even.
  pose proof (Qfloor_le x) as L. pose proof (Qlt_floor x) as U.
  rewrite inject_Z_plus in U. change (inject_Z 1) with 1 in U.
  destruct (Qcompare_spec (x - inject_Z (Qfloor x)) (1 # 2)) as [E|E|E];
    [destruct (Z.even (Qfloor x)) | |];
    rewrite ?inject_Z_plus; change (inject_Z 1) with 1; split; lra.
Qed.

Lemma round_half_even_Z (k : Z) : round_half_even (inject_Z k) = k.
Proof.
  unfold round_half_even. rewrite Qfloor_Z.
  replace (inject_Z k - inject_Z k ?= 1 # 2) with Lt; [reflexivity|].
  symmetry. apply (proj1 (Qlt_alt _ _)). lra.
Qed.

(** [round(x, 1)] keeps a value inside integer bounds. *)
Lemma py_round1_bounds (lo hi : Z) (x : Q) :
  inject_Z lo <= x <= inject_Z hi -> inject_Z lo <= py_round1 x <= inject_Z hi.
Proof.
  intros [L H]. unfold py_round1.
  pose proof (round_half_even_close (x * 10)) as [A B].
  set (r := round_half_even (x * 10)) in *.
  assert (R1 : (10 * lo <= r)%Z).
  { apply Zle_of_Q_half. rewrite inject_Z_mult. change (inject_Z 10) with 10. lra. }
  assert (R2 : (r <= 10 * hi)%Z).
  { apply Zle_of_Q_half. rewrite inject_Z_mult. change (inject_Z 10) with 10. lra. }
  rewrite Zle_Qle, inject_Z_mult in R1, R2. change (inject_Z 10) with 10 in R1, R2.
  split; lra.
Qed.

(** A property checked on every element of [zrange n] holds on [[0, n)]. *)
Lemma zrange_forall (f : Z -> bool) (n : nat) :
  forallb f (zrange n) = true -> forall x, (0 <= x < Z.of_nat n)%Z -> f x = true.
Proof.
  unfold zrange. rewrite forallb_forall. intros H x Hx. apply H.
  apply in_map_iff. exists (Z.to_nat x). split; [lia | apply in_seq; lia].
Qed.

(** Two-variable version, for bit identities on pairs of small integers. *)
Lemma zrange_forall2 (f : Z -> Z -> bool) (n m : nat) :
  forallb (fun x => forallb (f x) (zrange m)) (zrange n) = true ->
  forall x y, (0 <= x < Z.of_nat n)%Z -> (0 <= y < Z.of_nat m)%Z -> f x y = true.
Proof.
  intros H x y Hx Hy.
  exact (zrange_forall (f x) m (zrange_forall (fun x => forallb (f x) (zrange m)) n H x Hx) y Hy).
Qed.
