(* ===== verification/Codec.v ===== *)
(** * Codec: [base64.b64decode(content).decode('utf-8')[:500]] (app.py 142-143)

    The README endpoint returns the file base64-encoded, in lines of 60
    characters.  [get_readme_content] decodes it with [base64.b64decode]
    (CPython 3.11+: [binascii.a2b_base64] in non-strict mode, which skips
    every character outside the alphabet and stops at a complete padding
    sequence), decodes the bytes as strict UTF-8, and keeps the first 500
    characters: code points, not bytes.

    Byte strings are [String.string] (one [ascii] per byte); a Python
    [str] is kept as its UTF-8 bytes, so [str[:n]] is [take_cp n].  The
    encoder [b64encode] is GitHub's side (RFC 4648 with padding) and the
    code point encoder [utf8_encode] builds the UTF-8 text of a list of
    Unicode scalar values; both serve to state round trips. *)

From Stdlib Require Import ZArith String Ascii List Bool Lia.
From S2P Require Import Prelude.
Import ListNotations.
Local Open Scope string_scope.
Local Open Scope Z_scope.
Local Open Scope py_scope.

(** ** Bytes *)

Definition byte (c : ascii) : Z := Z.of_nat (nat_of_ascii c).
Definition chr (z : Z) : ascii := ascii_of_nat (Z.to_nat z).

(** ** Base64 decoding: [binascii.a2b_base64], non-strict *)

(** [table_a2b_base64]: the value of an alphabet character. *)
Definition b64_value (c : ascii) : option Z :=
  let n := byte c in
  if (65 <=? n) && (n <=? 90) then Some (n - 65)
  else if (97 <=? n) && (n <=? 122) then Some (n - 71)
  else if (48 <=? n) && (n <=? 57) then Some (n + 4)
  else if n =? 43 then Some 62
  else if n =? 47 then Some 63
  else None.

Definition PAD : ascii := "=".

(** The message names the number of data characters, computed from the
    bytes emitted: [(bin_data - bin_data_start) / 3 * 4 + 1]. *)
Definition ERR_ONE_MORE (emitted : Z) : string :=
  "Invalid base64-encoded string: number of data characters (" ++ str_of_Z (emitted / 3 * 4 + 1)
  ++ ") cannot be 1 more than a multiple of 4".
Definition ERR_PADDING : string := "Incorrect padding".

(** The decoding loop.  [quad_pos] is the position in the current group
    of four, [leftchar] the bits not yet emitted, [pads] the [=] seen
    since the last data character; [pads] only counts from the third
    position on ([quad_pos >= 2 && quad_pos + ++pads >= 4] short-circuits).
    A byte is emitted at positions 1, 2 and 3; [emitted] counts them.
    The end of the input inside a group is an error; a complete padding
    ends the decoding. *)
Fixpoint a2b_go (s : string) (quad_pos : nat) (leftchar : Z) (pads : nat) (emitted : Z)
  : result string :=
  match s with
  | EmptyString =>
      match quad_pos with
      | O => Ok ""
      | 1%nat => Raise (BinasciiError (ERR_ONE_MORE emitted))
      | _ => Raise (BinasciiError ERR_PADDING)
      end
  | String c rest =>
      if Ascii.eqb c PAD then
        if (2 <=? quad_pos)%nat then
          if (4 <=? quad_pos + S pads)%nat then Ok ""
          else a2b_go rest quad_pos leftchar (S pads) emitted
        else a2b_go rest quad_pos leftchar pads emitted
      else
        match b64_value c with
        | None => a2b_go rest quad_pos leftchar pads emitted
        | Some v =>
            match quad_pos with
            | O => a2b_go rest 1 v 0 emitted
            | 1%nat =>
                let* r := a2b_go rest 2 (Z.land v 15) 0 (emitted + 1) in
                Ok (String (chr (Z.lor (Z.shiftl leftchar 2) (Z.shiftr v 4))) r)
            | 2%nat =>
                let* r := a2b_go rest 3 (Z.land v 3) 0 (emitted + 1) in
                Ok (String (chr (Z.lor (Z.shiftl leftchar 4) (Z.shiftr v 2))) r)
            | _ =>
                let* r := a2b_go rest 0 0 0 (emitted + 1) in
                Ok (String (chr (Z.lor (Z.shiftl leftchar 6) v)) r)
            end
        end
  end.

(** Every character is ASCII. *)
Fixpoint ascii_only (s : string) : bool :=
  match s with
  | EmptyString => true
  | String c rest => (byte c <? 128) && ascii_only rest
  end.

(** [base64.b64decode(s)] on a [str]: [s.encode('ascii')] first. *)
Definition b64decode (s : string) : result string :=
  if ascii_only s then a2b_go s 0 0 0 0
  else Raise (ValueError "string argument should contain only ASCII characters").

(** ** UTF-8 *)

Definition in_range (c : ascii) (lo hi : Z) : bool := (lo <=? byte c) && (byte c <=? hi).

Definition is_cont (c : ascii) : bool := in_range c 128 191.

(** The strict UTF-8 decoder's acceptance (Unicode Table 3-7): no
    overlong forms, no surrogates, nothing above U+10FFFF. *)
Fixpoint utf8_valid (s : string) : bool :=
  match s with
  | EmptyString => true
  | String c1 rest =>
      let b1 := byte c1 in
      if b1 <? 128 then utf8_valid rest
      else if (194 <=? b1) && (b1 <=? 223) then
        match rest with
        | String c2 rest' => is_cont c2 && utf8_valid rest'
        | _ => false
        end
      else if (224 <=? b1) && (b1 <=? 239) then
        match rest with
        | String c2 (String c3 rest') =>
            in_range c2 (if b1 =? 224 then 160 else 128) (if b1 =? 237 then 159 else 191)
            && is_cont c3 && utf8_valid rest'
        | _ => false
        end
      else if (240 <=? b1) && (b1 <=? 244) then
        match rest with
        | String c2 (String c3 (String c4 rest')) =>
            in_range c2 (if b1 =? 240 then 144 else 128) (if b1 =? 244 then 143 else 191)
            && is_cont c3 && is_cont c4 && utf8_valid rest'
        | _ => false
        end
      else false
  end.

(** [bytes.decode('utf-8')]: the text is the same bytes, when valid. *)
Definition utf8_decode (s : string) : result string :=
  if utf8_valid s then Ok s else Raise UnicodeDecodeError.

(** [str[:n]] on the UTF-8 bytes of a [str]: the first [n] code points,
    each with its continuation bytes. *)
Fixpoint take_cp (n : nat) (s : string) : string :=
  match s with
  | EmptyString => EmptyString
  | String c rest =>
      if is_cont c then String c (take_cp n rest)
      else match n with
           | O => EmptyString
           | S n' => String c (take_cp n' rest)
           end
  end.

(** [len(s)] of a [str] given by its UTF-8 bytes: the bytes that start
    a code point. *)
Definition cp_count (s : string) : nat :=
  length (filter (fun c => negb (is_cont c)) (list_ascii_of_string s)).

(** The text starts with a continuation byte. *)
Definition starts_cont (s : string) : bool :=
  match s with String c _ => is_cont c | EmptyString => false end.

(** [list(s)] on a [str]: its characters, each with its continuation
    bytes (a leading group of continuation bytes is a piece of its own). *)
Fixpoint cp_chars (s : string) : list string :=
  match s with
  | EmptyString => []
  | String c rest =>
      match cp_chars rest with
      | x :: r' => if starts_cont x then String c x :: r' else String c EmptyString :: x :: r'
      | [] => [String c EmptyString]
      end
  end.

(** [base64.b64decode(content).decode('utf-8')] *)
Definition b64decode_utf8 (content : string) : result string :=
  let* raw := b64decode content in utf8_decode raw.

(** ** GitHub's side: the encoders *)

Definition b64_char (v : Z) : ascii :=
  if v <? 26 then chr (v + 65)
  else if v <? 52 then chr (v + 71)
  else if v <? 62 then chr (v - 4)
  else if v =? 62 then "+"%char else "/"%char.

Definition enc3 (a b c : ascii) : string :=
  String (b64_char (byte a / 4))
  (String (b64_char (byte a mod 4 * 16 + byte b / 16))
  (String (b64_char (byte b mod 16 * 4 + byte c / 64))
  (String (b64_char (byte c mod 64)) EmptyString))).

(** RFC 4648 base64 with padding. *)
Fixpoint b64encode (s : string) : string :=
  match s with
  | String a (String b (String c rest)) => enc3 a b c ++ b64encode rest
  | String a (String b EmptyString) =>
      String (b64_char (byte a / 4))
      (String (b64_char (byte a mod 4 * 16 + byte b / 16))
      (String (b64_char (byte b mod 16 * 4)) (String PAD EmptyString)))
  | String a EmptyString =>
      String (b64_char (byte a / 4))
      (String (b64_char (byte a mod 4 * 16)) (String PAD (String PAD EmptyString)))
  | EmptyString => EmptyString
  end.

(** The characters [a2b_base64] skips. *)
Definition b64_noise (c : ascii) : bool :=
  negb (Ascii.eqb c PAD) && match b64_value c with None => true | Some _ => false end.

Fixpoint drop_noise (s : string) : string :=
  match s with
  | EmptyString => EmptyString
  | String c rest => if b64_noise c then drop_noise rest else String c (drop_noise rest)
  end.

(** GitHub's layout: a newline after every [n + 1] characters. *)
Fixpoint wrap_go (n k : nat) (s : string) : string :=
  match s with
  | EmptyString => String "010"%char EmptyString
  | String c rest =>
      match k with
      | O => String c (String "010"%char (wrap_go n n rest))
      | S k' => String c (wrap_go n k' rest)
      end
  end.

Definition wrap (n : nat) (s : string) : string := wrap_go n n s.

(** The UTF-8 bytes of one Unicode scalar value. *)
Definition utf8_encode_cp (cp : Z) : string :=
  if cp <? 128 then String (chr cp) EmptyString
  else if cp <? 2048 then
    String (chr (192 + cp / 64)) (String (chr (128 + cp mod 64)) EmptyString)
  else if cp <? 65536 then
    String (chr (224 + cp / 4096))
      (String (chr (128 + cp / 64 mod 64)) (String (chr (128 + cp mod 64)) EmptyString))
  else
    String (chr (240 + cp / 262144))
      (String (chr (128 + cp / 4096 mod 64))
        (String (chr (128 + cp / 64 mod 64)) (String (chr (128 + cp mod 64)) EmptyString))).

Definition utf8_encode (cps : list Z) : string :=
  fold_right (fun cp acc => utf8_encode_cp cp ++ acc) EmptyString cps.

Definition scalar_value (cp : Z) : Prop := 0 <= cp < 55296 \/ 57344 <= cp < 1114112.

(** The bytes [a2b_base64] emits for [t] data characters: three per
    group of four, one per character after the first of a group. *)
Definition data_bytes (t : nat) : Z := 3 * (Z.of_nat t / 4) + Z.max 0 (Z.of_nat t mod 4 - 1).

(** ** Byte and digit lemmas *)

Lemma byte_range (c : ascii) : 0 <= byte c < 256.
Proof. unfold byte. pose proof (nat_ascii_bounded c). lia. Qed.

Lemma chr_byte (c : ascii) : chr (byte c) = c.
Proof. unfold chr, byte. rewrite Nat2Z.id. apply ascii_nat_embedding. Qed.

(** Each digit is encoded by a character that decodes to it, is not the
    padding and is ASCII. *)
Lemma b64_char_ok (v : Z) :
  0 <= v < 64 ->
  b64_value (b64_char v) = Some v /\ Ascii.eqb (b64_char v) PAD = false /\ byte (b64_char v) < 128.
Proof.
  intro H.
  assert (E := zrange_forall (fun v => match b64_value (b64_char v) with
                                       | Some w => w =? v | None => false end
                                       && negb (Ascii.eqb (b64_char v) PAD)
                                       && (byte (b64_char v) <? 128)) 64
                 ltac:(vm_compute; reflexivity) v H).
  cbv beta in E. destruct (b64_value (b64_char v)) as [w|]; [|discriminate].
  apply andb_prop in E as [E E3]. apply andb_prop in E as [E1 E2].
  apply Z.eqb_eq in E1 as ->. apply negb_true_iff in E2. apply Z.ltb_lt in E3. auto.
Qed.

Lemma split_4_16 (x y : Z) :
  0 <= x < 4 -> 0 <= y < 16 -> Z.shiftr (x * 16 + y) 4 = x /\ Z.land (x * 16 + y) 15 = y.
Proof.
  intros Hx Hy.
  assert (E := zrange_forall2 (fun x y => (Z.shiftr (x * 16 + y) 4 =? x)
                                          && (Z.land (x * 16 + y) 15 =? y)) 4 16
                 ltac:(vm_compute; reflexivity) x y Hx Hy).
  apply andb_prop in E as [E1 E2]. split; apply Z.eqb_eq; assumption.
Qed.

Lemma split_16_4 (x y : Z) :
  0 <= x < 16 -> 0 <= y < 4 -> Z.shiftr (x * 4 + y) 2 = x /\ Z.land (x * 4 + y) 3 = y.
Proof.
  intros Hx Hy.
  assert (E := zrange_forall2 (fun x y => (Z.shiftr (x * 4 + y) 2 =? x)
                                          && (Z.land (x * 4 + y) 3 =? y)) 16 4
                 ltac:(vm_compute; reflexivity) x y Hx Hy).
  apply andb_prop in E as [E1 E2]. split; apply Z.eqb_eq; assumption.
Qed.

(** The three ways [a2b_base64] reassembles a byte from its two parts. *)
Lemma join_byte (b : Z) :
  0 <= b < 256 ->
  Z.lor (Z.shiftl (b / 4) 2) (b mod 4) = b /\ Z.lor (Z.shiftl (b / 16) 4) (b mod 16) = b /\
  Z.lor (Z.shiftl (b / 64) 6) (b mod 64) = b.
Proof.
  intro Hb.
  assert (E := zrange_forall (fun b => (Z.lor (Z.shiftl (b / 4) 2) (b mod 4) =? b)
                                       && (Z.lor (Z.shiftl (b / 16) 4) (b mod 16) =? b)
                                       && (Z.lor (Z.shiftl (b / 64) 6) (b mod 64) =? b))
                 256 ltac:(vm_compute; reflexivity) b Hb).
  cbv beta in E. rewrite !andb_true_iff, !Z.eqb_eq in E. tauto.
Qed.

(** ** Base64: decoding what GitHub encodes *)

Ltac zbounds := Z.div_mod_to_equations; lia.

Lemma a2b_enc3 (a b c : ascii) (rest : string) (k : Z) :
  a2b_go (enc3 a b c ++ rest) 0 0 0 k =
  let* r := a2b_go rest 0 0 0 (k + 1 + 1 + 1) in Ok (String a (String b (String c r))).
Proof.
  pose proof (byte_range a) as Ha. pose proof (byte_range b) as Hb. pose proof (byte_range c) as Hc.
  destruct (b64_char_ok (byte a / 4) ltac:(zbounds)) as (V1 & P1 & _).
  destruct (b64_char_ok (byte a mod 4 * 16 + byte b / 16) ltac:(zbounds)) as (V2 & P2 & _).
  destruct (b64_char_ok (byte b mod 16 * 4 + byte c / 64) ltac:(zbounds)) as (V3 & P3 & _).
  destruct (b64_char_ok (byte c mod 64) ltac:(zbounds)) as (V4 & P4 & _).
  unfold enc3. cbn [append a2b_go]. rewrite P1, V1, P2, V2, P3, V3, P4, V4.
  destruct (split_4_16 (byte a mod 4) (byte b / 16) ltac:(zbounds) ltac:(zbounds)) as [S1 S2].
  destruct (split_16_4 (byte b mod 16) (byte c / 64) ltac:(zbounds) ltac:(zbounds)) as [S3 S4].
  rewrite S1, S2, S3, S4.
  destruct (join_byte (byte a) Ha) as (J1 & _ & _). destruct (join_byte (byte b) Hb) as (_ & J2 & _).
  destruct (join_byte (byte c) Hc) as (_ & _ & J3). rewrite J1, J2, J3, !chr_byte.
  destruct (a2b_go rest 0 0 0 _); reflexivity.
Qed.

(** The two padded tails: two bytes give [xxx=], one byte [xx==]. *)
Lemma a2b_tails (a b : ascii) (k : Z) :
  a2b_go (b64encode (String a (String b EmptyString))) 0 0 0 k = Ok (String a (String b EmptyString)) /\
  a2b_go (b64encode (String a EmptyString)) 0 0 0 k = Ok (String a EmptyString).
Proof.
  pose proof (byte_range a) as Ha. pose proof (byte_range b) as Hb.
  destruct (b64_char_ok (byte a / 4) ltac:(zbounds)) as (V1 & P1 & _).
  destruct (b64_char_ok (byte a mod 4 * 16 + byte b / 16) ltac:(zbounds)) as (V2 & P2 & _).
  destruct (b64_char_ok (byte b mod 16 * 4) ltac:(zbounds)) as (V3 & P3 & _).
  destruct (b64_char_ok (byte a mod 4 * 16) ltac:(zbounds)) as (V2' & P2' & _).
  destruct (split_4_16 (byte a mod 4) (byte b / 16) ltac:(zbounds) ltac:(zbounds)) as [S1 S2].
  destruct (split_16_4 (byte b mod 16) 0 ltac:(zbounds) ltac:(lia)) as [S3 _].
  destruct (split_4_16 (byte a mod 4) 0 ltac:(zbounds) ltac:(lia)) as [S1' _].
  destruct (join_byte (byte a) Ha) as (J1 & _ & _). destruct (join_byte (byte b) Hb) as (_ & J2 & _).
  rewrite Z.add_0_r in S3, S1'.
  split; cbn [b64encode a2b_go]; rewrite ?P1, ?V1, ?P2, ?V2, ?P3, ?V3, ?P2', ?V2'.
  - rewrite S1, S2, S3, J1, J2, !chr_byte. reflexivity.
  - rewrite S1', J1, chr_byte. reflexivity.
Qed.

Lemma a2b_b64encode (s : string) (k : Z) : a2b_go (b64encode s) 0 0 0 k = Ok s.
Proof.
  remember (String.length s) as n eqn:Hn. revert s k Hn.
  induction n as [n IH] using (well_founded_induction lt_wf). intros s k ->.
  destruct s as [|a [|b [|c rest]]];
    [reflexivity | exact (proj2 (a2b_tails a a k)) | exact (proj1 (a2b_tails a b k))|].
  change (b64encode (String a (String b (String c rest)))) with (enc3 a b c ++ b64encode rest).
  rewrite a2b_enc3, (IH (String.length rest)) by (simpl; lia || reflexivity).
  reflexivity.
Qed.

Lemma ascii_only_app (x y : string) : ascii_only (x ++ y) = ascii_only x && ascii_only y.
Proof. induction x as [|c x IH]; [reflexivity | cbn; rewrite IH, andb_assoc; reflexivity]. Qed.

Lemma drop_noise_app (x y : string) : drop_noise (x ++ y) = drop_noise x ++ drop_noise y.
Proof. induction x as [|c x IH]; [reflexivity | cbn; rewrite IH; destruct (b64_noise c); reflexivity]. Qed.

(** What the encoder produces is ASCII and free of noise. *)
Lemma b64encode_clean (s : string) :
  ascii_only (b64encode s) = true /\ drop_noise (b64encode s) = b64encode s.
Proof.
  assert (D : forall v, 0 <= v < 64 -> (byte (b64_char v) <? 128) = true /\ b64_noise (b64_char v) = false).
  { intros v Hv. destruct (b64_char_ok v Hv) as (V & P & B). unfold b64_noise.
    rewrite V, P. split; [apply Z.ltb_lt, B | reflexivity]. }
  remember (String.length s) as n eqn:Hn. revert s Hn.
  induction n as [n IH] using (well_founded_induction lt_wf). intros s ->.
  destruct s as [|a [|b [|c rest]]]; [split; reflexivity| | |].
  all: pose proof (byte_range a) as Ha.
  - destruct (D (byte a / 4) ltac:(zbounds)) as [A1 N1].
    destruct (D (byte a mod 4 * 16) ltac:(zbounds)) as [A2 N2].
    cbn [b64encode ascii_only drop_noise]. rewrite A1, A2, N1, N2. split; reflexivity.
  - pose proof (byte_range b) as Hb.
    destruct (D (byte a / 4) ltac:(zbounds)) as [A1 N1].
    destruct (D (byte a mod 4 * 16 + byte b / 16) ltac:(zbounds)) as [A2 N2].
    destruct (D (byte b mod 16 * 4) ltac:(zbounds)) as [A3 N3].
    cbn [b64encode ascii_only drop_noise]. rewrite A1, A2, A3, N1, N2, N3. split; reflexivity.
  - pose proof (byte_range b) as Hb. pose proof (byte_range c) as Hc.
    destruct (IH (String.length rest) ltac:(simpl; lia) rest eq_refl) as [IA IN].
    destruct (D (byte a / 4) ltac:(zbounds)) as [A1 N1].
    destruct (D (byte a mod 4 * 16 + byte b / 16) ltac:(zbounds)) as [A2 N2].
    destruct (D (byte b mod 16 * 4 + byte c / 64) ltac:(zbounds)) as [A3 N3].
    destruct (D (byte c mod 64) ltac:(zbounds)) as [A4 N4].
    change (b64encode (String a (String b (String c rest)))) with (enc3 a b c ++ b64encode rest).
    rewrite ascii_only_app, drop_noise_app, IA, IN. unfold enc3.
    cbn [ascii_only drop_noise append]. rewrite A1, A2, A3, A4, N1, N2, N3, N4. split; reflexivity.
Qed.

(** [a2b_base64] skips the characters outside the alphabet. *)
Lemma a2b_drop_noise (s : string) (q : nat) (l : Z) (p : nat) (k : Z) :
  a2b_go s q l p k = a2b_go (drop_noise s) q l p k.
Proof.
  revert q l p k. induction s as [|c rest IH]; intros q l p k; [reflexivity|].
  cbn [drop_noise]. unfold b64_noise.
  destruct (Ascii.eqb c PAD) eqn:EP; cbn [negb andb].
  - cbn [a2b_go]. rewrite EP, !IH. reflexivity.
  - destruct (b64_value c) as [v|] eqn:EV; cbn [a2b_go]; rewrite EP, EV, ?IH; [|reflexivity].
    destruct q as [|[|[|q]]]; rewrite ?IH; reflexivity.
Qed.

Lemma wrap_go_clean (n k : nat) (t : string) :
  ascii_only (wrap_go n k t) = ascii_only t /\ drop_noise (wrap_go n k t) = drop_noise t.
Proof.
  revert k. induction t as [|c t IH]; intro k; [split; reflexivity|].
  destruct k as [|k]; cbn [wrap_go ascii_only drop_noise].
  - destruct (IH n) as [A N]. rewrite A, N. split; reflexivity.
  - destruct (IH k) as [A N]. rewrite A, N. split; reflexivity.
Qed.

(** ** UTF-8: the bytes of a scalar value *)

Lemma byte_chr (z : Z) : 0 <= z < 256 -> byte (chr z) = z.
Proof.
  intro H. unfold byte, chr. rewrite nat_ascii_embedding by lia. apply Z2Nat.id. lia.
Qed.

(** One step of the decoder on a well-formed sequence of 1 to 4 bytes. *)
Lemma utf8_valid_step (c1 c2 c3 c4 : ascii) (rest : string) :
  (byte c1 < 128 -> utf8_valid (String c1 rest) = utf8_valid rest) /\
  (194 <= byte c1 <= 223 -> is_cont c2 = true ->
   utf8_valid (String c1 (String c2 rest)) = utf8_valid rest) /\
  (224 <= byte c1 <= 239 ->
   in_range c2 (if byte c1 =? 224 then 160 else 128) (if byte c1 =? 237 then 159 else 191) = true ->
   is_cont c3 = true -> utf8_valid (String c1 (String c2 (String c3 rest))) = utf8_valid rest) /\
  (240 <= byte c1 <= 244 ->
   in_range c2 (if byte c1 =? 240 then 144 else 128) (if byte c1 =? 244 then 143 else 191) = true ->
   is_cont c3 = true -> is_cont c4 = true ->
   utf8_valid (String c1 (String c2 (String c3 (String c4 rest)))) = utf8_valid rest).
Proof.
  cbn [utf8_valid]. repeat split; intros; cbn zeta;
    repeat match goal with H : _ = true |- _ => rewrite H; clear H end;
    repeat match goal with
      | |- context [Z.ltb ?a ?b] => destruct (Z.ltb_spec a b); try lia
      | |- context [Z.leb ?a ?b] => destruct (Z.leb_spec a b); try lia
      end; reflexivity.
Qed.

Lemma in_range_chr (z lo hi : Z) : 0 <= z < 256 -> lo <= z <= hi -> in_range (chr z) lo hi = true.
Proof. intros H R. unfold in_range. rewrite byte_chr by exact H. apply andb_true_intro; split; apply Z.leb_le; lia. Qed.

Lemma not_cont_chr (z : Z) : 0 <= z < 128 \/ 192 <= z < 256 -> is_cont (chr z) = false.
Proof.
  intro H. unfold is_cont, in_range. rewrite byte_chr by lia.
  destruct (Z.leb_spec 128 z), (Z.leb_spec z 191); cbn [andb]; reflexivity || lia.
Qed.

(** The lead byte of a scalar value's encoding is accepted by the
    decoder, its continuation bytes are continuation bytes, and
    [take_cp] sees it as one character. *)
Lemma utf8_encode_cp_spec (cp : Z) (rest : string) :
  scalar_value cp ->
  utf8_valid (utf8_encode_cp cp ++ rest) = utf8_valid rest /\
  (forall n, take_cp (S n) (utf8_encode_cp cp ++ rest) = utf8_encode_cp cp ++ take_cp n rest) /\
  take_cp 0 (utf8_encode_cp cp ++ rest) = "".
Proof.
  unfold scalar_value. intro H.
  assert (C : forall z, 0 <= z < 64 -> is_cont (chr (128 + z)) = true)
    by (intros z Hz; apply in_range_chr; lia).
  unfold utf8_encode_cp.
  destruct (Z.ltb_spec cp 128); [|destruct (Z.ltb_spec cp 2048); [|destruct (Z.ltb_spec cp 65536)]];
    cbn [append take_cp].
  - rewrite not_cont_chr by lia. split; [|split; reflexivity].
    apply (utf8_valid_step _ "a" "a" "a"). rewrite byte_chr; lia.
  - rewrite not_cont_chr by zbounds. rewrite !C by zbounds. split; [|split; reflexivity].
    apply (utf8_valid_step _ _ "a" "a"); [rewrite byte_chr; zbounds | apply C; zbounds].
  - rewrite not_cont_chr by zbounds. rewrite !C by zbounds. split; [|split; reflexivity].
    assert (B : 0 <= 224 + cp / 4096 < 256) by zbounds.
    apply (utf8_valid_step _ _ _ "a"); rewrite ?byte_chr by exact B; [zbounds| |apply C; zbounds].
    apply in_range_chr; [zbounds|].
    destruct (Z.eqb_spec (224 + cp / 4096) 224), (Z.eqb_spec (224 + cp / 4096) 237); zbounds.
  - rewrite not_cont_chr by zbounds. rewrite !C by zbounds. split; [|split; reflexivity].
    assert (B : 0 <= 240 + cp / 262144 < 256) by zbounds.
    apply (utf8_valid_step _ _ _ _); rewrite ?byte_chr by exact B; [zbounds| |apply C; zbounds..].
    apply in_range_chr; [zbounds|].
    destruct (Z.eqb_spec (240 + cp / 262144) 240), (Z.eqb_spec (240 + cp / 262144) 244); zbounds.
Qed.

Lemma utf8_encode_cons (cp : Z) (cps : list Z) :
  utf8_encode (cp :: cps) = utf8_encode_cp cp ++ utf8_encode cps.
Proof. reflexivity. Qed.

Lemma b64_value_ascii (c : ascii) (v : Z) : b64_value c = Some v -> byte c < 128.
Proof.
  unfold b64_value. pose proof (byte_range c).
  repeat match goal with
    | |- context [Z.leb ?a ?b] => destruct (Z.leb_spec a b)
    | |- context [Z.eqb ?a ?b] => destruct (Z.eqb_spec a b)
    end; cbn [andb]; intro E; try discriminate; lia.
Qed.

(** The error case of [a2b_data]: the same position modulo 4 and the
    same number of emitted bytes, written two ways. *)
Ltac a2b_count IH :=
  cbn [py_bind]; destruct IH as [H1 ->];
  split; [first [exact H1 | intro E; apply H1; zbounds]|];
  cbn [Nat.add] in *;
  match goal with
  | |- BinasciiError (if ?a =? 1 then _ else _) = BinasciiError (if ?b =? 1 then _ else _) =>
      replace b with a by zbounds; destruct (a =? 1); [|reflexivity]
  end;
  do 2 f_equal; unfold data_bytes; zbounds.

(** On characters of the alphabet only, the decoder fails exactly when
    the number of characters, counted from the position [q] in the
    group, is not a multiple of 4. *)
Lemma a2b_data (s : string) (q : nat) (l : Z) (p : nat) (k : Z) :
  (q < 4)%nat -> forallb (fun c => negb (b64_noise c || Ascii.eqb c PAD)) (list_ascii_of_string s) = true ->
  match a2b_go s q l p k with
  | Ok _ => Z.of_nat (q + String.length s) mod 4 = 0
  | Raise e => Z.of_nat (q + String.length s) mod 4 <> 0 /\
               e = BinasciiError (if Z.of_nat (q + String.length s) mod 4 =? 1
                                  then ERR_ONE_MORE (k + data_bytes (q + String.length s) - data_bytes q)
                                  else ERR_PADDING)
  end.
Proof.
  revert q l p k. induction s as [|c rest IH]; intros q l p k Hq Hd.
  - destruct q as [|[|[|[|q]]]]; cbn [a2b_go String.length Nat.add]; try (cbn; lia).
    all: split; [cbn; lia | rewrite ?Z.add_simpl_r; reflexivity].
  - cbn [list_ascii_of_string forallb] in Hd. apply andb_prop in Hd as [Hc Hd].
    unfold b64_noise in Hc. destruct (Ascii.eqb c PAD) eqn:EP; [cbn in Hc; discriminate|].
    destruct (b64_value c) as [v|] eqn:EV; [|discriminate]. cbn [a2b_go]. rewrite EP, EV.
    cbn [String.length]. rewrite Nat.add_succ_r.
    destruct q as [|[|[|[|q]]]]; try lia.
    + specialize (IH 1%nat v 0%nat k ltac:(lia) Hd).
      destruct (a2b_go rest 1 v 0 k); [exact IH|]. a2b_count IH.
    + specialize (IH 2%nat (Z.land v 15) 0%nat (k + 1) ltac:(lia) Hd).
      destruct (a2b_go rest 2 _ _ _); [exact IH|]. a2b_count IH.
    + specialize (IH 3%nat (Z.land v 3) 0%nat (k + 1) ltac:(lia) Hd).
      destruct (a2b_go rest 3 _ _ _); [exact IH|]. a2b_count IH.
    + specialize (IH 0%nat 0 0%nat (k + 1) ltac:(lia) Hd).
      destruct (a2b_go rest 0 0 0 _); [cbn [py_bind]; zbounds|]. a2b_count IH.
Qed.

Lemma data_ascii_only (s : string) :
  forallb (fun c => negb (b64_noise c || Ascii.eqb c PAD)) (list_ascii_of_string s) = true ->
  ascii_only s = true.
Proof.
  induction s as [|c rest IH]; [reflexivity|]. cbn. intro H. apply andb_prop in H as [Hc H].
  unfold b64_noise in Hc. destruct (b64_value c) as [v|] eqn:EV.
  - apply b64_value_ascii in EV. rewrite (proj2 (Z.ltb_lt _ _) EV), IH by exact H. reflexivity.
  - destruct (Ascii.eqb c PAD); discriminate.
Qed.

(** Decoding what GitHub encodes and wraps in lines of any width. *)
Lemma b64decode_wrap (n : nat) (s : string) : b64decode (wrap n (b64encode s)) = Ok s.
Proof.
  unfold b64decode, wrap. destruct (wrap_go_clean n n (b64encode s)) as [A N].
  destruct (b64encode_clean s) as [A' N']. rewrite A, A'.
  rewrite a2b_drop_noise, N, N'. apply a2b_b64encode.
Qed.

Lemma utf8_valid_encode (cps : list Z) : Forall scalar_value cps -> utf8_valid (utf8_encode cps) = true.
Proof.
  induction 1 as [|cp cps Hcp _ IH]; [reflexivity|].
  rewrite utf8_encode_cons, (proj1 (utf8_encode_cp_spec cp _ Hcp)). exact IH.
Qed.

(** ** UTF-8: what [[:n]] keeps *)

Lemma take_cp_count (n : nat) (s : string) : (cp_count (take_cp n s) <= n)%nat.
Proof.
  revert n. induction s as [|c s IH]; intro n; [cbn; lia|]. cbn [take_cp].
  unfold cp_count in *. destruct (is_cont c) eqn:E.
  - cbn [list_ascii_of_string filter]. rewrite E. exact (IH n).
  - destruct n as [|n]; [cbn; lia|]. cbn [list_ascii_of_string filter]. rewrite E.
    cbn [negb length]. specialize (IH n). lia.
Qed.

(** A valid text starts with an ASCII byte or a lead byte. *)
Lemma utf8_valid_lead (c : ascii) (rest : string) :
  utf8_valid (String c rest) = true -> is_cont c = false.
Proof.
  unfold is_cont, in_range. cbn [utf8_valid].
  destruct (Z.ltb_spec (byte c) 128); [intros _; apply andb_false_iff; left; apply Z.leb_gt; lia|].
  destruct (Z.leb_spec 194 (byte c)); [intros _; apply andb_false_iff; right; apply Z.leb_gt; lia|].
  destruct (Z.leb_spec 224 (byte c)); [lia|]. destruct (Z.leb_spec 240 (byte c)); [lia|].
  cbn. intro Hv. discriminate Hv.
Qed.

Lemma in_range_cont (c : ascii) (lo hi : Z) :
  128 <= lo -> hi <= 191 -> in_range c lo hi = true -> is_cont c = true.
Proof. unfold is_cont, in_range. rewrite !andb_true_iff, !Z.leb_le. lia. Qed.

Lemma take_cp_valid_len (k : nat) :
  forall n s, (String.length s <= k)%nat -> utf8_valid s = true -> utf8_valid (take_cp n s) = true.
Proof.
  induction k as [|k IH]; intros n s Hk H;
    (destruct s as [|c1 rest]; [destruct n; reflexivity|]); [cbn in Hk; lia|].
  cbn [String.length] in Hk. pose proof (utf8_valid_lead c1 rest H) as Hc1.
  destruct n as [|n]; cbn [take_cp]; rewrite Hc1; [reflexivity|].
  revert H. cbn [utf8_valid].
  destruct (byte c1 <? 128); [intro H; apply IH; [lia | exact H]|].
  destruct ((194 <=? byte c1) && (byte c1 <=? 223)).
  { destruct rest as [|c2 rest]; [discriminate|]. cbn [String.length] in Hk.
    intro H. apply andb_true_iff in H as [H2 H]. cbn [take_cp]. rewrite H2, H2.
    apply IH; [lia | exact H]. }
  destruct ((224 <=? byte c1) && (byte c1 <=? 239)).
  { destruct rest as [|c2 [|c3 rest]]; try discriminate. cbn [String.length] in Hk.
    intro H. apply andb_true_iff in H as [H2 H]. apply andb_true_iff in H2 as [H2 H3].
    assert (C2 : is_cont c2 = true)
      by (eapply in_range_cont; [| |exact H2];
          destruct (Z.eqb_spec (byte c1) 224), (Z.eqb_spec (byte c1) 237),
            (Z.eqb_spec (byte c1) 240), (Z.eqb_spec (byte c1) 244); lia).
    cbn [take_cp]. rewrite C2, H3. cbn. rewrite H2, H3. apply IH; [lia | exact H]. }
  destruct ((240 <=? byte c1) && (byte c1 <=? 244)); [|discriminate].
  destruct rest as [|c2 [|c3 [|c4 rest]]]; try discriminate. cbn [String.length] in Hk.
  intro H. apply andb_true_iff in H as [H2 H]. apply andb_true_iff in H2 as [H2 H4].
  apply andb_true_iff in H2 as [H2 H3].
  assert (C2 : is_cont c2 = true)
    by (eapply in_range_cont; [| |exact H2];
          destruct (Z.eqb_spec (byte c1) 224), (Z.eqb_spec (byte c1) 237),
            (Z.eqb_spec (byte c1) 240), (Z.eqb_spec (byte c1) 244); lia).
  cbn [take_cp]. rewrite C2, H3, H4. cbn. rewrite H2, H3, H4. apply IH; [lia | exact H].
Qed.

(** [[:n]] of a valid text is a valid text of at most [n] code points. *)
Lemma take_cp_wf (n : nat) (s : string) :
  utf8_valid s = true -> utf8_valid (take_cp n s) = true /\ (cp_count (take_cp n s) <= n)%nat.
Proof. intro H. split; [exact (take_cp_valid_len _ n s (le_n _) H) | apply take_cp_count]. Qed.

(** What [b64decode_utf8] returns is valid UTF-8. *)
Lemma b64decode_utf8_valid (content text : string) :
  b64decode_utf8 content = Ok text -> utf8_valid text = true.
Proof.
  unfold b64decode_utf8, utf8_decode. destruct (b64decode content) as [raw|e]; [|discriminate].
  cbn [py_bind]. destruct (utf8_valid raw) eqn:E; [|discriminate]. intros [= <-]. exact E.
Qed.

(** ** Theorems *)

(** C12: round trip of the README transport: the text GitHub encodes as
    UTF-8, then base64, wrapped in lines of any width, comes back from
    [base64.b64decode(content).decode('utf-8')] unchanged; the newlines
    are skipped by the non-strict decoder. *)
Theorem b64decode_utf8_roundtrip (n : nat) (cps : list Z) :
  Forall scalar_value cps ->
  b64decode_utf8 (wrap n (b64encode (utf8_encode cps))) = Ok (utf8_encode cps).
Proof.
  intro H. unfold b64decode_utf8, utf8_decode. rewrite b64decode_wrap. cbn [py_bind].
  rewrite utf8_valid_encode by exact H. reflexivity.
Qed.

(** C19: [take_cp] on the UTF-8 bytes is Python's [str[:n]]: it keeps the
    first [n] code points, not the first [n] bytes. *)
Theorem take_cp_code_points (n : nat) (cps : list Z) :
  Forall scalar_value cps -> take_cp n (utf8_encode cps) = utf8_encode (firstn n cps).
Proof.
  intro H. revert n. induction H as [|cp cps Hcp _ IH]; intro n; [destruct n; reflexivity|].
  destruct (utf8_encode_cp_spec cp (utf8_encode cps) Hcp) as (_ & S & Z0).
  destruct n as [|n]; rewrite utf8_encode_cons; [exact Z0|].
  rewrite S, IH. reflexivity.
Qed.

(** a base64 text of data characters only (no padding) whose length
    is not a multiple of 4 makes [base64.b64decode] raise
    [binascii.Error]: one character too many, or incorrect padding. *)
Theorem b64decode_length_error (s : string) :
  forallb (fun c => negb (b64_noise c || Ascii.eqb c PAD)) (list_ascii_of_string s) = true ->
  Z.of_nat (String.length s) mod 4 <> 0 ->
  b64decode s = Raise (BinasciiError (if Z.of_nat (String.length s) mod 4 =? 1
                                      then ERR_ONE_MORE (data_bytes (String.length s))
                                      else ERR_PADDING)).
Proof.
  intros Hd Hl. unfold b64decode. rewrite (data_ascii_only s Hd).
  pose proof (a2b_data s 0 0 0 0 ltac:(lia) Hd) as R. cbn [Nat.add] in R.
  destruct (a2b_go s 0 0 0 0); [contradiction | destruct R as [_ ->]].
  destruct (_ =? 1); [|reflexivity]. do 3 f_equal. unfold data_bytes. cbn. lia.
Qed.

(** ** Witnesses *)

Lemma b64decode_utf8_roundtrip_witness :
  Forall scalar_value [104; 233; 8364] /\
  b64decode_utf8 (wrap 3 (b64encode (utf8_encode [104; 233; 8364]))) = Ok (utf8_encode [104; 233; 8364]).
Proof.
  assert (H : Forall scalar_value [104; 233; 8364]) by (repeat constructor; unfold scalar_value; lia).
  split; [exact H | exact (b64decode_utf8_roundtrip 3 _ H)].
Defined.

Lemma take_cp_code_points_witness :
  Forall scalar_value [233; 8364; 128512] /\
  take_cp 2 (utf8_encode [233; 8364; 128512]) = utf8_encode (firstn 2 [233; 8364; 128512]).
Proof.
  assert (H : Forall scalar_value [233; 8364; 128512]) by (repeat constructor; unfold scalar_value; lia).
  split; [exact H | exact (take_cp_code_points 2 _ H)].
Defined.

Lemma b64decode_length_error_witness :
  b64decode "SGVsbG8" = Raise (BinasciiError ERR_PADDING).
Proof. apply (b64decode_length_error "SGVsbG8"); vm_compute; [reflexivity | discriminate]. Defined.
