(* ===== verification/Repo.v ===== *)
(** * Data model: the GitHub records GitAudit reads and builds

    The code handles JSON objects as Python dicts.  Each record below
    holds the keys the code reads, with the types the GitHub REST API
    gives them; the enrichment keys the fetcher adds to each repository
    dict (app.py 188-206) are a second layer over the raw record, so the
    raw fields are kept unchanged by construction. *)

From Stdlib Require Import ZArith String List Bool.
From S2P Require Import Prelude.
Import ListNotations.

(** A string-valued key the API may omit or send as [null]:
    [repo.get(k, d)] returns [d] only when the key is missing. *)
Inductive JStr :=
| JMissing
| JNull
| JString (s : string).

(** One element of [GET /users/{u}/repos] (app.py 174-181). *)
Record RawRepo := {
  name : string;
  full_name : string;
  description : option string;
  homepage : option string;
  has_wiki : bool;
  has_pages : bool;
  has_issues : bool;
  has_projects : bool;
  size : Z;
  stargazers_count : Z;
  forks_count : Z;
  watchers_count : Z;
  open_issues_count : Z;
  pushed_at : JStr;
  created_at : string;
  language : option string;
  languages_url : string
}.

(** One week of [GET /repos/{r}/stats/commit_activity]. *)
Record WeekStat := {
  week : Z;
  total : Z;
  days : list Z
}.

(** The repository dict after the three enrichment calls (app.py 186-201):
    [readme_exists], [readme_preview], [languages], [languages_count],
    [commit_activity]. *)
Record Enriched := {
  raw : RawRepo;
  readme_exists : bool;
  readme_preview : option string;
  languages : list (string * Z);
  languages_count : Z;
  commit_activity : option (list WeekStat)
}.

(** The dict after the three scores are stored (app.py 203-208). *)
Record Repo := {
  enr : Enriched;
  doc_score : Z;
  code_score : Z;
  activity_score : Z
}.

(** [GET /users/{u}] (app.py 166-168). *)
Record User := {
  login : string;
  user_name : option string;
  bio : option string;
  location : option string;
  followers : Z;
  following : Z;
  public_repos : Z;
  user_created_at : string
}.

(** One element of [GET /users/{u}/orgs]. *)
Record Org := {
  org_login : string
}.

(** The bundle [{"user": ..., "repos": ..., "orgs": ...}] (app.py 214-218). *)
Record Bundle := {
  user : User;
  repos : list Repo;
  orgs : list Org
}.

(** The three outcomes of [get_enhanced_github_data]: the sentinels
    ["NO_TOKEN"] and ["ERROR"], or the bundle. *)
Inductive FetchResult :=
| NO_TOKEN
| ERROR
| Data (b : Bundle).

(** The counters GitHub reports are never negative. *)
Definition raw_wf (r : RawRepo) : bool :=
  ((0 <=? size r) && (0 <=? stargazers_count r) && (0 <=? forks_count r)
   && (0 <=? watchers_count r) && (0 <=? open_issues_count r))%Z.

(** Shorthands for the raw fields of a scored repository. *)
Definition repo_raw (r : Repo) : RawRepo := raw (enr r).
Definition repo_name (r : Repo) : string := name (repo_raw r).
