(* ===== verification/Timestamp.v ===== *)
(** * Timestamps: [datetime.strptime(s, '%Y-%m-%dT%H:%M:%SZ')] and
      [(datetime.now() - pushed_at).days]  (app.py 122-123)

    [calculate_activity_score] parses the repository's [pushed_at] with a
    fixed format and subtracts it from the current local time.  The model
    follows CPython's [datetime]: a date is turned into a proleptic
    Gregorian ordinal by [_ymd2ord] (days before the year, days before the
    month, day), and [a - b] is the timedelta whose [days] are the ordinal
    difference plus the floor of the seconds difference over 86400.

    [strptime_github] accepts the zero-padded form GitHub sends
    ([YYYY-MM-DDTHH:MM:SSZ], 20 characters) and rejects everything else
    with [ValueError]; CPython's [strptime] also accepts unpadded fields,
    which GitHub never sends.  The microseconds of [datetime.now()] are
    dropped: [pushed_at] has none, so they never change the floor. *)

From Stdlib Require Import ZArith String Ascii List Bool Lia.
From S2P Require Import Prelude.
Import ListNotations.
Open Scope Z_scope.
Open Scope bool_scope.

Record DateTime := {
  year : Z;
  month : Z;
  day : Z;
  hour : Z;
  minute : Z;
  second : Z
}.

(** ** CPython's calendar arithmetic ([Lib/datetime.py], [_datetimemodule.c]) *)

Definition is_leap (y : Z) : bool :=
  (y mod 4 =? 0) && (negb (y mod 100 =? 0) || (y mod 400 =? 0)).

Definition DAYS_IN_MONTH : list Z := [-1; 31; 28; 31; 30; 31; 30; 31; 31; 30; 31; 30; 31].
Definition DAYS_BEFORE_MONTH : list Z := [-1; 0; 31; 59; 90; 120; 151; 181; 212; 243; 273; 304; 334].

Definition days_in_month (y m : Z) : Z :=
  if (m =? 2) && is_leap y then 29 else nth (Z.to_nat m) DAYS_IN_MONTH 0.

Definition days_before_year (y : Z) : Z :=
  let y1 := y - 1 in y1 * 365 + y1 / 4 - y1 / 100 + y1 / 400.

Definition days_before_month (y m : Z) : Z :=
  nth (Z.to_nat m) DAYS_BEFORE_MONTH 0 + (if (m >? 2) && is_leap y then 1 else 0).

(** Ordinal of a date: 0001-01-01 is day 1. *)
Definition ymd2ord (y m d : Z) : Z := days_before_year y + days_before_month y m + d.

Definition seconds_of_day (t : DateTime) : Z := hour t * 3600 + minute t * 60 + second t.

(** [(a - b).days]: the ordinal difference, plus the day carried by the
    normalisation of the seconds into [0, 86400). *)
Definition delta_days (a b : DateTime) : Z :=
  (ymd2ord (year a) (month a) (day a) - ymd2ord (year b) (month b) (day b))
  + (seconds_of_day a - seconds_of_day b) / 86400.

(** The range checks of the [datetime] constructor (MINYEAR 1, MAXYEAR 9999). *)
Definition valid_datetime (t : DateTime) : bool :=
  (1 <=? year t) && (year t <=? 9999) && (1 <=? month t) && (month t <=? 12)
  && (1 <=? day t) && (day t <=? days_in_month (year t) (month t))
  && (0 <=? hour t) && (hour t <=? 23) && (0 <=? minute t) && (minute t <=? 59)
  && (0 <=? second t) && (second t <=? 59).

(** ** Parsing *)

Definition digit (c : ascii) : option Z :=
  let n := Z.of_nat (nat_of_ascii c) in
  if (48 <=? n) && (n <=? 57) then Some (n - 48) else None.

(** The decimal value of a run of digits. *)
Fixpoint number_of (acc : Z) (cs : list ascii) : option Z :=
  match cs with
  | [] => Some acc
  | c :: cs' =>
      match digit c with
      | Some d => number_of (acc * 10 + d) cs'
      | None => None
      end
  end.

Definition mismatch : PyExc := ValueError "time data does not match format '%Y-%m-%dT%H:%M:%SZ'".

(** [datetime.strptime(s, '%Y-%m-%dT%H:%M:%SZ')]. *)
Definition strptime_github (s : string) : result DateTime :=
  match list_ascii_of_string s with
  | [y1; y2; y3; y4; c1; mo1; mo2; c2; d1; d2; cT; h1; h2; c3; mi1; mi2; c4; s1; s2; cZ] =>
      if Ascii.eqb c1 "-" && Ascii.eqb c2 "-" && Ascii.eqb cT "T" && Ascii.eqb c3 ":"
         && Ascii.eqb c4 ":" && Ascii.eqb cZ "Z" then
        match number_of 0 [y1; y2; y3; y4], number_of 0 [mo1; mo2], number_of 0 [d1; d2],
              number_of 0 [h1; h2], number_of 0 [mi1; mi2], number_of 0 [s1; s2] with
        | Some y, Some mo, Some d, Some h, Some mi, Some sec =>
            let t := {| year := y; month := mo; day := d; hour := h; minute := mi; second := sec |} in
            if valid_datetime t then Ok t else Raise (ValueError "day is out of range for month")
        | _, _, _, _, _, _ => Raise mismatch
        end
      else Raise mismatch
  | _ => Raise mismatch
  end.

(** ** Printing, the way GitHub writes the timestamps it sends *)

Definition ascii_of_digit (d : Z) : ascii := ascii_of_nat (Z.to_nat (48 + d)).

Definition fixed2 (n : Z) : list ascii := [ascii_of_digit (n / 10); ascii_of_digit (n mod 10)].

Definition fixed4 (n : Z) : list ascii :=
  [ascii_of_digit (n / 1000); ascii_of_digit ((n / 100) mod 10);
   ascii_of_digit ((n / 10) mod 10); ascii_of_digit (n mod 10)].

Definition isoformat_github (t : DateTime) : string :=
  string_of_list_ascii
    (fixed4 (year t) ++ ["-"%char] ++ fixed2 (month t) ++ ["-"%char] ++ fixed2 (day t)
     ++ ["T"%char] ++ fixed2 (hour t) ++ [":"%char] ++ fixed2 (minute t) ++ [":"%char]
     ++ fixed2 (second t) ++ ["Z"%char]).

(** ** Reference definitions *)

(** Days in the years [1 .. n], counted one year at a time. *)
Fixpoint days_before_year_ref (n : nat) : Z :=
  match n with
  | O => 0
  | S k => days_before_year_ref k + (if is_leap (Z.of_nat (S k)) then 366 else 365)
  end.

(** The day after [(y, m, d)] in the proleptic Gregorian calendar. *)
Definition next_day (y m d : Z) : Z * Z * Z :=
  if d <? days_in_month y m then (y, m, d + 1)
  else if m <? 12 then (y, m + 1, 1) else (y + 1, 1, 1).

(** Seconds since 0001-01-01T00:00:00 minus one day. *)
Definition to_seconds (t : DateTime) : Z :=
  ymd2ord (year t) (month t) (day t) * 86400 + seconds_of_day t.

(** ** Calendar lemmas *)

Lemma days_before_year_succ (y : Z) :
  1 <= y -> days_before_year (y + 1) = days_before_year y + (if is_leap y then 366 else 365).
Proof.
  intros Hy. unfold days_before_year, is_leap.
  replace (y + 1 - 1) with y by lia.
  destruct (Z.eqb_spec (y mod 4) 0), (Z.eqb_spec (y mod 100) 0), (Z.eqb_spec (y mod 400) 0);
    cbn [andb orb negb]; Z.div_mod_to_equations; lia.
Qed.

Lemma month_cases (m : Z) :
  1 <= m <= 12 ->
  m = 1 \/ m = 2 \/ m = 3 \/ m = 4 \/ m = 5 \/ m = 6 \/ m = 7 \/ m = 8 \/ m = 9
  \/ m = 10 \/ m = 11 \/ m = 12.
Proof. lia. Qed.

(** Split on the twelve months. *)
Ltac case_month m Hm :=
  let H := fresh "Hmonth" in
  pose proof (month_cases m Hm) as H;
  repeat match type of H with
         | _ \/ _ => destruct H as [H|H]; [subst m|]
         end;
  try subst m.

Lemma days_in_month_bounds (y m : Z) : 1 <= m <= 12 -> 28 <= days_in_month y m <= 31.
Proof.
  intros Hm. unfold days_in_month.
  case_month m Hm;
    destruct (is_leap y); simpl; lia.
Qed.

Lemma valid_datetime_spec (t : DateTime) :
  valid_datetime t = true ->
  1 <= year t <= 9999 /\ 1 <= month t <= 12 /\ 1 <= day t <= days_in_month (year t) (month t)
  /\ 0 <= hour t <= 23 /\ 0 <= minute t <= 59 /\ 0 <= second t <= 59.
Proof. unfold valid_datetime. rewrite !andb_true_iff, !Z.leb_le. tauto. Qed.

Lemma delta_days_seconds (a b : DateTime) :
  delta_days a b = (to_seconds a - to_seconds b) / 86400.
Proof.
  unfold delta_days, to_seconds.
  set (oa := ymd2ord _ _ _). set (ob := ymd2ord _ _ _).
  replace (oa * 86400 + seconds_of_day a - (ob * 86400 + seconds_of_day b))
    with ((seconds_of_day a - seconds_of_day b) + (oa - ob) * 86400) by lia.
  rewrite Z.div_add by lia. lia.
Qed.

(** ** Digit lemmas *)

Lemma digit_ascii_of_digit (d : Z) : 0 <= d <= 9 -> digit (ascii_of_digit d) = Some d.
Proof.
  intros Hd. unfold digit, ascii_of_digit.
  rewrite nat_ascii_embedding by lia. rewrite Z2Nat.id by lia.
  replace ((48 <=? 48 + d) && (48 + d <=? 57)) with true
    by (symmetry; rewrite andb_true_iff, !Z.leb_le; lia).
  lazy beta iota. f_equal. lia.
Qed.

Lemma number_of_fixed2 (n : Z) :
  0 <= n <= 99 -> number_of 0 [ascii_of_digit (n / 10); ascii_of_digit (n mod 10)] = Some n.
Proof.
  intros Hn. cbn [number_of].
  rewrite !digit_ascii_of_digit by (Z.div_mod_to_equations; lia).
  f_equal. Z.div_mod_to_equations. lia.
Qed.

Lemma number_of_fixed4 (n : Z) :
  0 <= n <= 9999 ->
  number_of 0 [ascii_of_digit (n / 1000); ascii_of_digit ((n / 100) mod 10);
               ascii_of_digit ((n / 10) mod 10); ascii_of_digit (n mod 10)] = Some n.
Proof.
  intros Hn. cbn [number_of].
  rewrite !digit_ascii_of_digit by (Z.div_mod_to_equations; lia).
  f_equal. Z.div_mod_to_equations. lia.
Qed.

(** ** Theorems *)

(** CPython's closed form for the days before year [n + 1] counts the
    days of the years [1 .. n] one by one. *)
Theorem days_before_year_closed_form (n : nat) :
  days_before_year (Z.of_nat n + 1) = days_before_year_ref n.
Proof.
  induction n as [|n IH]; [reflexivity|].
  rewrite Nat2Z.inj_succ, <- Z.add_1_r, days_before_year_succ by lia.
  cbn [days_before_year_ref]. rewrite IH, Nat2Z.inj_succ, <- Z.add_1_r. reflexivity.
Qed.

(** Consecutive days of the calendar have consecutive ordinals. *)
Theorem ymd2ord_next_day (y m d : Z) :
  1 <= y -> 1 <= m <= 12 -> 1 <= d <= days_in_month y m ->
  let '(y', m', d') := next_day y m d in ymd2ord y' m' d' = ymd2ord y m d + 1.
Proof.
  intros Hy Hm Hd. unfold next_day, ymd2ord.
  destruct (Z.ltb_spec d (days_in_month y m)); [lia|].
  assert (d = days_in_month y m) as -> by lia.
  destruct (Z.ltb_spec m 12).
  - unfold days_before_month, days_in_month.
    case_month m Hm;
      try lia; destruct (is_leap y); simpl; lia.
  - assert (m = 12) as -> by lia. rewrite days_before_year_succ by lia.
    unfold days_before_month, days_in_month. destruct (is_leap y); simpl; lia.
Qed.

Lemma ymd2ord_next_day_witness :
  next_day 2024 2 29 = (2024, 3, 1) /\ ymd2ord 2024 3 1 = ymd2ord 2024 2 29 + 1.
Proof.
  split; [reflexivity|].
  exact (ymd2ord_next_day 2024 2 29 ltac:(lia) ltac:(lia) ltac:(vm_compute; split; discriminate)).
Defined.

(** Whatever [strptime] accepts is a valid [datetime]. *)
Lemma strptime_github_valid (s : string) (t : DateTime) :
  strptime_github s = Ok t -> valid_datetime t = true.
Proof.
  unfold strptime_github. intros H.
  repeat match type of H with
         | context [match ?x with _ => _ end] => destruct x eqn:?; try discriminate H
         end.
  inversion H; subst; assumption.
Qed.

(** Every timestamp GitHub writes for a valid date parses back to it. *)
Theorem strptime_isoformat (t : DateTime) :
  valid_datetime t = true -> strptime_github (isoformat_github t) = Ok t.
Proof.
  intros Hv. pose proof (valid_datetime_spec t Hv) as (Y & Mo & D & H & Mi & S).
  pose proof (days_in_month_bounds (year t) (month t) Mo).
  unfold strptime_github, isoformat_github, fixed2, fixed4.
  rewrite list_ascii_of_string_of_list_ascii. cbn [app].
  rewrite number_of_fixed4, !number_of_fixed2 by lia.
  destruct t; simpl. rewrite Hv. reflexivity.
Qed.
