(* ===== verification/Scoring.v ===== *)
(** * Scoring: the three per-repository scores (app.py 99-134)

    Each score is an additive point system over the repository dict as it
    stands after enrichment, capped by [min(score, 100)].  The activity
    score parses [pushed_at] and can raise: a [null] [pushed_at] makes
    [strptime] raise [TypeError], and a missing key falls back to the
    default ['2000-01-01'], which does not match the format and raises
    [ValueError].  Either exception propagates to the fetcher's outer
    [try] (app.py 219-221). *)

From Stdlib Require Import ZArith String List Bool Lia.
From S2P Require Import Prelude Repo Timestamp.
Import ListNotations.
Open Scope Z_scope.
Open Scope py_scope.

Module Scoring.

(** [calculate_documentation_score] (app.py 99-107). *)
Definition calculate_documentation_score (repo : Enriched) : Z :=
  let score := 0 in
  let score := if readme_exists repo then score + 40 else score in
  let score := if truthy_str (description (raw repo)) then score + 20 else score in
  let score := if truthy_str (homepage (raw repo)) then score + 10 else score in
  let score := if has_wiki (raw repo) then score + 15 else score in
  let score := if has_pages (raw repo) then score + 15 else score in
  Z.min score 100.

(** [calculate_code_quality_score] (app.py 109-117). *)
Definition calculate_code_quality_score (repo : Enriched) : Z :=
  let score := 0 in
  let score := if 0 <? languages_count repo then score + 20 else score in
  let score := if has_issues (raw repo) then score + 15 else score in
  let score := if has_projects (raw repo) then score + 15 else score in
  let score := if 0 <? size (raw repo) then score + 25 else score in
  let score := if 0 <? stargazers_count (raw repo) then score + 25 else score in
  Z.min score 100.

(** [repo.get('pushed_at', '2000-01-01')]: the default only for a missing key. *)
Definition get_pushed_at (r : RawRepo) : option string :=
  match pushed_at r with
  | JMissing => Some "2000-01-01"%string
  | JNull => None
  | JString s => Some s
  end.

(** [datetime.strptime(v, '%Y-%m-%dT%H:%M:%SZ')] on a value that may be [None]. *)
Definition strptime_pushed (v : option string) : result DateTime :=
  match v with
  | None => Raise (TypeError "strptime() argument 1 must be str, not None"%string)
  | Some s => strptime_github s
  end.

(** [calculate_activity_score] (app.py 119-134); [now] is [datetime.now()]. *)
Definition calculate_activity_score (now : DateTime) (repo : Enriched) : result Z :=
  let* pushed := strptime_pushed (get_pushed_at (raw repo)) in
  let days_since_update := delta_days now pushed in
  let score := 0 in
  let score :=
    if days_since_update <? 7 then score + 40
    else if days_since_update <? 30 then score + 30
    else if days_since_update <? 90 then score + 20
    else score + 10 in
  let score := if 0 <? open_issues_count (raw repo) then score + 20 else score in
  let score := if 0 <? forks_count (raw repo) then score + 20 else score in
  let score := if 0 <? watchers_count (raw repo) then score + 20 else score in
  Ok (Z.min score 100).

(** ** Reference orders and invariants *)

(** [r2] has every documentation signal [r1] has. *)
Definition doc_signals_le (r1 r2 : Enriched) : Prop :=
  (readme_exists r1 = true -> readme_exists r2 = true) /\
  (truthy_str (description (raw r1)) = true -> truthy_str (description (raw r2)) = true) /\
  (truthy_str (homepage (raw r1)) = true -> truthy_str (homepage (raw r2)) = true) /\
  (has_wiki (raw r1) = true -> has_wiki (raw r2) = true) /\
  (has_pages (raw r1) = true -> has_pages (raw r2) = true).

(** A scored repository carries the scores of its enriched dict. *)
Definition scored_by (now : DateTime) (r : Repo) : Prop :=
  doc_score r = calculate_documentation_score (enr r) /\
  code_score r = calculate_code_quality_score (enr r) /\
  calculate_activity_score now (enr r) = Ok (activity_score r).

(** The bounds the aggregate relies on. *)
Definition scores_in_range (r : Repo) : Prop :=
  0 <= doc_score r <= 100 /\ 0 <= code_score r <= 100 /\ 0 <= activity_score r <= 100.

(** The freshness bucket of app.py 125-128. *)
Definition freshness (days_since_update : Z) : Z :=
  if days_since_update <? 7 then 40
  else if days_since_update <? 30 then 30
  else if days_since_update <? 90 then 20
  else 10.

(** ** Fixtures for the witnesses *)

Definition sample_raw (pushed : JStr) (wiki : bool) : RawRepo := {|
  name := "demo"; full_name := "octo/demo"; description := Some "x"%string;
  homepage := None; has_wiki := wiki; has_pages := false; has_issues := true;
  has_projects := false; size := 12; stargazers_count := 0; forks_count := 0;
  watchers_count := 0; open_issues_count := 0; pushed_at := pushed;
  created_at := "2023-01-01T00:00:00Z"; language := Some "Python"%string;
  languages_url := "https://api.github.com/repos/octo/demo/languages" |}.

Definition sample_enriched (pushed : JStr) (wiki : bool) : Enriched := {|
  raw := sample_raw pushed wiki; readme_exists := true; readme_preview := Some "# demo"%string;
  languages := [("Python"%string, 1200)]; languages_count := 1; commit_activity := None |}.

Definition sample_pushed : JStr := JString "2024-03-07T10:00:00Z".

Definition sample_now : DateTime :=
  {| year := 2024; month := 3; day := 10; hour := 12; minute := 0; second := 0 |}.

(** ** Helper lemmas *)

Lemma documentation_score_sum (r : Enriched) :
  calculate_documentation_score r =
  pts (readme_exists r) 40 + pts (truthy_str (description (raw r))) 20
  + pts (truthy_str (homepage (raw r))) 10 + pts (has_wiki (raw r)) 15 + pts (has_pages (raw r)) 15.
Proof. unfold calculate_documentation_score, pts. destruct_ifs; lia. Qed.

Lemma code_quality_score_sum (r : Enriched) :
  calculate_code_quality_score r =
  pts (0 <? languages_count r) 20 + pts (has_issues (raw r)) 15 + pts (has_projects (raw r)) 15
  + pts (0 <? size (raw r)) 25 + pts (0 <? stargazers_count (raw r)) 25.
Proof. unfold calculate_code_quality_score, pts. destruct_ifs; lia. Qed.

Lemma activity_score_ok (now : DateTime) (r : Enriched) (pushed : DateTime) :
  strptime_pushed (get_pushed_at (raw r)) = Ok pushed ->
  calculate_activity_score now r =
  Ok (freshness (delta_days now pushed) + pts (0 <? open_issues_count (raw r)) 20
      + pts (0 <? forks_count (raw r)) 20 + pts (0 <? watchers_count (raw r)) 20).
Proof.
  intros H. unfold calculate_activity_score. rewrite H. cbn [py_bind].
  f_equal. unfold freshness, pts. destruct_ifs; lia.
Qed.

Lemma activity_score_inv (now : DateTime) (r : Enriched) (s : Z) :
  calculate_activity_score now r = Ok s ->
  exists pushed, strptime_pushed (get_pushed_at (raw r)) = Ok pushed /\
    s = freshness (delta_days now pushed) + pts (0 <? open_issues_count (raw r)) 20
        + pts (0 <? forks_count (raw r)) 20 + pts (0 <? watchers_count (raw r)) 20.
Proof.
  intros H. destruct (strptime_pushed (get_pushed_at (raw r))) as [p|e] eqn:E.
  - exists p. split; [reflexivity|]. rewrite (activity_score_ok now r p E) in H. congruence.
  - unfold calculate_activity_score in H. rewrite E in H. discriminate.
Qed.

Lemma freshness_bounds (d : Z) : 10 <= freshness d <= 40.
Proof. unfold freshness. destruct_ifs; lia. Qed.

Lemma documentation_score_bounds (r : Enriched) : 0 <= calculate_documentation_score r <= 100.
Proof. rewrite documentation_score_sum. pts_bound_all. lia. Qed.

Lemma code_quality_score_bounds (r : Enriched) : 0 <= calculate_code_quality_score r <= 100.
Proof. rewrite code_quality_score_sum. pts_bound_all. lia. Qed.

Lemma activity_score_bounds (now : DateTime) (r : Enriched) (s : Z) :
  calculate_activity_score now r = Ok s -> 10 <= s <= 100.
Proof.
  intros H. destruct (activity_score_inv now r s H) as (p & _ & ->).
  pose proof (freshness_bounds (delta_days now p)). pts_bound_all. lia.
Qed.

Lemma documentation_score_readme (r : Enriched) :
  calculate_documentation_score r < 40 -> readme_exists r = false.
Proof.
  rewrite documentation_score_sum. destruct (readme_exists r); [|reflexivity].
  cbn [pts]. pts_bound_all. intros. exfalso. lia.
Qed.

(** A repository stored with its own scores has them in range. *)
Lemma scored_in_range (now : DateTime) (r : Repo) : scored_by now r -> scores_in_range r.
Proof.
  intros (D & C & A). unfold scores_in_range. rewrite D, C.
  pose proof (documentation_score_bounds (enr r)). pose proof (code_quality_score_bounds (enr r)).
  pose proof (activity_score_bounds now (enr r) _ A). lia.
Qed.

(** ** Theorems *)

(** C2: every score lies in [0, 100]; the activity score, when it is
    computed, is at least the 10 points of the stalest bucket. *)
Theorem scores_bounds (now : DateTime) (r : Enriched) :
  0 <= calculate_documentation_score r <= 100 /\
  0 <= calculate_code_quality_score r <= 100 /\
  (forall s, calculate_activity_score now r = Ok s -> 10 <= s <= 100).
Proof.
  split; [apply documentation_score_bounds | split; [apply code_quality_score_bounds|]].
  apply activity_score_bounds.
Qed.

(** the documentation score never decreases when a signal is added
    (README, description, homepage, wiki, pages). *)
Theorem documentation_score_monotone (r1 r2 : Enriched) :
  doc_signals_le r1 r2 -> calculate_documentation_score r1 <= calculate_documentation_score r2.
Proof.
  intros (A & B & C & D & E). rewrite !documentation_score_sum.
  pose proof (pts_mono _ _ 40 A). pose proof (pts_mono _ _ 20 B). pose proof (pts_mono _ _ 10 C).
  pose proof (pts_mono _ _ 15 D). pose proof (pts_mono _ _ 15 E). lia.
Qed.

(** a documentation score below 40 means the repository has no README
    (the README alone is worth 40). *)
Theorem documentation_score_below_40_no_readme (r : Enriched) :
  calculate_documentation_score r < 40 -> readme_exists r = false.
Proof. apply documentation_score_readme. Qed.

(** C39: scenario A of the spec: README, description "x", no homepage, no
    wiki, no pages give 60. *)
Theorem documentation_score_scenario_A (r : Enriched) :
  readme_exists r = true -> description (raw r) = Some "x"%string ->
  truthy_str (homepage (raw r)) = false -> has_wiki (raw r) = false ->
  has_pages (raw r) = false -> calculate_documentation_score r = 60.
Proof. intros A B C D E. rewrite documentation_score_sum, A, B, C, D, E. reflexivity. Qed.

(** C40: scenario B of the spec: pushed 3 days ago, no open issue, fork or
    watcher give 40. *)
Theorem activity_score_scenario_B (now pushed : DateTime) (r : Enriched) :
  strptime_pushed (get_pushed_at (raw r)) = Ok pushed -> delta_days now pushed = 3 ->
  open_issues_count (raw r) = 0 -> forks_count (raw r) = 0 -> watchers_count (raw r) = 0 ->
  calculate_activity_score now r = Ok 40.
Proof. intros P D I F W. rewrite (activity_score_ok now r pushed P), D, I, F, W. reflexivity. Qed.

(** C37: on a timestamp in the form GitHub sends, the activity score is
    computed (no exception): the bucket of the days since the push plus
    the three flat bonuses. *)
Theorem activity_score_github_timestamp (now t : DateTime) (r : Enriched) :
  pushed_at (raw r) = JString (isoformat_github t) -> valid_datetime t = true ->
  calculate_activity_score now r =
  Ok (freshness (delta_days now t) + pts (0 <? open_issues_count (raw r)) 20
      + pts (0 <? forks_count (raw r)) 20 + pts (0 <? watchers_count (raw r)) 20).
Proof.
  intros P V. apply activity_score_ok.
  unfold get_pushed_at. rewrite P. apply strptime_isoformat, V.
Qed.

(** C35: when the [pushed_at] key is missing, the default ['2000-01-01'] the
    code substitutes does not match the format it parses, so the score
    raises [ValueError] instead of scoring the repository as stale. *)
Theorem activity_score_missing_pushed_at (now : DateTime) (r : Enriched) :
  pushed_at (raw r) = JMissing -> calculate_activity_score now r = Raise mismatch.
Proof. intros P. unfold calculate_activity_score, get_pushed_at. rewrite P. reflexivity. Qed.

(** A [null] [pushed_at] raises [TypeError]. *)
Lemma activity_score_null_pushed_at (now : DateTime) (r : Enriched) :
  pushed_at (raw r) = JNull -> exists msg, calculate_activity_score now r = Raise (TypeError msg).
Proof. intros P. unfold calculate_activity_score, get_pushed_at. rewrite P. eexists. reflexivity. Qed.

(** ** Witnesses *)

Lemma documentation_score_monotone_witness :
  doc_signals_le (sample_enriched sample_pushed false) (sample_enriched sample_pushed true) /\
  calculate_documentation_score (sample_enriched sample_pushed false)
  <= calculate_documentation_score (sample_enriched sample_pushed true).
Proof.
  assert (H : doc_signals_le (sample_enriched sample_pushed false) (sample_enriched sample_pushed true))
    by (repeat split; vm_compute; intros; congruence).
  split; [exact H | apply (documentation_score_monotone _ _ H)].
Defined.

Lemma documentation_score_below_40_no_readme_witness :
  let r := {| raw := sample_raw sample_pushed false; readme_exists := false; readme_preview := None;
              languages := []; languages_count := 0; commit_activity := None |} in
  calculate_documentation_score r < 40 /\ readme_exists r = false.
Proof.
  intros r. assert (H : calculate_documentation_score r < 40) by (vm_compute; reflexivity).
  split; [exact H | apply (documentation_score_below_40_no_readme r H)].
Defined.

Lemma documentation_score_scenario_A_witness :
  calculate_documentation_score (sample_enriched sample_pushed false) = 60.
Proof.
  apply (documentation_score_scenario_A (sample_enriched sample_pushed false));
    vm_compute; reflexivity.
Defined.

Lemma activity_score_scenario_B_witness :
  calculate_activity_score sample_now (sample_enriched sample_pushed false) = Ok 40.
Proof.
  apply (activity_score_scenario_B sample_now
           {| year := 2024; month := 3; day := 7; hour := 10; minute := 0; second := 0 |});
    vm_compute; reflexivity.
Defined.

Lemma activity_score_github_timestamp_witness :
  let t := {| year := 2024; month := 3; day := 7; hour := 10; minute := 0; second := 0 |} in
  calculate_activity_score sample_now (sample_enriched (JString (isoformat_github t)) false) = Ok 40.
Proof.
  intros t. rewrite (activity_score_github_timestamp sample_now t); vm_compute; reflexivity.
Defined.

Lemma activity_score_missing_pushed_at_witness :
  calculate_activity_score sample_now (sample_enriched JMissing false) = Raise mismatch.
Proof. apply activity_score_missing_pushed_at. reflexivity. Defined.

End Scoring.
