(* ===== verification/Portfolio.v ===== *)
(** * Portfolio: [calculate_portfolio_score] (app.py 223-285)

    The aggregate averages the three stored per-repository scores, adds
    three whole-portfolio dimensions (organisation, impact, technical
    depth) and combines the six with fixed weights.  Averages and weights
    are Python floats, here exact rationals; [round(x, 1)] is
    [py_round1].  The dimension dict keeps its insertion order, so it is
    an association list.  The set of languages is a stdpp [gset]. *)

From Stdlib Require Import ZArith QArith Qminmax Lqa String List Bool Lia.
From S2P Require Import Prelude Repo Scoring.
From stdpp Require Import base gmap strings.
Import ListNotations.
Open Scope Q_scope.

Module Portfolio.

(** The [weights] dict (app.py 258-265): 0.20 is 1/5, 0.15 is 3/20. *)
Record Weights := {
  w_documentation : Q;
  w_code_quality : Q;
  w_activity : Q;
  w_organization : Q;
  w_impact : Q;
  w_technical_depth : Q
}.

Definition weights : Weights := {|
  w_documentation := 1 # 5;
  w_code_quality := 1 # 5;
  w_activity := 3 # 20;
  w_organization := 3 # 20;
  w_impact := 3 # 20;
  w_technical_depth := 3 # 20
|}.

(** The keys of [dimension_scores], in insertion order (app.py 276-283). *)
Definition DOCUMENTATION : string := "Documentation Quality".
Definition CODE_STRUCTURE : string := "Code Structure & Best Practices".
Definition ACTIVITY : string := "Activity Consistency".
Definition ORGANIZATION : string := "Repository Organization".
Definition IMPACT : string := "Project Impact".
Definition TECHNICAL_DEPTH : string := "Technical Depth".

(** Repository organisation score (app.py 238-241). *)
Definition org_score_of (b : Bundle) : Z :=
  let org_score := 0%Z in
  let org_score := if truthy_list (orgs b) then (org_score + 20)%Z else org_score in
  let org_score := if (5 <=? length (repos b))%nat then (org_score + 20)%Z else org_score in
  let org_score := if (3 <=? length (repos b))%nat then (org_score + 20)%Z else org_score in
  org_score.

(** Impact score (app.py 247-249): [min(100, (total_stars * 2 + total_forks) / 5)]. *)
Definition impact_score_of (rs : list Repo) : Q :=
  let total_stars := sum_Z (fun r => stargazers_count (repo_raw r)) rs in
  let total_forks := sum_Z (fun r => forks_count (repo_raw r)) rs in
  Qmin 100 (inject_Z (total_stars * 2 + total_forks) * (1 # 5)).

(** [languages.update(repo.get('languages', {}).keys())] over the repositories. *)
Definition languages_of (rs : list Repo) : gset string :=
  fold_left (fun acc r => acc ∪ list_to_set (map fst (languages (enr r)))) rs ∅.

(** Technical depth score (app.py 252-256). *)
Definition tech_score_of (rs : list Repo) : Z :=
  Z.min 40 (Z.of_nat (size (languages_of rs)) * 8).

(** [final_score] (app.py 267-274). *)
Definition weighted_sum (w : Weights) (doc code activity org impact tech : Q) : Q :=
  doc * w_documentation w + code * w_code_quality w + activity * w_activity w
  + org * w_organization w + impact * w_impact w + tech * w_technical_depth w.

(** [calculate_portfolio_score] (app.py 223-285): the rounded score and
    the dimension dict. *)
Definition calculate_portfolio_score (data : FetchResult) : Q * list (string * Q) :=
  match data with
  | NO_TOKEN | ERROR => (0, [])
  | Data b =>
      match repos b with
      | [] => (0, [])
      | rs =>
          let n := length rs in
          let doc_score := mean_Q (sum_Z doc_score rs) n in
          let code_score := mean_Q (sum_Z code_score rs) n in
          let activity_score := mean_Q (sum_Z activity_score rs) n in
          let org_score := inject_Z (org_score_of b) in
          let impact_score := impact_score_of rs in
          let tech_score := inject_Z (tech_score_of rs) in
          let final_score :=
            weighted_sum weights doc_score code_score activity_score org_score
              impact_score tech_score in
          (py_round1 final_score,
           [(DOCUMENTATION, py_round1 doc_score); (CODE_STRUCTURE, py_round1 code_score);
            (ACTIVITY, py_round1 activity_score); (ORGANIZATION, py_round1 org_score);
            (IMPACT, py_round1 impact_score); (TECHNICAL_DEPTH, py_round1 tech_score)])
      end
  end.

(** The precondition of the bounds: stored scores in range and GitHub's
    counters non-negative. *)
Definition repo_ok (r : Repo) : Prop := Scoring.scores_in_range r /\ raw_wf (repo_raw r) = true.

(** The six dimension names in the order the dict is built. *)
Definition dimension_names : list string :=
  [DOCUMENTATION; CODE_STRUCTURE; ACTIVITY; ORGANIZATION; IMPACT; TECHNICAL_DEPTH].

(** ** Fixtures for the witnesses *)

Definition sample_user : User := {|
  login := "octo"; user_name := None; bio := None; location := None;
  followers := 0; following := 0; public_repos := 5; user_created_at := "2020-01-01T00:00:00Z" |}.

(** A repository with perfect stored scores, 250 stars and one language. *)
Definition star_repo (lang : string) : Repo := {|
  enr := {| raw := {| name := lang; full_name := "octo/" ++ lang; description := Some "d"%string;
                      homepage := None; has_wiki := true; has_pages := true; has_issues := true;
                      has_projects := true; Repo.size := 1; stargazers_count := 250; forks_count := 0;
                      watchers_count := 1; open_issues_count := 1; pushed_at := JNull;
                      created_at := ""; language := Some lang; languages_url := "" |};
            readme_exists := true; readme_preview := None; languages := [(lang, 1%Z)];
            languages_count := 1; commit_activity := None |};
  doc_score := 100; code_score := 100; activity_score := 100 |}.

Definition best_bundle : Bundle := {|
  user := sample_user;
  repos := map star_repo ["C"; "Go"; "Rust"; "Java"; "Python"]%string;
  orgs := [{| org_login := "acme" |}] |}.

(** ** Helper lemmas *)

Lemma mean_score_bounds (f : Repo -> Z) (rs : list Repo) :
  rs <> [] -> (forall r, In r rs -> 0 <= f r <= 100)%Z ->
  0 <= mean_Q (sum_Z f rs) (length rs) <= 100.
Proof.
  intros Hne H. apply (mean_Q_bounds 0 100).
  - destruct rs; [congruence | simpl; lia].
  - pose proof (sum_Z_bounds f 0 100 rs H). lia.
Qed.

Lemma org_score_bounds (b : Bundle) : (0 <= org_score_of b <= 60)%Z.
Proof. unfold org_score_of. destruct_ifs; lia. Qed.

Lemma impact_score_bounds (rs : list Repo) :
  Forall (fun r => raw_wf (repo_raw r) = true) rs -> 0 <= impact_score_of rs <= 100.
Proof.
  intros H. rewrite List.Forall_forall in H. unfold impact_score_of. split; [|apply Q.le_min_l].
  apply Q.min_glb; [discriminate|].
  assert (N : (0 <= sum_Z (fun r => stargazers_count (repo_raw r)) rs * 2
                     + sum_Z (fun r => forks_count (repo_raw r)) rs)%Z).
  { assert (forall r, In r rs -> 0 <= stargazers_count (repo_raw r) /\ 0 <= forks_count (repo_raw r))%Z
      as W.
    { intros r Hr. specialize (H r Hr). unfold raw_wf in H.
      rewrite !andb_true_iff, !Z.leb_le in H. lia. }
    pose proof (sum_Z_nonneg (fun r => stargazers_count (repo_raw r)) rs (fun r Hr => proj1 (W r Hr))).
    pose proof (sum_Z_nonneg (fun r => forks_count (repo_raw r)) rs (fun r Hr => proj2 (W r Hr))).
    lia. }
  rewrite Zle_Qle in N. change (inject_Z 0) with 0 in N. lra.
Qed.

Lemma tech_score_bounds (rs : list Repo) : (0 <= tech_score_of rs <= 40)%Z.
Proof. unfold tech_score_of. lia. Qed.

Lemma weighted_sum_bounds (d c a o i t : Q) :
  0 <= d <= 100 -> 0 <= c <= 100 -> 0 <= a <= 100 -> 0 <= o <= 60 -> 0 <= i <= 100 ->
  0 <= t <= 40 -> 0 <= weighted_sum weights d c a o i t <= 85.
Proof. unfold weighted_sum; cbn [w_documentation w_code_quality w_activity w_organization
  w_impact w_technical_depth weights]. intros. lra. Qed.

Lemma py_round1_range (hi : Z) (x : Q) :
  0 <= x <= inject_Z hi -> 0 <= py_round1 x <= inject_Z hi.
Proof. apply (py_round1_bounds 0 hi). Qed.

Lemma inject_Z_bounds (lo hi z : Z) : (lo <= z <= hi)%Z -> inject_Z lo <= inject_Z z <= inject_Z hi.
Proof. intros [A B]. rewrite Zle_Qle in A, B. split; assumption. Qed.

(** The six unrounded dimensions of a non-empty, well-formed bundle. *)
Lemma dimensions_bounds (b : Bundle) :
  repos b <> [] -> Forall repo_ok (repos b) ->
  let rs := repos b in
  0 <= mean_Q (sum_Z doc_score rs) (length rs) <= 100 /\
  0 <= mean_Q (sum_Z code_score rs) (length rs) <= 100 /\
  0 <= mean_Q (sum_Z activity_score rs) (length rs) <= 100 /\
  0 <= inject_Z (org_score_of b) <= 60 /\ 0 <= impact_score_of rs <= 100 /\
  0 <= inject_Z (tech_score_of rs) <= 40.
Proof.
  intros Hne Hok rs. assert (Hin := proj1 (List.Forall_forall _ _) Hok).
  split; [|split; [|split; [|split; [|split]]]].
  - apply mean_score_bounds; [exact Hne|]. intros r Hr. apply (Hin r Hr).
  - apply mean_score_bounds; [exact Hne|]. intros r Hr. apply (Hin r Hr).
  - apply mean_score_bounds; [exact Hne|]. intros r Hr. apply (Hin r Hr).
  - apply (inject_Z_bounds 0 60), org_score_bounds.
  - apply impact_score_bounds. eapply List.Forall_impl; [|exact Hok]. intros r [_ W]. exact W.
  - apply (inject_Z_bounds 0 40), tech_score_bounds.
Qed.

Lemma calculate_portfolio_score_cons (b : Bundle) (r : Repo) (rs : list Repo) :
  repos b = r :: rs ->
  calculate_portfolio_score (Data b) =
  let rs := repos b in let n := length rs in
  let d := mean_Q (sum_Z doc_score rs) n in
  let c := mean_Q (sum_Z code_score rs) n in
  let a := mean_Q (sum_Z activity_score rs) n in
  let o := inject_Z (org_score_of b) in
  let i := impact_score_of rs in
  let t := inject_Z (tech_score_of rs) in
  (py_round1 (weighted_sum weights d c a o i t),
   [(DOCUMENTATION, py_round1 d); (CODE_STRUCTURE, py_round1 c); (ACTIVITY, py_round1 a);
    (ORGANIZATION, py_round1 o); (IMPACT, py_round1 i); (TECHNICAL_DEPTH, py_round1 t)]).
Proof. intros E. unfold calculate_portfolio_score. rewrite E. reflexivity. Qed.

Lemma calculate_portfolio_score_nil (b : Bundle) :
  repos b = [] -> calculate_portfolio_score (Data b) = (0, []).
Proof. intros E. unfold calculate_portfolio_score. rewrite E. reflexivity. Qed.

Lemma dimension_keys_of (b : Bundle) :
  repos b <> [] -> map fst (snd (calculate_portfolio_score (Data b))) = dimension_names.
Proof.
  intros Hne. destruct (repos b) as [|r rs] eqn:E; [congruence|].
  rewrite (calculate_portfolio_score_cons b r rs E). reflexivity.
Qed.

Lemma portfolio_score_in_range (b : Bundle) :
  Forall repo_ok (repos b) -> 0 <= fst (calculate_portfolio_score (Data b)) <= 85.
Proof.
  intros Hok. destruct (repos b) as [|r rs] eqn:E.
  { unfold calculate_portfolio_score. rewrite E. simpl. split; discriminate. }
  rewrite (calculate_portfolio_score_cons b r rs E). cbv zeta; cbn [fst].
  rewrite <- E in Hok. assert (Hne : repos b <> []) by congruence.
  destruct (dimensions_bounds b Hne Hok) as (D & C & A & O & I & T).
  apply (py_round1_bounds 0 85), weighted_sum_bounds; assumption.
Qed.

(** ** Theorems *)

(** the weights are non-negative and sum to exactly 1, so the final
    score is a convex combination of the six dimensions. *)
Theorem weights_convex :
  0 <= w_documentation weights /\ 0 <= w_code_quality weights /\ 0 <= w_activity weights /\
  0 <= w_organization weights /\ 0 <= w_impact weights /\ 0 <= w_technical_depth weights /\
  w_documentation weights + w_code_quality weights + w_activity weights
  + w_organization weights + w_impact weights + w_technical_depth weights == 1.
Proof. vm_compute. repeat split; discriminate. Qed.

(** C34: the portfolio score is 0 with an empty dimension dict when the
    fetch failed or there is no repository (Scenario C). *)
Theorem portfolio_score_no_repos (data : FetchResult) :
  match data with Data b => repos b = [] | _ => True end ->
  calculate_portfolio_score data = (0, []).
Proof. destruct data as [| |b]; [reflexivity | reflexivity | apply calculate_portfolio_score_nil]. Qed.

(** C1: on a well-formed bundle the portfolio score lies in [0, 85], not
    [0, 100]: the organisation dimension is capped at 60 and technical
    depth at 40, which costs 15 * 0.4 + 15 * 0.6 = 15 points. *)
Theorem portfolio_score_bounds (b : Bundle) :
  Forall repo_ok (repos b) ->
  0 <= fst (calculate_portfolio_score (Data b)) <= 85.
Proof. apply portfolio_score_in_range. Qed.

(** the bound 85 is reached: five perfectly scored repositories with
    500 stars each, five languages and an organisation. *)
Theorem portfolio_score_reaches_85 :
  exists b, Forall repo_ok (repos b) /\ fst (calculate_portfolio_score (Data b)) == 85.
Proof.
  exists best_bundle. split; [|vm_compute; reflexivity].
  repeat constructor; vm_compute; discriminate.
Qed.

(** every dimension of a well-formed bundle lies in [0, 100]; the
    organisation dimension in [0, 60], technical depth in [0, 40]. *)
Theorem dimension_scores_bounds (b : Bundle) (k : string) (v : Q) :
  Forall repo_ok (repos b) -> In (k, v) (snd (calculate_portfolio_score (Data b))) ->
  0 <= v <= 100 /\ (k = ORGANIZATION -> v <= 60) /\ (k = TECHNICAL_DEPTH -> v <= 40).
Proof.
  intros Hok Hin. destruct (repos b) as [|r rs] eqn:E.
  { unfold calculate_portfolio_score in Hin. rewrite E in Hin. destruct Hin. }
  rewrite (calculate_portfolio_score_cons b r rs E) in Hin. cbv zeta in Hin; cbn [snd] in Hin.
  rewrite <- E in Hok. assert (Hne : repos b <> []) by congruence.
  destruct (dimensions_bounds b Hne Hok) as (D & C & A & O & I & T).
  destruct Hin as [H|[H|[H|[H|[H|[H|[]]]]]]]; injection H as <- <-;
    (split; [apply (py_round1_range 100); change (inject_Z 100) with 100; lra | split; intros Hk; try discriminate Hk]).
  - exact (proj2 (py_round1_range 60 _ O)).
  - exact (proj2 (py_round1_range 40 _ T)).
Qed.

(** a bundle with at least one repository gets the six dimension keys,
    in the order of app.py 276-283. *)
Theorem dimension_keys (b : Bundle) :
  repos b <> [] -> map fst (snd (calculate_portfolio_score (Data b))) = dimension_names.
Proof. apply dimension_keys_of. Qed.

(** ** Witnesses *)

Lemma portfolio_score_no_repos_witness :
  calculate_portfolio_score (Data {| user := sample_user; repos := []; orgs := [] |}) = (0, []).
Proof. apply portfolio_score_no_repos. reflexivity. Defined.

Lemma portfolio_score_bounds_witness :
  Forall repo_ok (repos best_bundle) /\
  0 <= fst (calculate_portfolio_score (Data best_bundle)) <= 85.
Proof.
  assert (H : Forall repo_ok (repos best_bundle)) by (repeat constructor; vm_compute; discriminate).
  split; [exact H | apply (portfolio_score_bounds best_bundle H)].
Defined.

Lemma dimension_scores_bounds_witness :
  let dims := snd (calculate_portfolio_score (Data best_bundle)) in
  In (ORGANIZATION, 600 # 10) dims /\ 0 <= 600 # 10 <= 100 /\ 600 # 10 <= 60.
Proof.
  assert (H : Forall repo_ok (repos best_bundle)) by (repeat constructor; vm_compute; discriminate).
  assert (I : In (ORGANIZATION, 600 # 10) (snd (calculate_portfolio_score (Data best_bundle)))).
  { vm_compute. right; right; right. left. reflexivity. }
  destruct (dimension_scores_bounds best_bundle ORGANIZATION (600 # 10) H I) as (B & O & _).
  split; [exact I | split; [exact B | exact (O eq_refl)]].
Defined.

Lemma dimension_keys_witness :
  map fst (snd (calculate_portfolio_score (Data best_bundle))) = dimension_names.
Proof. apply dimension_keys. discriminate. Defined.

End Portfolio.
