(* ===== verification/Recommend.v ===== *)
(** * Recommend: [get_actionable_recommendations] (app.py 287-325)

    Two portfolio-wide rules read the dimension dict with [d[k]] (a
    [KeyError] when the key is missing), then two rules per repository in
    fetch order; the collected list is cut to its first five elements.
    The reference [all_recommendations] is the list before the cut. *)

From Stdlib Require Import ZArith QArith String List Bool Lia.
From S2P Require Import Prelude Repo Timestamp Scoring Portfolio.
Import ListNotations.
Open Scope string_scope.
Open Scope py_scope.

Module Recommend.

Inductive Priority := High | Medium | Low.

(** One recommendation dict: [repo], [issue], [action], [priority]. *)
Record Recommendation := {
  rec_repo : string;
  issue : string;
  action : string;
  priority : Priority
}.

Definition poor_documentation : Recommendation := {|
  rec_repo := "General"; issue := "Poor Documentation";
  action := "Add comprehensive READMEs with setup instructions, features, and screenshots";
  priority := High |}.

Definition inconsistent_activity : Recommendation := {|
  rec_repo := "General"; issue := "Inconsistent Activity";
  action := "Commit code at least 3-4 times per week to show active development";
  priority := Medium |}.

Definition missing_documentation (n : string) : Recommendation := {|
  rec_repo := n; issue := "Missing Documentation";
  action := "Add a detailed README.md to " ++ n ++ " with project description and setup guide";
  priority := High |}.

Definition low_impact (n : string) : Recommendation := {|
  rec_repo := n; issue := "Low Impact";
  action := "Promote " ++ n ++ " on social media and add screenshots to attract users";
  priority := Medium |}.

(** The two per-repository rules (app.py 309-323). *)
Definition repo_recommendations (r : Repo) : list Recommendation :=
  ((if (doc_score r <? 40)%Z then [missing_documentation (repo_name r)] else [])
   ++ (if (stargazers_count (repo_raw r) =? 0)%Z && (forks_count (repo_raw r) =? 0)%Z
       then [low_impact (repo_name r)] else []))%list.

(** Every qualifying recommendation, in evaluation order, given the two
    dimension values the code reads. *)
Definition all_recommendations (data : Bundle) (doc activity : Q) : list Recommendation :=
  ((if Qltb doc 60 then [poor_documentation] else [])
   ++ (if Qltb activity 50 then [inconsistent_activity] else [])
   ++ flat_map repo_recommendations (repos data))%list.

(** [get_actionable_recommendations] (app.py 287-325). *)
Definition get_actionable_recommendations (data : Bundle) (dimension_scores : list (string * Q))
  : result (list Recommendation) :=
  let* doc := py_getitem dimension_scores Portfolio.DOCUMENTATION in
  let recommendations := if Qltb doc 60 then [poor_documentation] else [] in
  let* activity := py_getitem dimension_scores Portfolio.ACTIVITY in
  let recommendations :=
    (recommendations ++ (if Qltb activity 50 then [inconsistent_activity] else []))%list in
  let recommendations := (recommendations ++ flat_map repo_recommendations (repos data))%list in
  Ok (firstn 5 recommendations).

(** ** Fixtures for the witnesses *)

(** A repository that triggers both per-repository rules. *)
Definition weak_repo (n : string) : Repo := {|
  enr := {| raw := {| name := n; full_name := "octo/" ++ n; description := None;
                      homepage := None; has_wiki := false; has_pages := false; has_issues := true;
                      has_projects := false; Repo.size := 3; stargazers_count := 0;
                      forks_count := 0; watchers_count := 0; open_issues_count := 0;
                      pushed_at := JString "2024-03-07T10:00:00Z"; created_at := "";
                      language := None; languages_url := "" |};
            readme_exists := false; readme_preview := None; languages := [];
            languages_count := 0; commit_activity := None |};
  doc_score := 0; code_score := 40; activity_score := 40 |}.

Definition weak_bundle : Bundle := {|
  user := Portfolio.sample_user; repos := [weak_repo "alpha"; weak_repo "beta"]; orgs := [] |}.

Definition sample_dims : list (string * Q) :=
  [(Portfolio.DOCUMENTATION, 0); (Portfolio.ACTIVITY, 40)].

(** A documented repository without stars or forks: only the
    "Low Impact" rule fires. *)
Definition starless_repo (n : string) : Repo := {|
  enr := enr (weak_repo n); doc_score := 60; code_score := 40; activity_score := 40 |}.

(** Five starless repositories listed before one without documentation. *)
Definition crowded_bundle : Bundle := {|
  user := Portfolio.sample_user;
  repos := map starless_repo ["a"; "b"; "c"; "d"; "e"] ++ [weak_repo "docless"];
  orgs := [] |}.

Definition good_dims : list (string * Q) :=
  [(Portfolio.DOCUMENTATION, 80); (Portfolio.ACTIVITY, 70)].

(** ** Helper lemmas *)

Lemma get_actionable_recommendations_ok (data : Bundle) (dims : list (string * Q)) (doc activity : Q) :
  py_getitem dims Portfolio.DOCUMENTATION = Ok doc ->
  py_getitem dims Portfolio.ACTIVITY = Ok activity ->
  get_actionable_recommendations data dims = Ok (firstn 5 (all_recommendations data doc activity)).
Proof.
  intros D A. unfold get_actionable_recommendations, all_recommendations.
  rewrite D. cbn [py_bind]. rewrite A. cbn [py_bind]. rewrite app_assoc. reflexivity.
Qed.

Lemma get_actionable_recommendations_inv (data : Bundle) (dims : list (string * Q))
  (recs : list Recommendation) :
  get_actionable_recommendations data dims = Ok recs ->
  exists doc activity, recs = firstn 5 (all_recommendations data doc activity).
Proof.
  unfold get_actionable_recommendations.
  destruct (py_getitem dims Portfolio.DOCUMENTATION) as [doc|e] eqn:D; [|discriminate].
  destruct (py_getitem dims Portfolio.ACTIVITY) as [act|e] eqn:A; cbn [py_bind]; rewrite ?A;
    [|discriminate].
  intros H. injection H as <-. exists doc, act. unfold all_recommendations.
  rewrite app_assoc. reflexivity.
Qed.

Lemma in_repo_recommendations_missing (r : Repo) (rc : Recommendation) :
  In rc (repo_recommendations r) -> issue rc = "Missing Documentation" ->
  rc = missing_documentation (repo_name r) /\ (doc_score r < 40)%Z.
Proof.
  unfold repo_recommendations. rewrite in_app_iff. intros H Hi.
  destruct (Z.ltb_spec (doc_score r) 40);
    destruct ((stargazers_count (repo_raw r) =? 0)%Z && (forks_count (repo_raw r) =? 0)%Z);
    simpl in H; intuition (subst; try discriminate Hi; auto).
Qed.

Lemma in_all_missing (data : Bundle) (doc activity : Q) (rc : Recommendation) :
  In rc (all_recommendations data doc activity) -> issue rc = "Missing Documentation" ->
  exists r, In r (repos data) /\ rc = missing_documentation (repo_name r) /\ (doc_score r < 40)%Z.
Proof.
  unfold all_recommendations. rewrite !in_app_iff, in_flat_map. intros H Hi.
  destruct H as [H|[H|(r & Hr & H)]].
  - destruct (Qltb doc 60); simpl in H; intuition (subst; discriminate Hi).
  - destruct (Qltb activity 50); simpl in H; intuition (subst; discriminate Hi).
  - exists r. split; [exact Hr | apply (in_repo_recommendations_missing r rc H Hi)].
Qed.

(** ** Theorems *)

(** C7: at most five recommendations are ever returned. *)
Theorem recommendations_at_most_5 (data : Bundle) (dims : list (string * Q))
  (recs : list Recommendation) :
  get_actionable_recommendations data dims = Ok recs -> (length recs <= 5)%nat.
Proof.
  intros H. destruct (get_actionable_recommendations_inv data dims recs H) as (d & a & ->).
  rewrite length_firstn. lia.
Qed.

(** C8: for a user with no repository, [calculate_portfolio_score] returns
    an empty dimension dict and [get_actionable_recommendations] then
    raises [KeyError('Documentation Quality')]: the run crashes. *)
Theorem recommendations_no_repos_key_error (b : Bundle) :
  repos b = [] ->
  get_actionable_recommendations b (snd (Portfolio.calculate_portfolio_score (Data b)))
  = Raise (KeyError Portfolio.DOCUMENTATION).
Proof. intros E. rewrite (Portfolio.calculate_portfolio_score_nil b E). reflexivity. Qed.

(** with at least one repository, the dimension dict has both keys the
    generator reads, so it returns a list. *)
Theorem recommendations_defined (b : Bundle) :
  repos b <> [] ->
  exists recs, get_actionable_recommendations b (snd (Portfolio.calculate_portfolio_score (Data b)))
               = Ok recs.
Proof.
  intros Hne. pose proof (Portfolio.dimension_keys_of b Hne) as K.
  set (dims := snd (Portfolio.calculate_portfolio_score (Data b))) in *.
  destruct (py_getitem_in dims Portfolio.DOCUMENTATION) as (d & D & _);
    [rewrite K; left; reflexivity|].
  destruct (py_getitem_in dims Portfolio.ACTIVITY) as (a & A & _);
    [rewrite K; right; right; left; reflexivity|].
  eexists. apply (get_actionable_recommendations_ok b dims d a D A).
Qed.

(** a "Missing Documentation" recommendation names a fetched
    repository that has no README, when the stored scores are the
    repository's own. *)
Theorem missing_documentation_targets_readmeless (now : DateTime) (b : Bundle)
  (dims : list (string * Q)) (recs : list Recommendation) (rc : Recommendation) :
  Forall (Scoring.scored_by now) (repos b) ->
  get_actionable_recommendations b dims = Ok recs -> In rc recs ->
  issue rc = "Missing Documentation" ->
  exists r, In r (repos b) /\ rec_repo rc = repo_name r /\ readme_exists (enr r) = false.
Proof.
  intros Hs H Hin Hi. destruct (get_actionable_recommendations_inv b dims recs H) as (d & a & ->).
  destruct (in_all_missing b d a rc (In_firstn _ _ _ Hin) Hi) as (r & Hr & -> & Lt).
  exists r. split; [exact Hr | split; [reflexivity|]].
  destruct (proj1 (List.Forall_forall _ _) Hs r Hr) as (D & _).
  apply Scoring.documentation_score_readme. rewrite <- D. exact Lt.
Qed.

(** The per-repository rules of repositories where only "Low Impact"
    fires. *)
Lemma flat_map_low_impact (rs : list Repo) :
  Forall (fun x => (40 <= doc_score x)%Z /\ stargazers_count (repo_raw x) = 0%Z /\
                   forks_count (repo_raw x) = 0%Z) rs ->
  flat_map repo_recommendations rs = map (fun x => low_impact (repo_name x)) rs.
Proof.
  induction 1 as [|x rs (D & S & F) _ IH]; [reflexivity|]. cbn [flat_map map].
  unfold repo_recommendations at 1. rewrite (proj2 (Z.ltb_ge _ _) D), S, F, IH. reflexivity.
Qed.

(** C38: scenario D of the spec, for any bundle: when both portfolio-wide
    rules fire and the first two repositories each fire both rules (six
    rules, more from the rest of the list), exactly the first five are
    returned, in evaluation order: the second repository's "Low Impact"
    and everything the other repositories fire are cut. *)
Theorem recommendations_scenario_D (data : Bundle) (dims : list (string * Q)) (doc activity : Q)
  (r1 r2 : Repo) (rest : list Repo) :
  py_getitem dims Portfolio.DOCUMENTATION = Ok doc ->
  py_getitem dims Portfolio.ACTIVITY = Ok activity ->
  Qltb doc 60 = true -> Qltb activity 50 = true ->
  repos data = r1 :: r2 :: rest ->
  (doc_score r1 < 40)%Z -> stargazers_count (repo_raw r1) = 0%Z -> forks_count (repo_raw r1) = 0%Z ->
  (doc_score r2 < 40)%Z -> stargazers_count (repo_raw r2) = 0%Z -> forks_count (repo_raw r2) = 0%Z ->
  get_actionable_recommendations data dims =
  Ok [poor_documentation; inconsistent_activity; missing_documentation (repo_name r1);
      low_impact (repo_name r1); missing_documentation (repo_name r2)].
Proof.
  intros D A Hd Ha Hr D1 S1 F1 D2 S2 F2.
  rewrite (get_actionable_recommendations_ok data dims doc activity D A).
  unfold all_recommendations. rewrite Hd, Ha, Hr. cbn [flat_map].
  unfold repo_recommendations at 1 2.
  rewrite (proj2 (Z.ltb_lt _ _) D1), (proj2 (Z.ltb_lt _ _) D2), S1, F1, S2, F2. reflexivity.
Qed.

(** C31: the cut to five ignores priorities: when neither portfolio-wide
    rule fires and five starless, documented repositories are listed
    before one with a documentation score below 40, the result is their
    five Medium-priority "Low Impact" items, and that repository's
    High-priority "Missing Documentation", which qualifies, is dropped. *)
Theorem recommendations_priority_ignored (data : Bundle) (dims : list (string * Q))
  (doc activity : Q) (rs rest : list Repo) (r : Repo) :
  py_getitem dims Portfolio.DOCUMENTATION = Ok doc ->
  py_getitem dims Portfolio.ACTIVITY = Ok activity ->
  Qltb doc 60 = false -> Qltb activity 50 = false ->
  repos data = (rs ++ r :: rest)%list -> length rs = 5%nat ->
  Forall (fun x => (40 <= doc_score x)%Z /\ stargazers_count (repo_raw x) = 0%Z /\
                   forks_count (repo_raw x) = 0%Z) rs ->
  (doc_score r < 40)%Z ->
  In (missing_documentation (repo_name r)) (all_recommendations data doc activity) /\
  priority (missing_documentation (repo_name r)) = High /\
  get_actionable_recommendations data dims = Ok (map (fun x => low_impact (repo_name x)) rs).
Proof.
  intros D A Hd Ha Hr Hl Hrs Dr. unfold all_recommendations. rewrite Hd, Ha, Hr, flat_map_app.
  split; [|split; [reflexivity|]].
  - cbn [app flat_map]. apply in_or_app. right. apply in_or_app. left.
    unfold repo_recommendations. rewrite (proj2 (Z.ltb_lt _ _) Dr). left. reflexivity.
  - rewrite (get_actionable_recommendations_ok data dims doc activity D A).
    unfold all_recommendations. rewrite Hd, Ha, Hr, flat_map_app, flat_map_low_impact by exact Hrs.
    cbn [app]. rewrite firstn_app, length_map, Hl, Nat.sub_diag, firstn_O, app_nil_r.
    rewrite firstn_all2 by (rewrite length_map, Hl; reflexivity). reflexivity.
Qed.

(** ** Witnesses *)

Lemma recommendations_at_most_5_witness :
  let recs := [poor_documentation; inconsistent_activity; missing_documentation "alpha";
               low_impact "alpha"; missing_documentation "beta"] in
  get_actionable_recommendations weak_bundle sample_dims = Ok recs /\ (length recs <= 5)%nat.
Proof.
  intros recs. assert (H : get_actionable_recommendations weak_bundle sample_dims = Ok recs)
    by (vm_compute; reflexivity).
  split; [exact H | apply (recommendations_at_most_5 _ _ _ H)].
Defined.

Lemma recommendations_no_repos_key_error_witness :
  get_actionable_recommendations {| user := Portfolio.sample_user; repos := []; orgs := [] |}
    (snd (Portfolio.calculate_portfolio_score (Data {| user := Portfolio.sample_user;
                                                       repos := []; orgs := [] |})))
  = Raise (KeyError Portfolio.DOCUMENTATION).
Proof.
  apply (recommendations_no_repos_key_error {| user := Portfolio.sample_user; repos := []; orgs := [] |}).
  reflexivity.
Defined.

Lemma recommendations_defined_witness :
  exists recs, get_actionable_recommendations weak_bundle
                 (snd (Portfolio.calculate_portfolio_score (Data weak_bundle))) = Ok recs.
Proof. apply recommendations_defined. discriminate. Defined.

Lemma missing_documentation_targets_readmeless_witness :
  exists r, In r (repos weak_bundle) /\ rec_repo (missing_documentation "alpha") = repo_name r
            /\ readme_exists (enr r) = false.
Proof.
  apply (missing_documentation_targets_readmeless Scoring.sample_now weak_bundle sample_dims
           [poor_documentation; inconsistent_activity; missing_documentation "alpha";
            low_impact "alpha"; missing_documentation "beta"]).
  - repeat constructor; vm_compute; reflexivity.
  - vm_compute; reflexivity.
  - right; right; left; reflexivity.
  - reflexivity.
Defined.

Lemma recommendations_scenario_D_witness :
  get_actionable_recommendations weak_bundle sample_dims =
  Ok [poor_documentation; inconsistent_activity; missing_documentation "alpha";
      low_impact "alpha"; missing_documentation "beta"].
Proof.
  apply (recommendations_scenario_D weak_bundle sample_dims 0 40 (weak_repo "alpha") (weak_repo "beta") []);
    reflexivity.
Defined.

Lemma recommendations_priority_ignored_witness :
  In (missing_documentation "docless") (all_recommendations crowded_bundle 80 70) /\
  priority (missing_documentation "docless") = High /\
  get_actionable_recommendations crowded_bundle good_dims
  = Ok (map (fun x => low_impact (repo_name x)) (map starless_repo ["a"; "b"; "c"; "d"; "e"])).
Proof.
  apply (recommendations_priority_ignored crowded_bundle good_dims 80 70
           (map starless_repo ["a"; "b"; "c"; "d"; "e"]) [] (weak_repo "docless"));
    try reflexivity; [repeat constructor; cbn; lia].
Defined.

End Recommend.
