(* ===== verification/Fetcher.v ===== *)
(** * Fetcher: [get_enhanced_github_data] and its helpers (app.py 136-221)

    The fetcher is a sequence of blocking HTTP calls.  It is modelled in a
    small monad [M] that threads the list of requests made so far (the
    trace, most recent last) and propagates Python exceptions; the trace
    survives an exception, since a request that was sent stays sent.

    The GitHub REST API is a parameter of the Section, a record [GitHub]
    with one function per endpoint the code calls.  Each call returns a
    response (status code and a [json()] that may raise) or raises
    [RequestException] itself.  [b64decode_utf8] stands for
    [base64.b64decode(content).decode('utf-8')], a Section parameter that
    [Codec.b64decode_utf8] instantiates; [prefix500] is [[:500]] on the
    decoded [str], counted in code points ([Codec.take_cp]).

    The pagination loop [while len(repos) < 50] is a Fixpoint with fuel;
    each iteration that goes on adds at least one repository, so 50
    rounds of fuel always suffice ([fetch_pages_fuel]). *)

From Stdlib Require Import ZArith QArith String List Bool Lia.
From S2P Require Import Prelude Codec Repo Timestamp Scoring Portfolio.
Import ListNotations.
Open Scope Z_scope.

(** ** Requests and responses *)

(** The requests the code sends, by endpoint (the URL the code builds). *)
Inductive Request :=
| GetUser (username : string)                    (* /users/{u} *)
| GetReposPage (username : string) (page : Z)    (* /users/{u}/repos?sort=updated&per_page=30&page={p} *)
| GetReadme (full_name : string)                 (* /repos/{r}/readme *)
| GetLanguages (url : string)                    (* repo['languages_url'] *)
| GetCommitActivity (full_name : string)         (* /repos/{r}/stats/commit_activity *)
| GetOrgs (username : string).                   (* /users/{u}/orgs *)

(** A [requests] response: its status code and [response.json()], which
    may raise. *)
Record Response (A : Type) := {
  status_code : Z;
  json : result A
}.
Arguments status_code {A} r.
Arguments json {A} r.

(** The [content] field of [GET /repos/{r}/readme]: missing, [null] or
    a string. *)
Definition ReadmeBody := JStr.

(** The API the code talks to: one function per endpoint; a [Raise] is
    [requests.get] raising. *)
Record GitHub := {
  api_user : string -> result (Response User);
  api_repos_page : string -> Z -> result (Response (list RawRepo));
  api_readme : string -> result (Response ReadmeBody);
  api_languages : string -> result (Response (list (string * Z)));
  api_commit_activity : string -> result (Response (list WeekStat));
  api_orgs : string -> result (Response (list Org))
}.

(** ** The fetch monad: trace of requests and exceptions *)

Definition M (A : Type) : Type := list Request -> result A * list Request.

Definition ret {A} (a : A) : M A := fun tr => (Ok a, tr).

Definition bind {A B} (c : M A) (k : A -> M B) : M B :=
  fun tr => match c tr with
            | (Ok a, tr') => k a tr'
            | (Raise e, tr') => (Raise e, tr')
            end.

(** [try: c  except: h(e)] *)
Definition catch {A} (c : M A) (h : PyExc -> M A) : M A :=
  fun tr => match c tr with
            | (Ok a, tr') => (Ok a, tr')
            | (Raise e, tr') => h e tr'
            end.

(** A computation that sends no request. *)
Definition lift {A} (r : result A) : M A := fun tr => (r, tr).

(** Send a request: it is recorded, then the API answers or raises. *)
Definition send {A} (q : Request) (answer : result (Response A)) : M (Response A) :=
  fun tr => (answer, tr ++ [q]).

Declare Scope fetch_scope.
Delimit Scope fetch_scope with fetch.
Notation "'let!' x ':=' c 'in' k" := (bind c (fun x => k))
  (at level 10, x name, c at level 100, k at level 200) : fetch_scope.
Open Scope fetch_scope.

(** Monadic [for] loop that collects its results in order. *)
Fixpoint map_M {A B} (f : A -> M B) (l : list A) : M (list B) :=
  match l with
  | [] => ret []
  | x :: l' => let! y := f x in let! ys := map_M f l' in ret (y :: ys)
  end.

(** [x is not None] *)
Definition is_some {A} (o : option A) : bool := match o with Some _ => true | None => false end.

(** [text[:500]] on the decoded README. *)
Definition prefix500 (s : string) : string := take_cp 500 s.

Section Fetcher.

Context (gh : GitHub).
Context (b64decode_utf8 : string -> result string).
Context (now : DateTime).

(** [get_readme_content] (app.py 136-146): every failure is [None]. *)
Definition get_readme_content (repo_full_name : string) : M (option string) :=
  catch
    (let! response := send (GetReadme repo_full_name) (api_readme gh repo_full_name) in
     if status_code response =? 200 then
       let! body := lift (json response) in
       (* [.get('content', '')]; [b64decode(None)] raises [TypeError] *)
       let! content := lift (match body with
                             | JString c => Ok c
                             | JMissing => Ok ""%string
                             | JNull => Raise (TypeError "argument should be a bytes-like object or ASCII string, not 'NoneType'")
                             end) in
       let! text := lift (b64decode_utf8 content) in
       ret (Some (prefix500 text))
     else ret None)
    (fun _ => ret None).

(** [get_commit_activity] (app.py 148-157): every failure is [None]. *)
Definition get_commit_activity (repo_full_name : string) : M (option (list WeekStat)) :=
  catch
    (let! response := send (GetCommitActivity repo_full_name)
                           (api_commit_activity gh repo_full_name) in
     if status_code response =? 200 then
       let! weeks := lift (json response) in ret (Some weeks)
     else ret None)
    (fun _ => ret None).

(** The pagination loop (app.py 171-182), from page [page] with the
    repositories [repos] already collected. *)
Fixpoint fetch_pages (fuel : nat) (username : string) (page : Z) (repos : list RawRepo)
  : M (list RawRepo) :=
  match fuel with
  | O => ret repos
  | S fuel' =>
      if Z.of_nat (length repos) <? 50 then
        let! repos_res := send (GetReposPage username page) (api_repos_page gh username page) in
        if negb (status_code repos_res =? 200) then ret repos
        else
          let! page_repos := lift (json repos_res) in
          if negb (truthy_list page_repos) then ret repos
          else fetch_pages fuel' username (page + 1) (repos ++ page_repos)
      else ret repos
  end.

(** One iteration of [for repo in repos] (app.py 186-208): README,
    languages (not guarded by any [try] of its own), commit activity, then
    the three scores. *)
Definition enhance_repo (repo : RawRepo) : M Repo :=
  let repo_full_name := full_name repo in
  let! readme := get_readme_content repo_full_name in
  let! lang_res := send (GetLanguages (languages_url repo)) (api_languages gh (languages_url repo)) in
  let! langs := (if status_code lang_res =? 200 then lift (json lang_res) else ret []) in
  let! commits := get_commit_activity repo_full_name in
  let e := {| raw := repo; readme_exists := is_some readme; readme_preview := readme;
              languages := langs; languages_count := Z.of_nat (length langs);
              commit_activity := commits |} in
  let doc := Scoring.calculate_documentation_score e in
  let code := Scoring.calculate_code_quality_score e in
  let! activity := lift (Scoring.calculate_activity_score now e) in
  ret {| enr := e; doc_score := doc; code_score := code; activity_score := activity |}.

(** [get_enhanced_github_data] (app.py 159-221); [github_token] is the
    [GITHUB_TOKEN] read from the environment. *)
Definition get_enhanced_github_data (github_token : option string) (username : string)
  : M FetchResult :=
  if negb (truthy_str github_token) then ret NO_TOKEN
  else
    catch
      (let! user_res := send (GetUser username) (api_user gh username) in
       if negb (status_code user_res =? 200) then ret ERROR
       else
         let! user_data := lift (json user_res) in
         let! repos := fetch_pages 50 username 1 [] in
         let! enhanced_repos := map_M enhance_repo repos in
         let! orgs_res := send (GetOrgs username) (api_orgs gh username) in
         let! orgs := (if status_code orgs_res =? 200 then lift (json orgs_res) else ret []) in
         ret (Data {| user := user_data; repos := enhanced_repos; orgs := orgs |}))
      (fun _ => ret ERROR).

End Fetcher.

(** ** Trace-obliviousness

    A computation is [oblivious] when it never reads the trace: run on any
    trace, it gives the result it gives on the empty one and appends the
    same requests.  Every definition of this file is. *)
Definition oblivious {A} (c : M A) : Prop :=
  forall tr, c tr = (fst (c []), tr ++ snd (c [])).

(** The repository listing as GitHub serves it: page [p] (from 1) holds
    the elements [30 (p - 1) .. 30 p - 1] of the user's list [L], sorted
    by update time. *)
Definition serves_pages (gh : GitHub) (u : string) (L : list RawRepo) : Prop :=
  forall p, 1 <= p ->
    api_repos_page gh u p =
    Ok {| status_code := 200; json := Ok (firstn 30 (skipn (30 * Z.to_nat (p - 1)) L)) |}.

(** The requests of one iteration of the enrichment loop. *)
Definition enrichment_requests (r : RawRepo) : list Request :=
  [GetReadme (full_name r); GetLanguages (languages_url r); GetCommitActivity (full_name r)].

(** ** Fixtures for the witnesses *)

Definition demo_github (L : list RawRepo) : GitHub := {|
  api_user := fun _ => Ok {| status_code := 200; json := Ok Portfolio.sample_user |};
  api_repos_page := fun _ p =>
    Ok {| status_code := 200; json := Ok (firstn 30 (skipn (30 * Z.to_nat (p - 1)) L)) |};
  api_readme := fun _ => Ok {| status_code := 200; json := Ok (JString "IyBkZW1v"%string) |};
  api_languages := fun _ => Ok {| status_code := 200; json := Ok [("Python"%string, 100)] |};
  api_commit_activity := fun _ => Ok {| status_code := 202; json := Ok [] |};
  api_orgs := fun _ => Ok {| status_code := 200; json := Ok [] |} |}.

(** A GitHub whose network fails on the languages endpoint. *)
Definition flaky_languages_github (L : list RawRepo) : GitHub := {|
  api_user := api_user (demo_github L);
  api_repos_page := api_repos_page (demo_github L);
  api_readme := api_readme (demo_github L);
  api_languages := fun _ => Raise RequestException;
  api_commit_activity := api_commit_activity (demo_github L);
  api_orgs := api_orgs (demo_github L) |}.

(** A GitHub whose README endpoint fails. *)
Definition flaky_readme_github (L : list RawRepo) : GitHub := {|
  api_user := api_user (demo_github L);
  api_repos_page := api_repos_page (demo_github L);
  api_readme := fun _ => Raise RequestException;
  api_languages := api_languages (demo_github L);
  api_commit_activity := api_commit_activity (demo_github L);
  api_orgs := api_orgs (demo_github L) |}.

(** A GitHub that does not know the user. *)
Definition missing_user_github : GitHub := {|
  api_user := fun _ => Ok {| status_code := 404; json := Raise JSONDecodeError |};
  api_repos_page := api_repos_page (demo_github []);
  api_readme := api_readme (demo_github []);
  api_languages := api_languages (demo_github []);
  api_commit_activity := api_commit_activity (demo_github []);
  api_orgs := api_orgs (demo_github []) |}.

(** A GitHub whose README endpoint serves [content]. *)
Definition readme_github (content : string) : GitHub := {|
  api_user := api_user (demo_github []);
  api_repos_page := api_repos_page (demo_github []);
  api_readme := fun _ => Ok {| status_code := 200; json := Ok (JString content) |};
  api_languages := api_languages (demo_github []);
  api_commit_activity := api_commit_activity (demo_github []);
  api_orgs := api_orgs (demo_github []) |}.

Definition demo_repos (n : nat) : list RawRepo :=
  repeat (Scoring.sample_raw Scoring.sample_pushed false) n.

Definition identity_decoder (s : string) : result string := Ok s.

(** A complete run against [demo_github] with three repositories. *)
Definition demo_run : result FetchResult * list Request :=
  get_enhanced_github_data (demo_github (demo_repos 3)) identity_decoder Scoring.sample_now
    (Some "tok"%string) "octo" [].

Lemma oblivious_ret {A} (a : A) : oblivious (ret a).
Proof. intros tr. unfold ret. simpl. rewrite app_nil_r. reflexivity. Qed.

Lemma oblivious_lift {A} (r : result A) : oblivious (lift r).
Proof. intros tr. unfold lift. simpl. rewrite app_nil_r. reflexivity. Qed.

Lemma oblivious_send {A} (q : Request) (a : result (Response A)) : oblivious (send q a).
Proof. intros tr. reflexivity. Qed.

Lemma oblivious_bind {A B} (c : M A) (k : A -> M B) :
  oblivious c -> (forall a, oblivious (k a)) -> oblivious (bind c k).
Proof.
  intros Hc Hk tr. unfold bind. rewrite (Hc tr), (Hc []).
  destruct (fst (c [])) as [a|e]; simpl.
  - rewrite (Hk a (tr ++ _)), (Hk a (snd (c []))). simpl. rewrite app_assoc. reflexivity.
  - reflexivity.
Qed.

Lemma oblivious_catch {A} (c : M A) (h : PyExc -> M A) :
  oblivious c -> (forall e, oblivious (h e)) -> oblivious (catch c h).
Proof.
  intros Hc Hh tr. unfold catch. rewrite (Hc tr), (Hc []).
  destruct (fst (c [])) as [a|e]; simpl.
  - reflexivity.
  - rewrite (Hh e (tr ++ _)), (Hh e (snd (c []))). simpl. rewrite app_assoc. reflexivity.
Qed.

Lemma oblivious_if {A} (b : bool) (c1 c2 : M A) :
  oblivious c1 -> oblivious c2 -> oblivious (if b then c1 else c2).
Proof. destruct b; auto. Qed.

Create HintDb oblivious.
#[export] Hint Resolve oblivious_ret oblivious_lift oblivious_send oblivious_bind
  oblivious_catch oblivious_if : oblivious.

Lemma oblivious_map_M {A B} (f : A -> M B) (l : list A) :
  (forall x, oblivious (f x)) -> oblivious (map_M f l).
Proof. intros Hf. induction l as [|x l IH]; simpl; eauto 6 with oblivious. Qed.
#[export] Hint Resolve oblivious_map_M : oblivious.

(** Invert a run of the monad in hypothesis [H]: case on every result. *)
Ltac M_inv H :=
  unfold bind, catch, lift, ret, send in H; cbv beta zeta in H;
  repeat (cbv beta iota in H;
          match type of H with
          | context [match ?c with (_, _) => _ end] => destruct c eqn:?
          | context [match ?r with Ok _ => _ | Raise _ => _ end] =>
              destruct r eqn:?; try discriminate H
          | context [if ?b then _ else _] => destruct b eqn:?
          end).

Section FetcherProperties.

Context (gh : GitHub).
Context (b64decode_utf8 : string -> result string).
Context (now : DateTime).

Lemma oblivious_get_readme_content (n : string) : oblivious (get_readme_content gh b64decode_utf8 n).
Proof. unfold get_readme_content. eauto 10 with oblivious. Qed.

Lemma oblivious_get_commit_activity (n : string) : oblivious (get_commit_activity gh n).
Proof. unfold get_commit_activity. eauto 10 with oblivious. Qed.

Lemma oblivious_fetch_pages (fuel : nat) (u : string) (p : Z) (repos : list RawRepo) :
  oblivious (fetch_pages gh fuel u p repos).
Proof.
  revert p repos. induction fuel as [|fuel IH]; intros p repos; simpl;
    [apply oblivious_ret|].
  apply oblivious_if; [|apply oblivious_ret].
  apply oblivious_bind; [apply oblivious_send|]. intros res.
  apply oblivious_if; [apply oblivious_ret|].
  apply oblivious_bind; [apply oblivious_lift|]. intros pr.
  apply oblivious_if; [apply oblivious_ret | apply IH].
Qed.
#[local] Hint Resolve oblivious_get_readme_content oblivious_get_commit_activity
  oblivious_fetch_pages : oblivious.

Lemma oblivious_enhance_repo (r : RawRepo) : oblivious (enhance_repo gh b64decode_utf8 now r).
Proof. unfold enhance_repo. eauto 12 with oblivious. Qed.
#[local] Hint Resolve oblivious_enhance_repo : oblivious.

(** ** The pagination loop *)

Lemma fetch_pages_stop (n : nat) (u : string) (p : Z) (repos : list RawRepo) (tr : list Request) :
  50 <= Z.of_nat (length repos) -> fetch_pages gh n u p repos tr = (Ok repos, tr).
Proof.
  intros H. destruct n; simpl; [reflexivity|].
  destruct (Z.ltb_spec (Z.of_nat (length repos)) 50); [lia | reflexivity].
Qed.

(** One round that receives a non-empty page. *)
Lemma fetch_pages_more (n : nat) (u : string) (p : Z) (repos page : list RawRepo) (tr : list Request) :
  Z.of_nat (length repos) < 50 -> page <> [] ->
  api_repos_page gh u p = Ok {| status_code := 200; json := Ok page |} ->
  fetch_pages gh (S n) u p repos tr
  = fetch_pages gh n u (p + 1) (repos ++ page) (tr ++ [GetReposPage u p]).
Proof.
  intros L Ne A. cbn [fetch_pages]. rewrite (proj2 (Z.ltb_lt _ _) L).
  unfold bind, send. rewrite A. cbn. destruct page; [congruence | reflexivity].
Qed.

(** One round that receives an empty page. *)
Lemma fetch_pages_last (n : nat) (u : string) (p : Z) (repos : list RawRepo) (tr : list Request) :
  Z.of_nat (length repos) < 50 ->
  api_repos_page gh u p = Ok {| status_code := 200; json := Ok [] |} ->
  fetch_pages gh (S n) u p repos tr = (Ok repos, tr ++ [GetReposPage u p]).
Proof.
  intros L A. cbn [fetch_pages]. rewrite (proj2 (Z.ltb_lt _ _) L).
  unfold bind, send. rewrite A. reflexivity.
Qed.

(** ** Theorems *)

(** C32: the loop [while len(repos) < 50] terminates within its fuel:
    once [n] rounds plus the repositories already collected reach 50,
    more fuel changes nothing, because every round that goes on adds at
    least one repository.  The fetcher's 50 rounds are always enough. *)
Theorem fetch_pages_fuel (n k : nat) (u : string) (p : Z) (repos : list RawRepo) (tr : list Request) :
  (50 <= n + length repos)%nat ->
  fetch_pages gh (n + k) u p repos tr = fetch_pages gh n u p repos tr.
Proof.
  revert p repos tr. induction n as [|n IH]; intros p repos tr H.
  - rewrite !fetch_pages_stop by lia. reflexivity.
  - cbn [Nat.add fetch_pages]. destruct (Z.of_nat (length repos) <? 50); [|reflexivity].
    unfold bind at 1 3, send. destruct (api_repos_page gh u p) as [res|e]; [|reflexivity].
    destruct (negb (status_code res =? 200)); [reflexivity|].
    unfold bind, lift. destruct (json res) as [pg|e]; [|reflexivity].
    destruct pg as [|x pg]; [reflexivity|]. cbn [truthy_list negb].
    apply IH. rewrite length_app. simpl. lia.
Qed.

(** C6: on GitHub's paging (30 repositories a page, in update order) the
    loop collects exactly the first 60 repositories of the user, not at
    most 50: after a full first page it has 30 < 50 and fetches a second
    page of up to 30 more. *)
Theorem fetch_pages_first_60 (u : string) (L : list RawRepo) (tr : list Request) :
  serves_pages gh u L -> fst (fetch_pages gh 50 u 1 [] tr) = Ok (firstn 60 L).
Proof.
  intros Hp. pose proof (Hp 1 ltac:(lia)) as P1. pose proof (Hp 2 ltac:(lia)) as P2.
  pose proof (Hp 3 ltac:(lia)) as P3. cbn [Z.sub Z.to_nat] in P1, P2, P3.
  change (30 * Z.to_nat (2 - 1))%nat with 30%nat in P2.
  change (30 * Z.to_nat (3 - 1))%nat with 60%nat in P3. rewrite skipn_O in P1.
  change 50%nat with (S 49).
  destruct (firstn 30 L) as [|x A] eqn:EA.
  { rewrite (fetch_pages_last 49 u 1 [] tr) by (simpl; lia || exact P1).
    destruct L; [reflexivity | discriminate]. }
  pose proof (length_firstn 30 L) as LA. rewrite EA in LA. cbn [length] in LA.
  rewrite (fetch_pages_more 49 u 1 [] (x :: A)) by (simpl; lia || discriminate || exact P1).
  change 49%nat with (S 48). simpl (1 + 1).
  destruct (firstn 30 (skipn 30 L)) as [|y B] eqn:EB.
  { rewrite (fetch_pages_last 48 u 2) by (simpl; lia || exact P2). simpl.
    pose proof (firstn_skipn_nil 30 29 L EB) as Len.
    rewrite <- EA, firstn_all2, firstn_all2 by lia. reflexivity. }
  pose proof (firstn_app_skipn 30 30 L) as E60. rewrite EA, EB in E60. simpl in E60.
  destruct (Z.ltb_spec (Z.of_nat (length (x :: A ++ y :: B))) 50) as [Lt|Ge].
  - rewrite (fetch_pages_more 48 u 2 ([] ++ x :: A) (y :: B)) by (cbn [length app] in *; lia || discriminate || exact P2).
    change 48%nat with (S 47). simpl (2 + 1).
    assert (EC : firstn 30 (skipn 60 L) = []).
    { assert (L60 : (length (firstn 60 L) < 50)%nat)
        by (rewrite <- E60; cbn [length] in *; lia).
      rewrite length_firstn in L60. rewrite skipn_all2 by lia. apply firstn_nil. }
    rewrite EC in P3. rewrite (fetch_pages_last 47 u 3) by (cbn [length app] in *; lia || exact P3).
    simpl. rewrite E60. reflexivity.
  - rewrite (fetch_pages_more 48 u 2 ([] ++ x :: A) (y :: B)) by (cbn [length app] in *; lia || discriminate || exact P2).
    rewrite fetch_pages_stop by (cbn [length app] in *; lia). simpl. rewrite E60. reflexivity.
Qed.

(** ** Enrichment *)

Lemma get_readme_content_total (n : string) (tr : list Request) :
  exists o, fst (get_readme_content gh b64decode_utf8 n tr) = Ok o.
Proof.
  unfold get_readme_content, catch.
  destruct (bind _ _ tr) as [[a|e] t]; eexists; reflexivity.
Qed.

Lemma enhance_repo_inv (r : RawRepo) (tr tr' : list Request) (rr : Repo) :
  enhance_repo gh b64decode_utf8 now r tr = (Ok rr, tr') ->
  Scoring.scored_by now rr /\ repo_raw rr = r.
Proof.
  unfold enhance_repo. intros H. M_inv H. injection H as <- _.
  unfold Scoring.scored_by, repo_raw. cbn. auto.
Qed.

Lemma map_M_enhance_inv (rs : list RawRepo) (tr tr' : list Request) (out : list Repo) :
  map_M (enhance_repo gh b64decode_utf8 now) rs tr = (Ok out, tr') ->
  Forall (Scoring.scored_by now) out /\ map repo_raw out = rs.
Proof.
  revert tr tr' out. induction rs as [|r rs IH]; intros tr tr' out H.
  - injection H as <- _. split; [constructor | reflexivity].
  - cbn [map_M] in H. unfold bind at 1 in H.
    destruct (enhance_repo gh b64decode_utf8 now r tr) as [[rr|e] t] eqn:E; [|discriminate H].
    unfold bind in H. destruct (map_M _ rs t) as [[out'|e] t'] eqn:E'; [|discriminate H].
    injection H as <- _. destruct (enhance_repo_inv r tr t rr E) as [S R].
    destruct (IH t t' out' E') as [S' R']. split; [constructor; assumption | simpl; congruence].
Qed.

(** Everything the loop collects comes from a page. *)
Lemma fetch_pages_from_pages (P : RawRepo -> Prop) (n : nat) (u : string) (p : Z)
  (repos rs : list RawRepo) (tr tr' : list Request) :
  (forall q resp l, api_repos_page gh u q = Ok resp -> json resp = Ok l -> Forall P l) ->
  Forall P repos -> fetch_pages gh n u p repos tr = (Ok rs, tr') -> Forall P rs.
Proof.
  intros Hpages. revert p repos tr. induction n as [|n IH]; intros p repos tr Hr H.
  - injection H as <- _. exact Hr.
  - cbn [fetch_pages] in H. destruct (Z.of_nat (length repos) <? 50);
      [|injection H as <- _; exact Hr].
    unfold bind, send in H. destruct (api_repos_page gh u p) as [res|e] eqn:A; [|discriminate H].
    destruct (negb (status_code res =? 200)); [injection H as <- _; exact Hr|].
    unfold lift in H. destruct (json res) as [pg|e] eqn:J; [|discriminate H].
    destruct (negb (truthy_list pg)); [injection H as <- _; exact Hr|].
    exact (IH _ _ _ (proj2 (Forall_app _ _ _) (conj Hr (Hpages _ _ _ A J))) H).
Qed.

(** The successful runs of [get_enhanced_github_data]. *)
Lemma get_enhanced_github_data_data (tok : option string) (u : string) (tr tr' : list Request)
  (b : Bundle) :
  get_enhanced_github_data gh b64decode_utf8 now tok u tr = (Ok (Data b), tr') ->
  exists raws t1 t2, fetch_pages gh 50 u 1 [] t1 = (Ok raws, t2) /\
    Forall (Scoring.scored_by now) (repos b) /\ map repo_raw (repos b) = raws.
Proof.
  unfold get_enhanced_github_data. destruct (negb (truthy_str tok)); [discriminate|].
  unfold catch. intros H.
  destruct (bind _ _ tr) as [[res|e] t] eqn:E; [|discriminate H]. injection H as -> _.
  unfold bind at 1, send in E. destruct (api_user gh u) as [ur|e]; [|discriminate E].
  destruct (negb (status_code ur =? 200)); [discriminate E|].
  unfold bind at 1, lift in E. destruct (json ur) as [ud|e]; [|discriminate E].
  unfold bind at 1 in E.
  destruct (fetch_pages gh 50 u 1 [] _) as [[raws|e] t1] eqn:F; [|discriminate E].
  unfold bind at 1 in E.
  destruct (map_M _ raws t1) as [[out|e] t2] eqn:Mp; [|discriminate E].
  destruct (map_M_enhance_inv raws t1 t2 out Mp) as [S R].
  unfold bind, send in E. destruct (api_orgs gh u) as [or|e]; [|discriminate E].
  destruct (status_code or =? 200); unfold lift, ret in E;
    [destruct (json or) as [os|e]; [|discriminate E]|];
    injection E as <- _; exists raws, (tr ++ [GetUser u]), t1; cbn [repos]; auto.
Qed.

Lemma enhance_repo_languages_raise (r : RawRepo) (e : PyExc) (tr : list Request) :
  api_languages gh (languages_url r) = Raise e ->
  fst (enhance_repo gh b64decode_utf8 now r tr) = Raise e.
Proof.
  intros H. unfold enhance_repo, bind at 1.
  destruct (get_readme_content_total (full_name r) tr) as [o Ho].
  destruct (get_readme_content gh b64decode_utf8 (full_name r) tr) as [res t]. simpl in Ho. subst res.
  unfold bind, send. rewrite H. reflexivity.
Qed.

Lemma map_M_raise {A B} (f : A -> M B) (l : list A) (x : A) :
  In x l -> (forall tr, exists e, fst (f x tr) = Raise e) ->
  forall tr, exists e, fst (map_M f l tr) = Raise e.
Proof.
  intros Hin Hx. induction l as [|y l IH]; [destruct Hin|]. intros tr. cbn [map_M]. unfold bind at 1.
  destruct Hin as [->|Hin].
  - destruct (Hx tr) as [e He]. destruct (f x tr) as [[a|e'] t]; simpl in He; [discriminate|].
    exists e'. reflexivity.
  - destruct (f y tr) as [[a|e'] t]; [|exists e'; reflexivity].
    unfold bind. destruct (IH Hin t) as [e He].
    destruct (map_M f l t) as [[v|e''] t']; simpl in He; [discriminate|]. exists e''. reflexivity.
Qed.

(** ** Theorems *)

(** C21: without a credential the fetcher returns the [NO_TOKEN] sentinel
    and sends no request at all. *)
Theorem fetch_without_token_sends_nothing (tok : option string) (u : string) (tr : list Request) :
  truthy_str tok = false ->
  get_enhanced_github_data gh b64decode_utf8 now tok u tr = (Ok NO_TOKEN, tr).
Proof. intros H. unfold get_enhanced_github_data. rewrite H. reflexivity. Qed.

(** C36: when the user lookup raises or answers with a status other than
    200, the fetcher returns [ERROR] after that single request. *)
Theorem fetch_user_lookup_failure (tok : option string) (u : string) (tr : list Request) :
  truthy_str tok = true ->
  (forall ur, api_user gh u = Ok ur -> status_code ur <> 200) ->
  get_enhanced_github_data gh b64decode_utf8 now tok u tr = (Ok ERROR, tr ++ [GetUser u]).
Proof.
  intros T H. unfold get_enhanced_github_data. rewrite T. cbn [negb].
  unfold catch, bind at 1, send. destruct (api_user gh u) as [ur|e]; [|reflexivity].
  specialize (H ur eq_refl). destruct (Z.eqb_spec (status_code ur) 200); [contradiction|].
  reflexivity.
Qed.

(** C30: every repository of a fetched bundle carries the three scores of
    its own enriched record, and the raw records are exactly those the
    pagination loop collected, in order: enrichment only adds keys. *)
Theorem fetch_result_scored (tok : option string) (u : string) (tr tr' : list Request) (b : Bundle) :
  get_enhanced_github_data gh b64decode_utf8 now tok u tr = (Ok (Data b), tr') ->
  Forall (Scoring.scored_by now) (repos b) /\
  fst (fetch_pages gh 50 u 1 [] []) = Ok (map repo_raw (repos b)).
Proof.
  intros H. destruct (get_enhanced_github_data_data tok u tr tr' b H) as (raws & t1 & t2 & F & S & R).
  split; [exact S|]. rewrite (oblivious_fetch_pages 50 u 1 [] t1) in F.
  pose proof (f_equal fst F) as F1. cbn [fst] in F1. rewrite F1, R. reflexivity.
Qed.

(** when GitHub's counters are non-negative, the portfolio score of
    any bundle the fetcher returns lies in [0, 85]. *)
Theorem fetch_portfolio_in_range (tok : option string) (u : string) (tr tr' : list Request) (b : Bundle) :
  (forall q resp l, api_repos_page gh u q = Ok resp -> json resp = Ok l ->
                    Forall (fun r => raw_wf r = true) l) ->
  get_enhanced_github_data gh b64decode_utf8 now tok u tr = (Ok (Data b), tr') ->
  (0 <= fst (Portfolio.calculate_portfolio_score (Data b)) <= 85)%Q.
Proof.
  intros Wf H. apply Portfolio.portfolio_score_in_range.
  destruct (get_enhanced_github_data_data tok u tr tr' b H) as (raws & t1 & t2 & F & S & R).
  pose proof (fetch_pages_from_pages _ 50 u 1 [] raws t1 t2 Wf (Forall_nil _) F) as W.
  rewrite <- R in W. rewrite Forall_map in W.
  apply List.Forall_forall. intros r Hr. split.
  - apply (Scoring.scored_in_range now), (proj1 (List.Forall_forall _ _) S r Hr).
  - apply (proj1 (List.Forall_forall _ _) W r Hr).
Qed.

(** a README request that raises is isolated: [get_readme_content]
    returns [None] (the repository counts as having no README) and the
    enrichment goes on. *)
Theorem readme_failure_is_absent (n : string) (e : PyExc) (tr : list Request) :
  api_readme gh n = Raise e ->
  get_readme_content gh b64decode_utf8 n tr = (Ok None, tr ++ [GetReadme n]).
Proof. intros H. unfold get_readme_content, catch, bind, send. rewrite H. reflexivity. Qed.

(** C22: the languages request has no [try] of its own: when it raises for
    any fetched repository, the exception reaches the outer handler and
    the whole fetch returns [ERROR], although enrichment failures are
    meant to degrade to an empty field. *)
Theorem fetch_languages_exception_aborts (tok : option string) (u : string) (tr : list Request)
  (ur : Response User) (ud : User) (raws : list RawRepo) (r : RawRepo) (e : PyExc) :
  truthy_str tok = true -> api_user gh u = Ok ur -> status_code ur = 200 -> json ur = Ok ud ->
  fst (fetch_pages gh 50 u 1 [] []) = Ok raws -> In r raws ->
  api_languages gh (languages_url r) = Raise e ->
  fst (get_enhanced_github_data gh b64decode_utf8 now tok u tr) = Ok ERROR.
Proof.
  intros T U S J F Hin L. unfold get_enhanced_github_data. rewrite T. cbn [negb].
  unfold catch, bind at 1, send. rewrite U, S. cbn [Z.eqb negb Pos.eqb].
  unfold bind at 1, lift. rewrite J. unfold bind at 1.
  rewrite (oblivious_fetch_pages 50 u 1 [] (tr ++ [GetUser u])), F. unfold bind at 1.
  assert (R : forall tr, exists e, fst (enhance_repo gh b64decode_utf8 now r tr) = Raise e)
    by (intros t; exists e; apply (enhance_repo_languages_raise r e t L)).
  destruct (map_M_raise (enhance_repo gh b64decode_utf8 now) raws r Hin R
              ((tr ++ [GetUser u]) ++ snd (fetch_pages gh 50 u 1 [] []))) as [e' He].
  destruct (map_M _ raws _) as [[v|e''] t]; simpl in He; [discriminate|]. reflexivity.
Qed.

End FetcherProperties.

(** C13: with the real decoder, a README that GitHub serves as the UTF-8
    text of [cps], base64-encoded in lines, is read back after one
    request, and its preview is its first 500 code points ([take_cp 500],
    which is [utf8_encode (firstn 500 cps)] by [take_cp_code_points]). *)
Theorem readme_preview_decoded (gh : GitHub) (name : string) (cps : list Z) (n : nat)
  (tr : list Request) :
  Forall scalar_value cps ->
  api_readme gh name =
    Ok {| status_code := 200; json := Ok (JString (wrap n (b64encode (utf8_encode cps)))) |} ->
  get_readme_content gh Codec.b64decode_utf8 name tr =
    (Ok (Some (take_cp 500 (utf8_encode cps))), tr ++ [GetReadme name]).
Proof.
  intros Hs Ha. unfold get_readme_content, catch, bind, send, lift, ret.
  rewrite Ha. cbn [status_code json Z.eqb Pos.eqb].
  unfold Codec.b64decode_utf8, utf8_decode. rewrite b64decode_wrap. cbn [py_bind].
  rewrite utf8_valid_encode by exact Hs. reflexivity.
Qed.

(** C20: whatever the README endpoint answers, a preview
    [get_readme_content] returns is a well-formed [str]: valid UTF-8 (it
    went through [.decode('utf-8')]) of at most 500 code points (it went
    through [[:500]]). *)
Theorem readme_preview_wf (gh : GitHub) (name : string) (tr tr' : list Request) (p : string) :
  get_readme_content gh Codec.b64decode_utf8 name tr = (Ok (Some p), tr') ->
  utf8_valid p = true /\ (cp_count p <= 500)%nat.
Proof.
  unfold get_readme_content, catch, bind, send, lift, ret, prefix500.
  destruct (api_readme gh name) as [resp|e]; cbn [fst snd]; [|intros [=]].
  destruct (status_code resp =? 200); cbn [fst snd]; [|intros [=]].
  destruct (json resp) as [body|e]; cbn [fst snd]; [|intros [=]].
  destruct body as [| |c]; cbn [fst snd]; [| intro Hr; discriminate Hr |].
  all: destruct (Codec.b64decode_utf8 _) as [text|e] eqn:E; cbn [fst snd];
    [| intro Hr; discriminate Hr].
  all: intros [= <- _]; apply take_cp_wf; exact (b64decode_utf8_valid _ _ E).
Qed.

(** C29: a README GitHub serves with a [null] content, or whose content
    is not base64 of UTF-8 text (a bad length, a Latin-1 file), makes
    [base64.b64decode(...).decode('utf-8')] raise; the bare [except]
    turns it into [None] after the single request, so the repository
    counts as having no README. *)
Theorem readme_undecodable_is_absent (gh : GitHub) (name : string) (tr : list Request)
  (resp : Response ReadmeBody) :
  api_readme gh name = Ok resp -> status_code resp = 200 ->
  json resp = Ok JNull \/
  (exists content e, json resp = Ok (JString content) /\ Codec.b64decode_utf8 content = Raise e) ->
  get_readme_content gh Codec.b64decode_utf8 name tr = (Ok None, tr ++ [GetReadme name]).
Proof.
  intros Ha Hs Hb. unfold get_readme_content, catch, bind, send, lift, ret.
  rewrite Ha. cbn [fst snd]. rewrite Hs. cbn [Z.eqb Pos.eqb].
  destruct Hb as [J|(content & e & J & E)]; rewrite J; cbn [fst snd]; [reflexivity|].
  rewrite E. reflexivity.
Qed.

(** ** Witnesses *)

Lemma demo_pages_wf (L : list RawRepo) (q : Z) (resp : Response (list RawRepo)) (l : list RawRepo) (n : nat) :
  L = demo_repos n -> api_repos_page (demo_github L) "octo" q = Ok resp -> json resp = Ok l ->
  Forall (fun r => raw_wf r = true) l.
Proof.
  intros -> A J. injection A as <-. injection J as <-. apply List.Forall_forall.
  intros x Hx. apply In_firstn, In_skipn, repeat_spec in Hx. subst x. reflexivity.
Qed.

Lemma fetch_pages_fuel_witness :
  fetch_pages (demo_github (demo_repos 65)) (50 + 7) "octo" 1 [] []
  = fetch_pages (demo_github (demo_repos 65)) 50 "octo" 1 [] [].
Proof. apply (fetch_pages_fuel (demo_github (demo_repos 65)) 50 7). simpl. lia. Defined.

Lemma fetch_pages_first_60_witness :
  serves_pages (demo_github (demo_repos 65)) "octo" (demo_repos 65) /\
  fst (fetch_pages (demo_github (demo_repos 65)) 50 "octo" 1 [] [])
  = Ok (firstn 60 (demo_repos 65)).
Proof.
  assert (H : serves_pages (demo_github (demo_repos 65)) "octo" (demo_repos 65))
    by (intros p Hp; reflexivity).
  split; [exact H | apply (fetch_pages_first_60 _ "octo" (demo_repos 65) [] H)].
Defined.

Lemma fetch_without_token_sends_nothing_witness :
  get_enhanced_github_data (demo_github []) identity_decoder Scoring.sample_now None "octo" []
  = (Ok NO_TOKEN, []).
Proof. apply fetch_without_token_sends_nothing. reflexivity. Defined.

Lemma fetch_user_lookup_failure_witness :
  get_enhanced_github_data missing_user_github identity_decoder Scoring.sample_now
    (Some "tok"%string) "ghost" [] = (Ok ERROR, [GetUser "ghost"]).
Proof.
  apply (fetch_user_lookup_failure missing_user_github identity_decoder Scoring.sample_now
           (Some "tok"%string) "ghost" []);
    [reflexivity | intros ur H; injection H as <-; discriminate].
Defined.

Lemma fetch_result_scored_witness :
  exists b tr', demo_run = (Ok (Data b), tr') /\
    Forall (Scoring.scored_by Scoring.sample_now) (repos b) /\
    fst (fetch_pages (demo_github (demo_repos 3)) 50 "octo" 1 [] []) = Ok (map repo_raw (repos b)).
Proof.
  match eval vm_compute in demo_run with
  | (Ok (Data ?b), ?t) =>
      assert (E : demo_run = (Ok (Data b), t)) by (vm_compute; reflexivity);
      exists b, t; split; [exact E | exact (fetch_result_scored _ _ _ _ _ _ _ _ E)]
  end.
Defined.

Lemma fetch_portfolio_in_range_witness :
  exists b tr', demo_run = (Ok (Data b), tr') /\
    (0 <= fst (Portfolio.calculate_portfolio_score (Data b)) <= 85)%Q.
Proof.
  match eval vm_compute in demo_run with
  | (Ok (Data ?b), ?t) =>
      assert (E : demo_run = (Ok (Data b), t)) by (vm_compute; reflexivity);
      exists b, t; split; [exact E|];
      exact (fetch_portfolio_in_range _ _ _ _ _ _ _ _
               (fun q resp l => demo_pages_wf _ q resp l 3 eq_refl) E)
  end.
Defined.

Lemma readme_failure_is_absent_witness :
  get_readme_content (flaky_readme_github []) identity_decoder "octo/demo" []
  = (Ok None, [GetReadme "octo/demo"]).
Proof. apply (readme_failure_is_absent _ _ "octo/demo" RequestException []). reflexivity. Defined.

Lemma fetch_languages_exception_aborts_witness :
  fst (get_enhanced_github_data (flaky_languages_github (demo_repos 3)) identity_decoder
         Scoring.sample_now (Some "tok"%string) "octo" []) = Ok ERROR.
Proof.
  apply (fetch_languages_exception_aborts _ _ _ (Some "tok"%string) "octo" []
           {| status_code := 200; json := Ok Portfolio.sample_user |} Portfolio.sample_user
           (demo_repos 3) (Scoring.sample_raw Scoring.sample_pushed false) RequestException);
    try reflexivity; try (vm_compute; reflexivity); left; reflexivity.
Defined.

Lemma readme_preview_decoded_witness :
  Forall scalar_value [104; 233; 8364] /\
  get_readme_content (readme_github (wrap 59 (b64encode (utf8_encode [104; 233; 8364]))))
    Codec.b64decode_utf8 "octo/demo" [] =
    (Ok (Some (take_cp 500 (utf8_encode [104; 233; 8364]))), [] ++ [GetReadme "octo/demo"]).
Proof.
  assert (H : Forall scalar_value [104; 233; 8364]) by (repeat constructor; unfold scalar_value; lia).
  split; [exact H|]. apply (readme_preview_decoded _ _ _ 59 _ H). reflexivity.
Defined.

Lemma readme_preview_wf_witness :
  get_readme_content (readme_github (wrap 59 (b64encode (utf8_encode [104%Z; 233%Z; 8364%Z]))))
    Codec.b64decode_utf8 "octo/demo" []
  = (Ok (Some (utf8_encode [104%Z; 233%Z; 8364%Z])), [GetReadme "octo/demo"]) /\
  utf8_valid (utf8_encode [104%Z; 233%Z; 8364%Z]) = true /\
  (cp_count (utf8_encode [104%Z; 233%Z; 8364%Z]) <= 500)%nat.
Proof.
  assert (H : get_readme_content (readme_github (wrap 59 (b64encode (utf8_encode [104%Z; 233%Z; 8364%Z]))))
                Codec.b64decode_utf8 "octo/demo" []
              = (Ok (Some (utf8_encode [104%Z; 233%Z; 8364%Z])), [GetReadme "octo/demo"]))
    by (vm_compute; reflexivity).
  split; [exact H | exact (readme_preview_wf _ _ _ _ _ H)].
Defined.

(** A Latin-1 README: ["Café"] with [é] as the single byte 233. *)
Lemma readme_undecodable_is_absent_witness :
  Codec.b64decode_utf8 "Q2Fm6Q==" = Raise UnicodeDecodeError /\
  get_readme_content (readme_github "Q2Fm6Q==") Codec.b64decode_utf8 "octo/demo" []
  = (Ok None, [] ++ [GetReadme "octo/demo"]).
Proof.
  assert (E : Codec.b64decode_utf8 "Q2Fm6Q==" = Raise UnicodeDecodeError) by (vm_compute; reflexivity).
  split; [exact E|].
  apply (readme_undecodable_is_absent _ _ _ {| status_code := 200; json := Ok (JString "Q2Fm6Q==") |});
    [reflexivity | reflexivity | right; eexists _, _; split; [reflexivity | exact E]].
Defined.
