(* ===== verification/AIAdapter.v ===== *)
(** * AIAdapter: [get_working_model] and [analyze_with_ai] (app.py 87-97, 327-390)

    Model selection scans the model listing for the first model that
    supports [generateContent] and whose name contains ["flash"], with a
    hard-coded fallback.  The analysis builds the prompt (an f-string),
    calls the model, strips Markdown fences with two [str.replace] calls
    and [str.strip], and decodes the text with [json.loads].

    The Gemini SDK and [json.loads] are parameters of the Section: the
    model listing is a [Listing] (models yielded, then the end or an
    exception), [generate_content] returns [response.text] or raises, and
    [json_loads] returns a JSON value or raises.  The iteration order of
    [list(set(...))] depends on string hashing, which CPython randomises
    per process: it is a parameter [set_order] with the only property the
    language guarantees (a duplicate-free list of the same elements).

    Strings are byte strings ([String.string]); Python's [str.strip]
    removes the ASCII whitespace [\t\n\x0b\x0c\r], [\x1c-\x1f] and space
    (its non-ASCII whitespace is not modelled). *)

From Stdlib Require Import ZArith QArith String Ascii List Bool Lia DecimalString.
From S2P Require Import Prelude Repo.
Import ListNotations.
Open Scope string_scope.

(** ** JSON values, as [json.loads] returns them *)

Inductive Json :=
| JNull
| JBool (b : bool)
| JNum (q : Q)
| JStr (s : string)
| JArr (xs : list Json)
| JObj (kvs : list (string * Json)).

(** [if ai_result:]: [None], empty containers, [""], [0] and [False] are falsy. *)
Definition json_truthy (j : Json) : bool :=
  match j with
  | JNull => false
  | JBool b => b
  | JNum q => negb (Qeq_bool q 0)
  | JStr s => negb (String.eqb s "")
  | JArr xs => truthy_list xs
  | JObj kvs => truthy_list kvs
  end.

(** The keys of the schema the prompt asks for (app.py 369-381). *)
Definition AI_KEYS : list string :=
  ["score"; "verdict"; "role"; "summary"; "skills"; "soft_skills"; "pros"; "cons";
   "interview_questions"; "archive_repos"; "improve_repos"].

(** The object has every key of the schema. *)
Definition is_ai_assessment (j : Json) : bool :=
  match j with
  | JObj kvs => forallb (fun k => existsb (fun kv => String.eqb (fst kv) k) kvs) AI_KEYS
  | _ => false
  end.

(** ** Model selection *)

(** An element of [genai.list_models()]. *)
Record ModelInfo := {
  model_name : string;
  supported_generation_methods : list string
}.

(** What iterating [genai.list_models()] produces: models, then the end
    or an exception. *)
Inductive Listing :=
| Done
| Fail (e : PyExc)
| Yield (m : ModelInfo) (rest : Listing).

(** [sub in s] on strings: [sub] is a prefix of some suffix of [s]. *)
Fixpoint contains (sub s : string) : bool :=
  match s with
  | EmptyString => String.eqb sub ""
  | String _ rest => prefix sub s || contains sub rest
  end.

Definition FALLBACK_MODEL : string := "models/gemini-1.5-flash".

(** The [for m in genai.list_models()] loop (app.py 92-94). *)
Fixpoint first_flash (l : Listing) : result (option string) :=
  match l with
  | Done => Ok None
  | Fail e => Raise e
  | Yield m rest =>
      if existsb (String.eqb "generateContent") (supported_generation_methods m)
         && contains "flash" (model_name m)
      then Ok (Some (model_name m))
      else first_flash rest
  end.

(** [get_working_model] (app.py 87-97); [configure] is
    [genai.configure(api_key=GEMINI_KEY)]. *)
Definition get_working_model (gemini_key : option string) (configure : result unit)
  (listing : Listing) : option string :=
  if negb (truthy_str gemini_key) then None
  else
    match py_bind configure (fun _ => first_flash listing) with
    | Ok (Some name) => Some name
    | Ok None => Some FALLBACK_MODEL
    | Raise _ => Some FALLBACK_MODEL
    end.

(** ** String primitives *)

(** An f-string field holding [None] prints ["None"]. *)
Definition str_of_opt (o : option string) : string :=
  match o with Some s => s | None => "None" end.

Definition nl : string := String (ascii_of_nat 10) "".

(** The double quote, [chr(34)]. *)
Definition dq_char : ascii := ascii_of_nat 34.

(** A template line written with ['] for the double quotes it prints. *)
Fixpoint dq (s : string) : string :=
  match s with
  | EmptyString => EmptyString
  | String c rest => String (if Ascii.eqb c "'"%char then dq_char else c) (dq rest)
  end.

(** [s.replace(old, new)] for a non-empty [old]: a left-to-right scan
    that replaces non-overlapping occurrences; [skip] counts the
    characters of a replaced occurrence still to be dropped. *)
Fixpoint replace_go (old new : string) (skip : nat) (s : string) : string :=
  match s with
  | EmptyString => EmptyString
  | String c rest =>
      match skip with
      | S k => replace_go old new k rest
      | O => if prefix old s then new ++ replace_go old new (String.length old - 1) rest
             else String c (replace_go old new 0 rest)
      end
  end.

Definition py_replace (s old new : string) : string := replace_go old new 0 s.

(** [str.isspace] on one byte. *)
Definition isspace (c : ascii) : bool :=
  let n := nat_of_ascii c in
  ((9 <=? n) && (n <=? 13))%nat || ((28 <=? n) && (n <=? 32))%nat.

Fixpoint lstrip (s : string) : string :=
  match s with
  | EmptyString => EmptyString
  | String c rest => if isspace c then lstrip rest else s
  end.

Fixpoint rstrip (s : string) : string :=
  match s with
  | EmptyString => EmptyString
  | String c rest =>
      let r := rstrip rest in
      if String.eqb r "" && isspace c then EmptyString else String c r
  end.

Definition py_strip (s : string) : string := rstrip (lstrip s).

Definition FENCE : string := "```".
Definition FENCE_JSON : string := "```json".

(** [response.text.replace("```json", "").replace("```", "").strip()] (app.py 386). *)
Definition strip_fences (text : string) : string :=
  py_strip (py_replace (py_replace text FENCE_JSON "") FENCE "").

(** ** The prompt (app.py 335-382) *)

(** [f"{r['name']} ({r.get('language','N/A')}) - ⭐{r.get('stargazers_count',0)}"] *)
Definition repo_line (r : Repo) : string :=
  repo_name r ++ " (" ++ str_of_opt (language (repo_raw r)) ++ ") - ⭐"
  ++ str_of_Z (stargazers_count (repo_raw r)).

(** [repo_summary] (app.py 332): the first ten repositories in the order
    the API listed them. *)
Definition repo_summary (repos : list Repo) : list string :=
  map repo_line (firstn 10 repos).

(** The comprehension of app.py 333 before [set]: truthy languages. *)
Definition language_list (repos : list Repo) : list string :=
  fold_right (fun r acc =>
    match language (repo_raw r) with
    | Some l => if String.eqb l "" then acc else l :: acc
    | None => acc
    end) [] repos.

Definition indent (s : string) : string := "    " ++ s.

Definition prompt_lines (b : Bundle) (langs : list string) : list string :=
  let u := user b in
  map indent
  [ "Act as a VP of Engineering at a top tech company. Analyze this GitHub profile thoroughly.";
    "";
    "USER PROFILE:";
    "Username: " ++ login u;
    "Name: " ++ str_of_opt (user_name u);
    "Bio: " ++ str_of_opt (bio u);
    "Location: " ++ str_of_opt (location u);
    "Followers: " ++ str_of_Z (followers u);
    "Following: " ++ str_of_Z (following u);
    "Public Repos: " ++ str_of_Z (public_repos u);
    "Account Created: " ++ substring 0 10 (user_created_at u);
    "";
    "TOP REPOSITORIES (with stars):";
    String.concat nl (repo_summary (repos b));
    "";
    "LANGUAGES USED: " ++ (if truthy_list langs then String.concat ", " langs else "None");
    "";
    "ORGANIZATIONS: " ++ str_of_Z (Z.of_nat (length (orgs b)));
    "";
    "Based on this data, provide a detailed JSON analysis with:";
    "1. Overall score (0-100)";
    "2. Verdict (Hire/Strong Consider/Interview/Cultivate/Pass)";
    "3. Best fitting job role";
    "4. Executive summary";
    "5. Technical skills with proficiency scores";
    "6. Soft skills assessment";
    "7. Top 5 strengths";
    "8. Top 5 red flags";
    "9. 5 specific interview questions based on their actual projects";
    "10. 3 repos to archive (with reasons)";
    "11. 3 repos to improve (with specific improvements)";
    "";
    "RETURN STRICT JSON (No Markdown):";
    "{";
    dq "    'score': 0,";
    dq "    'verdict': 'Verdict',";
    dq "    'role': 'Best Fitting Role',";
    dq "    'summary': 'Executive summary here',";
    dq "    'skills': {'Python': 90, 'React': 80},";
    dq "    'soft_skills': {'Communication': 70, 'Leadership': 60},";
    dq "    'pros': ['strength1', 'strength2', 'strength3', 'strength4', 'strength5'],";
    dq "    'cons': ['redflag1', 'redflag2', 'redflag3', 'redflag4', 'redflag5'],";
    dq "    'interview_questions': ['Q1 based on their projects', 'Q2', 'Q3', 'Q4', 'Q5'],";
    dq "    'archive_repos': [{'name': 'repo1', 'reason': 'why to archive'}],";
    dq "    'improve_repos': [{'name': 'repo2', 'improvement': 'specific improvement'}]";
    "}" ].

(** The f-string: a newline after the opening quotes, then each line
    with its newline, then the indentation of the closing quotes. *)
Definition build_prompt (b : Bundle) (langs : list string) : string :=
  String.concat nl ([""] ++ prompt_lines b langs ++ ["    "]).

(** ** [analyze_with_ai] (app.py 327-390) *)

(** The result of the call and the exception reported with [st.error]
    (app.py 389), if any. *)
Definition AIOutcome : Type := result (option Json) * option PyExc.

Section Analyze.

(** [list(set(xs))]: some duplicate-free ordering of [xs]. *)
Context (set_order : list string -> list string).
(** [genai.GenerativeModel(name, ...)], called outside the [try]. *)
Context (new_model : string -> result unit).
(** [model.generate_content(prompt).text]. *)
Context (generate_content : string -> string -> result string).
Context (json_loads : string -> result Json).

Definition analyze_with_ai (b : Bundle) (model_name : option string) : AIOutcome :=
  match model_name with
  | None => (Ok None, None)
  | Some name =>
      if String.eqb name "" then (Ok None, None)
      else
        match new_model name with
        | Raise e => (Raise e, None)
        | Ok _ =>
            let langs := set_order (language_list (repos b)) in
            let prompt := build_prompt b langs in
            match py_bind (generate_content name prompt)
                    (fun text => json_loads (strip_fences text)) with
            | Ok j => (Ok (Some j), None)
            | Raise e => (Ok None, Some e)
            end
        end
  end.

End Analyze.

(** ** Fixtures *)

(** The models a listing yields. *)
Fixpoint listed (l : Listing) : list ModelInfo :=
  match l with Done | Fail _ => [] | Yield m rest => m :: listed rest end.

Definition BACKTICK : ascii := "`"%char.

(** A model listing with a Pro model first and a Flash model second. *)
Definition sample_listing : Listing :=
  Yield {| model_name := "models/gemini-1.5-pro";
           supported_generation_methods := ["generateContent"] |}
  (Yield {| model_name := "models/embedding-flash";
            supported_generation_methods := ["embedContent"] |}
  (Yield {| model_name := "models/gemini-2.0-flash";
            supported_generation_methods := ["generateContent"; "countTokens"] |} Done)).

(** A model reply that is valid JSON but not an assessment. *)
Definition partial_reply : Json := JObj [("score", JNum 70)].

(** A repository with a name, a language and a star count. *)
Definition plain_repo (n : string) (stars : Z) : Repo := {|
  enr := {| raw := {| name := n; full_name := "octo/" ++ n; description := None;
                      homepage := None; has_wiki := false; has_pages := false; has_issues := false;
                      has_projects := false; Repo.size := 0; stargazers_count := stars;
                      forks_count := 0; watchers_count := 0; open_issues_count := 0;
                      pushed_at := JMissing; created_at := ""; language := Some "Go";
                      languages_url := "" |};
            readme_exists := false; readme_preview := None; languages := [];
            languages_count := 0; commit_activity := None |};
  doc_score := 0; code_score := 0; activity_score := 0 |}.

(** Ten recently pushed repositories without stars, then a popular one:
    the API's [sort=updated] order. *)
Definition popular_last : Bundle := {|
  user := {| login := "octo"; user_name := Some "Octo"; bio := None; location := None;
             followers := 3; following := 1; public_repos := 11;
             user_created_at := "2019-05-01T00:00:00Z" |};
  repos := map (fun n => plain_repo n 0) ["a"; "b"; "c"; "d"; "e"; "f"; "g"; "h"; "i"; "j"]
           ++ [plain_repo "famous" 5000];
  orgs := [] |}.

(** [popular_last] with its eleventh repository unstarred. *)
Definition popular_quiet : Bundle := {|
  user := user popular_last;
  repos := firstn 10 (repos popular_last) ++ [plain_repo "famous" 0];
  orgs := [] |}.

(** A model that answers every prompt with [reply]. *)
Definition constant_model (reply : string) : string -> string -> result string :=
  fun _ _ => Ok reply.

(** A decoder that knows one document. *)
Definition decode_one (doc : string) (j : Json) : string -> result Json :=
  fun s => if String.eqb s doc then Ok j else Raise JSONDecodeError.

(** ** String lemmas *)

Lemma prefix_cons_true (a c : ascii) (s t : string) :
  prefix (String a s) (String c t) = true <-> a = c /\ prefix s t = true.
Proof. simpl. destruct (ascii_dec a c); split; intuition congruence. Qed.

Lemma prefix_nil (t : string) : prefix "" t = true.
Proof. destruct t; reflexivity. Qed.

Lemma prefix_app (s a y : string) : prefix s a = true -> prefix s (a ++ y) = true.
Proof.
  revert a. induction s as [|c s IH]; intros [|d a] H; try (destruct y; reflexivity);
    try discriminate.
  apply prefix_cons_true in H as [-> H]. apply prefix_cons_true. auto.
Qed.

Lemma contains_empty (s : string) : contains "" s = true.
Proof. destruct s; reflexivity. Qed.

Lemma contains_app_l (sub a y : string) : contains sub a = true -> contains sub (a ++ y) = true.
Proof.
  induction a as [|c a IH]; simpl; intro H.
  - apply String.eqb_eq in H as ->. apply contains_empty.
  - apply orb_true_iff in H as [H|H]; apply orb_true_iff; [left | right; auto].
    exact (prefix_app _ (String c a) y H).
Qed.

Lemma contains_app_r (sub a b : string) : contains sub b = true -> contains sub (a ++ b) = true.
Proof. induction a as [|c a IH]; simpl; intro H; [exact H | rewrite IH by exact H; apply orb_true_r]. Qed.

Lemma contains_refl (s : string) : contains s s = true.
Proof.
  destruct s as [|c s]; [reflexivity|]. simpl. apply orb_true_iff; left.
  apply prefix_cons_true. split; [reflexivity|]. induction s as [|d s IH]; [reflexivity|].
  apply prefix_cons_true. auto.
Qed.

Lemma contains_concat (x sep : string) (l : list string) :
  In x l -> contains x (String.concat sep l) = true.
Proof.
  induction l as [|a l IH]; [contradiction|]. intros [->|Hin]; simpl.
  - destruct l; [apply contains_refl | apply contains_app_l, contains_refl].
  - destruct l; [contradiction|]. do 2 apply contains_app_r. auto.
Qed.

(** ** Fence removal *)

Section Fence.

#[local] Abbreviation R s := (replace_go FENCE "" 0 s).

Lemma replace_fence_cons (c : ascii) (t : string) :
  prefix FENCE (String c t) = false -> R (String c t) = String c (R t).
Proof. intro H. cbn [replace_go]. rewrite H. reflexivity. Qed.

Lemma replace_fence_fence (t : string) :
  R (String BACKTICK (String BACKTICK (String BACKTICK t))) = R t.
Proof. destruct t; reflexivity. Qed.

Lemma prefix_fence_inv (s : string) :
  prefix FENCE s = true -> exists t, s = String BACKTICK (String BACKTICK (String BACKTICK t)).
Proof.
  intro H; unfold FENCE in H.
  destruct s as [|a s]; [discriminate|]. apply prefix_cons_true in H as [<- H].
  destruct s as [|b s]; [discriminate|]. apply prefix_cons_true in H as [<- H].
  destruct s as [|c t]; [discriminate|]. apply prefix_cons_true in H as [<- _]. eauto.
Qed.

Lemma replace_fence_head1 (t : string) : prefix "`" (R t) = true -> prefix "`" t = true.
Proof.
  destruct t as [|c t]; [discriminate|]. destruct (prefix FENCE (String c t)) eqn:E.
  - intros _. apply prefix_fence_inv in E as [t' ->]. reflexivity.
  - rewrite replace_fence_cons by exact E. intro H.
    apply prefix_cons_true in H as [<- _]. apply prefix_cons_true. auto using prefix_nil.
Qed.

Lemma replace_fence_head2 (t : string) : prefix "``" (R t) = true -> prefix "``" t = true.
Proof.
  destruct t as [|c t]; [discriminate|]. destruct (prefix FENCE (String c t)) eqn:E.
  - intros _. apply prefix_fence_inv in E as [t' ->]. reflexivity.
  - rewrite replace_fence_cons by exact E. intro H.
    apply prefix_cons_true in H as [<- H]. apply prefix_cons_true.
    split; [reflexivity | exact (replace_fence_head1 t H)].
Qed.

(** No occurrence of ["```"] survives [.replace("```", "")]: a removed
    occurrence is the leftmost one, so the character before it is not a
    backtick and the two sides cannot join into a new fence. *)
Lemma replace_fence_free (t : string) : contains FENCE (R t) = false.
Proof.
  remember (String.length t) as n eqn:Hn. revert t Hn.
  induction n as [n IH] using (well_founded_induction lt_wf). intros t ->.
  destruct t as [|c t]; [reflexivity|].
  destruct (prefix FENCE (String c t)) eqn:E.
  - apply prefix_fence_inv in E as [t' Ht]. rewrite Ht, replace_fence_fence.
    apply (IH (String.length t')); [rewrite Ht; simpl; lia | reflexivity].
  - rewrite replace_fence_cons by exact E. cbn [contains].
    rewrite (IH (String.length t)) by (simpl; lia || reflexivity). rewrite orb_false_r.
    destruct (prefix FENCE (String c (R t))) eqn:E2; [exfalso | reflexivity].
    apply prefix_cons_true in E2 as [Hc E2]. apply replace_fence_head2 in E2.
    assert (prefix FENCE (String c t) = true) by (apply prefix_cons_true; auto). congruence.
Qed.

End Fence.

Lemma lstrip_suffix (s : string) : exists p, s = p ++ lstrip s.
Proof.
  induction s as [|c s [p Hp]]; [exists ""; reflexivity|]. simpl.
  destruct (isspace c); [exists (String c p); simpl; congruence | exists ""; reflexivity].
Qed.

Lemma rstrip_prefix (s : string) : exists y, s = rstrip s ++ y.
Proof.
  induction s as [|c s [y Hy]]; [exists ""; reflexivity|]. simpl.
  destruct (String.eqb (rstrip s) "" && isspace c) eqn:E.
  - exists (String c s). reflexivity.
  - exists y. simpl. congruence.
Qed.

(** [str.strip] returns a substring, so it adds no occurrence. *)
Lemma contains_py_strip (sub s : string) :
  contains sub (py_strip s) = true -> contains sub s = true.
Proof.
  unfold py_strip. intro H. destruct (rstrip_prefix (lstrip s)) as [y Hy].
  destruct (lstrip_suffix s) as [p Hp]. rewrite Hp. apply contains_app_r.
  rewrite Hy. apply contains_app_l. exact H.
Qed.

Lemma strip_fences_fence_free (text : string) : contains FENCE (strip_fences text) = false.
Proof.
  unfold strip_fences. destruct (contains FENCE (py_strip _)) eqn:E; [|reflexivity].
  apply contains_py_strip in E. unfold py_replace in E. rewrite replace_fence_free in E.
  discriminate.
Qed.

(** ** Replacement and stripping on a fenced reply *)

Lemma prefix_cons_neq (a c : ascii) (s t : string) :
  a <> c -> prefix (String a s) (String c t) = false.
Proof. intro H. simpl. destruct (ascii_dec a c); congruence. Qed.

Lemma prefix_refl (s : string) : prefix s s = true.
Proof. induction s as [|c s IH]; [reflexivity | apply prefix_cons_true; auto]. Qed.

Lemma replace_go_skip (old new s y : string) :
  replace_go old new (String.length s) (s ++ y) = replace_go old new 0 y.
Proof. induction s as [|c s IH]; [reflexivity | exact IH]. Qed.

(** An occurrence at the scan position is replaced. *)
Lemma replace_go_match (old new y : string) :
  old <> "" -> replace_go old new 0 (old ++ y) = new ++ replace_go old new 0 y.
Proof.
  destruct old as [|c o]; [congruence|]. intros _. cbn [append replace_go].
  rewrite (prefix_app (String c o) (String c o) y (prefix_refl _)
    : prefix (String c o) (String c (o ++ y)) = true). cbn [String.length].
  replace (S (String.length o) - 1)%nat with (String.length o) by lia.
  rewrite replace_go_skip. reflexivity.
Qed.

(** Text with no backtick is copied by a scan for a pattern that starts
    with a backtick. *)
Lemma replace_go_no_backtick (old new t u o : string) :
  old = String BACKTICK o -> contains "`" t = false ->
  replace_go old new 0 (t ++ u) = t ++ replace_go old new 0 u.
Proof.
  intros ->. induction t as [|c t IH]; [reflexivity|]. cbn [contains].
  intro H. apply orb_false_iff in H as [H1 H2].
  destruct (ascii_dec BACKTICK c) as [<-|Hne].
  - rewrite (proj2 (prefix_cons_true _ _ _ _) (conj eq_refl (prefix_nil t))) in H1. discriminate.
  - cbn [append replace_go]. rewrite prefix_cons_neq by exact Hne. rewrite IH by exact H2.
    reflexivity.
Qed.

Lemma lstrip_app (x y : string) : lstrip x <> "" -> lstrip (x ++ y) = lstrip x ++ y.
Proof.
  induction x as [|c x IH]; [intro H; simpl in H; congruence|]. simpl.
  destruct (isspace c); auto.
Qed.

Lemma rstrip_app_space (x y : string) : rstrip y = "" -> rstrip (x ++ y) = rstrip x.
Proof. intro H. induction x as [|c x IH]; [exact H | simpl; rewrite IH; reflexivity]. Qed.

(** Scenario E at the string level: the fenced reply
    ["```json\n" ++ t ++ "\n```"] is reduced to [t], for a [t] that is
    stripped, non-empty and free of backticks. *)
Lemma strip_fences_fenced (t : string) :
  t <> "" -> py_strip t = t -> contains "`" t = false ->
  strip_fences (FENCE_JSON ++ nl ++ t ++ nl ++ FENCE) = t.
Proof.
  intros Hne Hs Hb. unfold strip_fences, py_replace.
  rewrite replace_go_match by discriminate. cbn [append].
  rewrite !(replace_go_no_backtick FENCE_JSON "" _ _ "``json") by (reflexivity || exact Hb).
  rewrite !(replace_go_no_backtick FENCE "" _ _ "``") by (reflexivity || exact Hb).
  change (replace_go FENCE "" 0 (replace_go FENCE_JSON "" 0 FENCE)) with "".
  unfold py_strip. change (lstrip (nl ++ t ++ nl ++ "")) with (lstrip (t ++ nl ++ "")).
  assert (Hl : lstrip t <> "") by (intro E; unfold py_strip in Hs; rewrite E in Hs; auto).
  rewrite lstrip_app by exact Hl. rewrite rstrip_app_space by reflexivity. exact Hs.
Qed.

Lemma prefix_spec (s t : string) : prefix s t = true -> exists q, t = s ++ q.
Proof.
  revert t. induction s as [|c s IH]; intros t H; [exists t; reflexivity|].
  destruct t as [|d t]; [discriminate|]. apply prefix_cons_true in H as [<- H].
  destruct (IH t H) as [q ->]. exists q. reflexivity.
Qed.

Lemma contains_spec (sub t : string) : contains sub t = true <-> exists p q, t = p ++ sub ++ q.
Proof.
  split.
  - induction t as [|c t IH]; cbn [contains]; intro H.
    + apply String.eqb_eq in H as ->. exists "", "". reflexivity.
    + apply orb_true_iff in H as [H|H].
      * destruct (prefix_spec _ _ H) as [q E]. exists "", q. exact E.
      * destruct (IH H) as (p & q & ->). exists (String c p), q. reflexivity.
  - intros (p & q & ->). apply contains_app_r, contains_app_l, contains_refl.
Qed.

Lemma string_app_assoc (x y z : string) : x ++ (y ++ z) = (x ++ y) ++ z.
Proof. induction x as [|c x IH]; [reflexivity | simpl; rewrite IH; reflexivity]. Qed.

Lemma contains_trans (a b c : string) :
  contains a b = true -> contains b c = true -> contains a c = true.
Proof.
  rewrite !contains_spec. intros (p & q & ->) (p' & q' & ->).
  exists (p' ++ p), (q ++ q'). rewrite !string_app_assoc. reflexivity.
Qed.

(** Every model [first_flash] returns was listed, supports
    [generateContent] and has ["flash"] in its name. *)
Lemma first_flash_sound (l : Listing) (n : string) :
  first_flash l = Ok (Some n) ->
  contains "flash" n = true /\
  exists m, In m (listed l) /\ model_name m = n /\ In "generateContent" (supported_generation_methods m).
Proof.
  induction l as [| e | m rest IH]; cbn [first_flash listed]; try discriminate.
  destruct (existsb _ _ && contains _ _) eqn:E.
  - intro H. injection H as <-. apply andb_true_iff in E as [E1 E2].
    apply existsb_exists in E1 as (x & Hx & Ex). apply String.eqb_eq in Ex as <-.
    split; [exact E2 | exists m; auto using in_eq].
  - intro H. destruct (IH H) as [Hf (m' & ? & ? & ?)]. split; [exact Hf | exists m'; auto using in_cons].
Qed.

(** ** Properties of model selection *)

(** C27: without a Gemini key no model is selected (and the analysis is
    skipped); with a key a model is always selected. *)
Theorem get_working_model_none_iff (key : option string) (configure : result unit) (l : Listing) :
  get_working_model key configure l = None <-> truthy_str key = false.
Proof.
  unfold get_working_model. destruct (truthy_str key); simpl; [|tauto].
  split; [|discriminate]. destruct configure; simpl; [|discriminate].
  destruct (first_flash l) as [[n|]|e]; discriminate.
Qed.

(** C28: with a key, the selected model has ["flash"] in its name and is
    either a listed model that supports [generateContent] or the
    hard-coded fallback (when listing finds none or raises). *)
Theorem get_working_model_flash (key : option string) (configure : result unit) (l : Listing) :
  truthy_str key = true ->
  exists name, get_working_model key configure l = Some name /\ contains "flash" name = true /\
    (name = FALLBACK_MODEL \/
     exists m, In m (listed l) /\ model_name m = name /\
               In "generateContent" (supported_generation_methods m)).
Proof.
  intro Hk. unfold get_working_model. rewrite Hk. cbn [negb].
  destruct (py_bind configure (fun _ => first_flash l)) as [[n|]|e] eqn:E;
    try (exists FALLBACK_MODEL; split; [reflexivity | split; [reflexivity | left; reflexivity]]).
  destruct configure; [|discriminate]. cbn in E.
  destruct (first_flash_sound l n E) as [Hf Hm]. exists n. auto.
Qed.

(** ** Properties of the fence stripping and the prompt *)

(** C24: the text handed to [json.loads] never contains a Markdown fence
    ["```"], whatever the model replied. *)
Theorem strip_fences_no_fence (text : string) : contains FENCE (strip_fences text) = false.
Proof. apply strip_fences_fence_free. Qed.

(** Every one of the first ten repositories, in the order the API
    listed them, appears in the prompt with its language and stars. *)
Lemma prompt_lists_first_ten (b : Bundle) (langs : list string) (r : Repo) :
  In r (firstn 10 (repos b)) -> contains (repo_line r) (build_prompt b langs) = true.
Proof.
  intro Hr. apply contains_trans with (indent (String.concat nl (repo_summary (repos b)))).
  - unfold indent, repo_summary. apply contains_app_r, contains_concat, in_map, Hr.
  - unfold build_prompt. apply contains_concat, in_or_app. right. apply in_or_app. left.
    unfold prompt_lines. cbv zeta. apply in_map. do 13 right. left. reflexivity.
Qed.

(** C33: the prompt's "TOP REPOSITORIES (with stars)" are the first ten
    repositories in the API's order (update time), not the most starred:
    each of them appears with its language and stars, and a repository
    listed after the tenth changes the prompt only through the language
    list; its stars never reach it. *)
Theorem prompt_top_repos_first_ten (set_order : list string -> list string) (b b' : Bundle) :
  user b = user b' -> length (orgs b) = length (orgs b') ->
  firstn 10 (repos b) = firstn 10 (repos b') ->
  language_list (repos b) = language_list (repos b') ->
  (forall r, In r (firstn 10 (repos b)) ->
     contains (repo_line r) (build_prompt b (set_order (language_list (repos b)))) = true) /\
  build_prompt b (set_order (language_list (repos b)))
  = build_prompt b' (set_order (language_list (repos b'))).
Proof.
  intros Hu Ho Hf Hl. split; [intros r Hr; apply prompt_lists_first_ten, Hr|].
  unfold build_prompt, prompt_lines, repo_summary. rewrite Hu, Ho, Hf, Hl. reflexivity.
Qed.

(** The replacements are global: backticks inside the JSON payload are
    removed too, so a reply quoting a fenced snippet is altered before
    decoding. *)
Example strip_fences_alters_payload :
  strip_fences (dq "{'code': '```py x```'}") = dq "{'code': 'py x'}".
Proof. vm_compute. reflexivity. Qed.

(** ** Properties of [analyze_with_ai] *)

Section AnalyzeProperties.

Context (set_order : list string -> list string).
Context (new_model : string -> result unit).
Context (generate_content : string -> string -> result string).
Context (json_loads : string -> result Json).

#[local] Abbreviation analyze := (analyze_with_ai set_order new_model generate_content json_loads).
#[local] Abbreviation prompt_of b := (build_prompt b (set_order (language_list (repos b)))).

(** without a model name the adapter returns [None] and reports
    nothing. *)
Theorem analyze_no_model (b : Bundle) (model : option string) :
  truthy_str model = false -> analyze b model = (Ok None, None).
Proof.
  destruct model as [name|]; [|reflexivity]. cbn. intro H.
  apply negb_false_iff in H. rewrite H. reflexivity.
Qed.

(** C25: Scenario E: a reply wrapped in a ["```json"] fence is decoded
    from the text inside the fence. *)
Theorem analyze_scenario_E (b : Bundle) (name t : string) (j : Json) :
  name <> "" -> new_model name = Ok tt ->
  generate_content name (prompt_of b) = Ok (FENCE_JSON ++ nl ++ t ++ nl ++ FENCE) ->
  t <> "" -> py_strip t = t -> contains "`" t = false -> json_loads t = Ok j ->
  analyze b (Some name) = (Ok (Some j), None).
Proof.
  intros Hn Hm Hg Ht Hs Hb Hj. unfold analyze_with_ai.
  rewrite (proj2 (String.eqb_neq name "") Hn), Hm. cbn zeta. rewrite Hg. cbn [py_bind].
  rewrite strip_fences_fenced, Hj by assumption. reflexivity.
Qed.

(** C4: the adapter fails open: whatever JSON value the decoder returns is
    handed to the caller, with no check against the assessment schema
    (spec: a reply missing required keys must yield no assessment). *)
Theorem analyze_fail_open (b : Bundle) (name text : string) (j : Json) :
  name <> "" -> new_model name = Ok tt -> generate_content name (prompt_of b) = Ok text ->
  json_loads (strip_fences text) = Ok j ->
  analyze b (Some name) = (Ok (Some j), None).
Proof.
  intros Hn Hm Hg Hj. unfold analyze_with_ai.
  rewrite (proj2 (String.eqb_neq name "") Hn), Hm. cbn zeta. rewrite Hg. cbn [py_bind].
  rewrite Hj. reflexivity.
Qed.

(** C26: an exception of the model call or of the decoder is caught: the
    adapter returns [None] and reports the exception. *)
Theorem analyze_errors_reported (b : Bundle) (name : string) (e : PyExc) :
  name <> "" -> new_model name = Ok tt ->
  (generate_content name (prompt_of b) = Raise e \/
   exists text, generate_content name (prompt_of b) = Ok text /\
                json_loads (strip_fences text) = Raise e) ->
  analyze b (Some name) = (Ok None, Some e).
Proof.
  intros Hn Hm Hg. unfold analyze_with_ai.
  rewrite (proj2 (String.eqb_neq name "") Hn), Hm. cbn zeta.
  destruct Hg as [Hg | (text & Hg & Hj)]; rewrite Hg; cbn [py_bind]; [|rewrite Hj]; reflexivity.
Qed.

End AnalyzeProperties.

(** ** Witnesses *)

Lemma get_working_model_flash_witness :
  truthy_str (Some "key") = true /\
  exists name, get_working_model (Some "key") (Ok tt) sample_listing = Some name /\
    contains "flash" name = true /\
    (name = FALLBACK_MODEL \/
     exists m, In m (listed sample_listing) /\ model_name m = name /\
               In "generateContent" (supported_generation_methods m)).
Proof. split; [reflexivity | exact (get_working_model_flash (Some "key") (Ok tt) sample_listing eq_refl)]. Defined.

Lemma analyze_no_model_witness :
  truthy_str (Some "") = false /\
  analyze_with_ai (fun l => l) (fun _ => Ok tt) (constant_model "{}") (decode_one "{}" (JObj []))
    popular_last (Some "") = (Ok None, None).
Proof. split; [reflexivity | apply analyze_no_model; reflexivity]. Defined.

Lemma analyze_scenario_E_witness :
  analyze_with_ai (fun l => l) (fun _ => Ok tt)
    (constant_model (FENCE_JSON ++ nl ++ "{}" ++ nl ++ FENCE)) (decode_one "{}" (JObj []))
    popular_last (Some "models/gemini-2.0-flash") = (Ok (Some (JObj [])), None).
Proof.
  apply (analyze_scenario_E _ _ _ _ _ _ "{}"); try reflexivity; discriminate.
Defined.

Lemma analyze_fail_open_witness :
  is_ai_assessment partial_reply = false /\
  analyze_with_ai (fun l => l) (fun _ => Ok tt)
    (constant_model (dq "{'score': 70}")) (decode_one (dq "{'score': 70}") partial_reply)
    popular_last (Some "models/gemini-2.0-flash") = (Ok (Some partial_reply), None).
Proof.
  split; [reflexivity|]. apply (analyze_fail_open _ _ _ _ _ _ (dq "{'score': 70}"));
    try reflexivity; discriminate.
Defined.

Lemma analyze_errors_reported_witness :
  analyze_with_ai (fun l => l) (fun _ => Ok tt)
    (constant_model "I cannot help with that.") (decode_one "{}" (JObj []))
    popular_last (Some "models/gemini-2.0-flash") = (Ok None, Some JSONDecodeError).
Proof.
  apply analyze_errors_reported; [discriminate | reflexivity |].
  right. exists "I cannot help with that.". split; reflexivity.
Defined.

Lemma prompt_top_repos_first_ten_witness :
  In (plain_repo "famous" 5000) (repos popular_last) /\
  (forall r, In r (firstn 10 (repos popular_last)) ->
     contains (repo_line r) (build_prompt popular_last (language_list (repos popular_last))) = true) /\
  build_prompt popular_last (language_list (repos popular_last))
  = build_prompt popular_quiet (language_list (repos popular_quiet)).
Proof.
  split; [apply in_or_app; right; left; reflexivity|].
  apply (prompt_top_repos_first_ten (fun l => l)); reflexivity.
Defined.
