(* ===== verification/Script.v ===== *)
(** * Script: what a run of the page shows, and the monad of a run

    Streamlit executes [app.py] from top to bottom on every interaction;
    each [st.*] call that shows data is an [Output], in execution order.
    An exception that nothing catches ends the run and Streamlit shows it
    after what was already rendered: the run is a writer of outputs with
    exceptions, [Script], and [finish] appends the crash.  Static
    headings, layout calls, CSS and the styling of charts are not
    outputs; a chart is the data it is drawn from. *)

From Stdlib Require Import ZArith QArith String List Bool Lia.
From S2P Require Import Prelude Repo Timestamp Recommend AIAdapter.
Import ListNotations.
Local Open Scope string_scope.

(** ** Outputs *)

(** The export dict of app.py 742-756; [repositories] holds name, stars,
    forks and documentation score. *)
Record Report := {
  report_username : string;
  report_portfolio_score : Q;
  report_dimension_scores : list (string * Q);
  report_ai_analysis : option Json;
  report_repositories : list (string * Z * Z * Z)
}.

Inductive Output :=
| OWarning (msg : string)                          (* st.warning *)
| OError (msg : string)                            (* st.error *)
| OAIError (e : PyExc)                             (* st.error in analyze_with_ai *)
| OAnimation (j : Json)                            (* st_lottie *)
| OSuccess (msg : string)                          (* st.success *)
| OMetrics (portfolio_score : Q) (top10 : bool) (public_repos total_stars followers : Z)
| OVerdict (v : Json)                              (* AI Verdict metric *)
| ORadar (dims : list (string * Q))                (* dimension radar chart *)
| OLanguages (counts : list (string * Z))          (* language pie chart *)
| OSummary (v : Json)                              (* st.info(ai_result['summary']) *)
| OTimeline (rows : list (string * DateTime * Z))  (* repository stars bar chart *)
| OSelectbox (options : list string) (value : string)
| ODeepDive (name : string) (doc code activity : Z) (* the three st.metric of the deep dive *)
| ORepoStats (stars forks issues size : Z) (created : string)
| OLastUpdated (pushed : string)
| ORepoLanguages (langs : list (string * Z))
| OPreview (text : string)
| OExpander (section : string) (title : Json)      (* st.expander(f"... {item['name']}") *)
| OText (v : Json)                                 (* st.write(v) *)
| ORecommendations (rs : list Recommend.Recommendation)
| OQuestion (i : Z) (q : Json)
| OSkills (soft : bool) (items : list (string * Json))
| OStrengths (items : Json)
| OImprovements (items : Json)
| ODownload (file_name : string) (report : Report)
| OCrash (e : PyExc).

Definition is_download (o : Output) : bool := match o with ODownload _ _ => true | _ => false end.
Definition is_crash (o : Output) : bool := match o with OCrash _ => true | _ => false end.

(** ** The script monad *)

Definition Script (A : Type) : Type := result A * list Output.

Definition sret {A} (a : A) : Script A := (Ok a, []).

Definition sbind {A B} (c : Script A) (k : A -> Script B) : Script B :=
  match c with
  | (Ok a, o) => let (r, o') := k a in (r, (o ++ o')%list)
  | (Raise e, o) => (Raise e, o)
  end.

Definition emit (o : Output) : Script unit := (Ok tt, [o]).

Definition slift {A} (r : result A) : Script A := (r, []).

Declare Scope script_scope.
Delimit Scope script_scope with script.
Notation "'let%' x ':=' c 'in' k" := (sbind c (fun x => k))
  (at level 10, x name, c at level 100, k at level 200, right associativity) : script_scope.

(** [for x in xs: body(x)], in order, stopping at the first exception. *)
Fixpoint sfor {A} (xs : list A) (body : A -> Script unit) : Script unit :=
  match xs with
  | [] => sret tt
  | x :: rest => sbind (body x) (fun _ => sfor rest body)
  end.

(** What Streamlit shows at the end of a run. *)
Definition finish (s : Script unit) : list Output :=
  match s with
  | (Ok _, o) => o
  | (Raise e, o) => (o ++ [OCrash e])%list
  end.

(** ** Lemmas *)

Section ScriptOutputs.

(** A property every output of a script has. *)
Context (P : Output -> Prop).

Lemma outs_sret {A} (a : A) : Forall P (snd (sret a)).
Proof. constructor. Qed.

Lemma outs_slift {A} (r : result A) : Forall P (snd (slift r)).
Proof. constructor. Qed.

Lemma outs_emit (o : Output) : P o -> Forall P (snd (emit o)).
Proof. intro H. repeat constructor. exact H. Qed.

Lemma outs_sbind {A B} (c : Script A) (k : A -> Script B) :
  Forall P (snd c) -> (forall a, Forall P (snd (k a))) -> Forall P (snd (sbind c k)).
Proof.
  intros Hc Hk. destruct c as [[a|e] o]; [|exact Hc]. cbn [sbind].
  specialize (Hk a). destruct (k a) as [r o']. apply Forall_app. auto.
Qed.

Lemma outs_sfor {A} (xs : list A) (body : A -> Script unit) :
  (forall x, Forall P (snd (body x))) -> Forall P (snd (sfor xs body)).
Proof.
  intro H. induction xs as [|x xs IH]; [constructor|].
  cbn [sfor]. apply outs_sbind; auto.
Qed.

Lemma finish_outs (s : Script unit) :
  Forall P (snd s) -> (forall e, P (OCrash e)) -> Forall P (finish s).
Proof.
  destruct s as [[u|e] o]; simpl; intros H Hc; [exact H|]. apply Forall_app. auto.
Qed.

End ScriptOutputs.

Local Open Scope list_scope.

(** Split a concrete list of outputs before its last element. *)
Ltac exists_removelast :=
  match goal with
  | |- exists pre, ?L = pre ++ _ /\ _ => exists (removelast L); split; [reflexivity|]
  end.

