(* ===== verification/Dashboard.v ===== *)
(** * Dashboard: the [else] branch of the click handler (app.py 430-757)

    After a successful fetch the script scores the bundle, asks the
    model, computes the recommendations and renders the dashboard: the
    metric row, four tabs (overview, repository deep dive,
    recommendations, interview preparation), the key takeaways and the
    export button.  Streamlit runs every tab's body, in order, in the same
    run.  [dashboard] follows the code statement by statement in the
    [Script] monad; each [st.*] call that shows data is an output.

    The AI result is whatever [json.loads] returned ([Json]); the code
    reads it with [d[k]], [k in d], [d[:3]], iteration and [.items()],
    modelled with Python's semantics on each kind of JSON value
    ([json_getitem], [json_contains], [json_slice3], [json_iter],
    [json_items]).  A decoded object is a [dict]: for a repeated key the
    last value wins at the position of the first ([py_dict]).  Slicing a
    [dict] is the [TypeError] of Python 3.11.

    The activity timeline sorts its rows with [DataFrame.sort_values(...,
    ascending=False)]: pandas reverses the rows, sorts them ascending with
    numpy's quicksort (an insertion sort below 16 elements, hence stable)
    and reverses the result, so rows with equal dates keep their order.
    [sort_desc] is that stable descending sort. *)

From Stdlib Require Import ZArith QArith String List Bool Lia Sorting.Permutation Sorting.Sorted.
From S2P Require Import Prelude Codec Repo Timestamp Scoring Portfolio Recommend Fetcher AIAdapter Script.
Import ListNotations.
Local Open Scope string_scope.
Local Open Scope script_scope.

(** The environment of a run: the GitHub API and the decoder of the
    fetcher, the clock, the two keys, the animation asset's response and
    the Gemini SDK of the adapter. *)
Record Env := {
  env_github : GitHub;
  env_b64decode : string -> result string;
  env_now : DateTime;
  env_github_token : option string;
  env_lottie : result (Response Json);
  env_gemini_key : option string;
  env_configure : result unit;
  env_listing : Listing;
  env_set_order : list string -> list string;
  env_new_model : string -> result unit;
  env_generate_content : string -> string -> result string;
  env_json_loads : string -> result Json
}.

(** ** Python on decoded JSON values *)

(** [d[k] = v] on a dict kept in insertion order. *)
Fixpoint dict_set (d : list (string * Json)) (k : string) (v : Json) : list (string * Json) :=
  match d with
  | [] => [(k, v)]
  | (k', v') :: d' => if String.eqb k k' then (k, v) :: d' else (k', v') :: dict_set d' k v
  end.

(** The dict [json.loads] builds from the pairs of an object. *)
Definition py_dict (kvs : list (string * Json)) : list (string * Json) :=
  fold_left (fun d kv => dict_set d (fst kv) (snd kv)) kvs [].

(** [v[k]] *)
Definition json_getitem (j : Json) (k : string) : result Json :=
  match j with
  | JObj kvs => py_getitem (py_dict kvs) k
  | JArr _ => Raise (TypeError "list indices must be integers or slices, not str")
  | JStr _ => Raise (TypeError "string indices must be integers, not 'str'")
  | _ => Raise (TypeError "object is not subscriptable")
  end.

(** [v[:3]] *)
Definition json_slice3 (j : Json) : result Json :=
  match j with
  | JArr xs => Ok (JArr (firstn 3 xs))
  | JStr s => Ok (JStr (take_cp 3 s))
  | JObj _ => Raise (TypeError "unhashable type: 'slice'")
  | _ => Raise (TypeError "object is not subscriptable")
  end.

(** [k in v] for a string [k]: a key of a dict, an element of a list, a
    substring of a string. *)
Definition json_contains (k : string) (j : Json) : result bool :=
  match j with
  | JObj kvs => Ok (existsb (fun kv => String.eqb (fst kv) k) (py_dict kvs))
  | JArr xs => Ok (existsb (fun x => match x with JStr s => String.eqb s k | _ => false end) xs)
  | JStr s => Ok (contains k s)
  | _ => Raise (TypeError "argument of type is not iterable")
  end.

(** [for x in v] *)
Definition json_iter (j : Json) : result (list Json) :=
  match j with
  | JArr xs => Ok xs
  | JStr s => Ok (map JStr (cp_chars s))
  | JObj kvs => Ok (map (fun kv => JStr (fst kv)) (py_dict kvs))
  | _ => Raise (TypeError "object is not iterable")
  end.

(** [v.items()] *)
Definition json_items (j : Json) : result (list (string * Json)) :=
  match j with
  | JObj kvs => Ok (py_dict kvs)
  | _ => Raise (AttributeError "object has no attribute 'items'")
  end.

(** [enumerate(xs, 1)] *)
Fixpoint enumerate_from {A} (i : Z) (xs : list A) : list (Z * A) :=
  match xs with
  | [] => []
  | x :: rest => (i, x) :: enumerate_from (i + 1) rest
  end.

(** ** Reads of the AI result *)

(** [if ai_result: ... ai_result[k] ...] (app.py 465-467, 531-532,
    727-737), with [[:3]] when [slice]. *)
Definition ai_read (ai_result : option Json) (k : string) (slice : bool) (out : Json -> Output)
  : Script unit :=
  match ai_result with
  | Some j =>
      if json_truthy j then
        let% v := slift (json_getitem j k) in
        let% v := (if slice then slift (json_slice3 v) else sret v) in
        emit (out v)
      else sret tt
  | None => sret tt
  end.

(** [if ai_result and key in ai_result: for item in ai_result[key][:3]:
    with st.expander(...item['name']): st.write(item[field])]
    (app.py 624-634). *)
Definition ai_items (ai_result : option Json) (key field section : string) : Script unit :=
  match ai_result with
  | Some j =>
      if json_truthy j then
        let% present := slift (json_contains key j) in
        if present then
          let% v := slift (json_getitem j key) in
          let% v := slift (json_slice3 v) in
          let% items := slift (json_iter v) in
          sfor items (fun item =>
            let% title := slift (json_getitem item "name") in
            let% _ := emit (OExpander section title) in
            let% body := slift (json_getitem item field) in
            emit (OText body))
        else sret tt
      else sret tt
  | None => sret tt
  end.

Definition MSG_NO_QUESTIONS : string := "Interview questions could not be generated. Please try again.".

(** [ai_result[key].items()] shown as a bar chart (app.py 672-713). *)
Definition skills_chart (j : Json) (key : string) (soft : bool) : Script unit :=
  let% v := slift (json_getitem j key) in
  let% items := slift (json_items v) in
  emit (OSkills soft items).

(** The interview tab (app.py 661-715). *)
Definition interview_tab (ai_result : option Json) : Script unit :=
  let body (j : Json) :=
    let% qs := slift (json_getitem j "interview_questions") in
    let% qs := slift (json_iter qs) in
    let% _ := sfor (enumerate_from 1 qs) (fun iq => emit (OQuestion (fst iq) (snd iq))) in
    let% has_skills := slift (json_contains "skills" j) in
    if has_skills then
      let% _ := skills_chart j "skills" false in
      let% has_soft := slift (json_contains "soft_skills" j) in
      if has_soft then skills_chart j "soft_skills" true else sret tt
    else sret tt in
  match ai_result with
  | Some j =>
      if json_truthy j then
        let% present := slift (json_contains "interview_questions" j) in
        if present then body j else emit (OWarning MSG_NO_QUESTIONS)
      else emit (OWarning MSG_NO_QUESTIONS)
  | None => emit (OWarning MSG_NO_QUESTIONS)
  end.

(** ** The overview tab *)

(** [Counter(xs)]: counts in order of first occurrence. *)
Fixpoint counter_add (acc : list (string * Z)) (x : string) : list (string * Z) :=
  match acc with
  | [] => [(x, 1%Z)]
  | (y, n) :: rest => if String.eqb x y then (y, (n + 1)%Z) :: rest else (y, n) :: counter_add rest x
  end.

Definition counter (xs : list string) : list (string * Z) := fold_left counter_add xs [].

(** The reference a [Counter] is specified by: the distinct values in
    order of first occurrence, each with its number of occurrences. *)
Definition first_seen (xs : list string) : list string :=
  fold_left (fun seen x => if existsb (String.eqb x) seen then seen else (seen ++ [x])%list) xs [].

Definition counter_spec (xs : list string) : list (string * Z) :=
  map (fun k => (k, Z.of_nat (count_occ string_dec xs k))) (first_seen xs).

(** [all_langs]: the language names of every repository, in order. *)
Definition all_langs (b : Bundle) : list string :=
  flat_map (fun r => map fst (languages (enr r))) (repos b).

(** The language chart (app.py 504-527): [pd.DataFrame(list(Counter(
    all_langs).items())).head(8)]. *)
Definition language_distribution (b : Bundle) : Script unit :=
  let langs := all_langs b in
  if truthy_list langs then emit (OLanguages (firstn 8 (counter langs))) else sret tt.

(** One row of the activity timeline (app.py 537-543). *)
Definition timeline_row (r : Repo) : result (string * DateTime * Z) :=
  let* pushed := match pushed_at (repo_raw r) with
                 | JString s => strptime_github s
                 | Repo.JNull => Raise (TypeError "strptime() argument 1 must be str, not None")
                 | JMissing => Raise (KeyError "pushed_at")
                 end in
  Ok (repo_name r, pushed, stargazers_count (repo_raw r)).

Definition row_key (row : string * DateTime * Z) : Z := to_seconds (snd (fst row)).

(** Insert [x] after every row at least as recent. *)
Fixpoint insert_desc (x : string * DateTime * Z) (l : list (string * DateTime * Z)) :=
  match l with
  | [] => [x]
  | y :: l' => if (row_key y <? row_key x)%Z then x :: y :: l' else y :: insert_desc x l'
  end.

(** [sort_values('Last Updated', ascending=False)] on at most ten rows. *)
Definition sort_desc (rows : list (string * DateTime * Z)) : list (string * DateTime * Z) :=
  fold_left (fun acc x => insert_desc x acc) rows [].

Fixpoint map_result {A B} (f : A -> result B) (l : list A) : result (list B) :=
  match l with
  | [] => Ok []
  | x :: rest => let* y := f x in let* ys := map_result f rest in Ok (y :: ys)
  end.

(** The timeline (app.py 534-561); a DataFrame built from no row has no
    column to sort by. *)
Definition activity_timeline (b : Bundle) : Script unit :=
  let% rows := slift (map_result timeline_row (firstn 10 (repos b))) in
  match rows with
  | [] => slift (Raise (KeyError "Last Updated"))
  | _ => emit (OTimeline (sort_desc rows))
  end.

(** ** The repository deep dive (app.py 563-611) *)

(** [next(r for r in repos if r['name'] == selected_repo)] *)
Fixpoint find_repo (rs : list Repo) (n : string) : result Repo :=
  match rs with
  | [] => Raise StopIteration
  | r :: rest => if String.eqb (repo_name r) n then Ok r else find_repo rest n
  end.

(** [st.selectbox(label, options)]: the stored value of the widget if it
    is one of the options, else the first option; [None] without options. *)
Definition selectbox (options : list string) (stored : option string) : option string :=
  match stored with
  | Some v => if existsb (String.eqb v) options then Some v else hd_error options
  | None => hd_error options
  end.

Definition str_slice10 (j : Repo.JStr) : result string :=
  match j with
  | JString s => Ok (take_cp 10 s)
  | Repo.JNull => Raise (TypeError "'NoneType' object is not subscriptable")
  | JMissing => Raise (KeyError "pushed_at")
  end.

Definition deep_dive (b : Bundle) (stored : option string) : Script unit :=
  let repo_names := map repo_name (repos b) in
  match selectbox repo_names stored with
  | None => sret tt
  | Some selected_repo =>
      let% _ := emit (OSelectbox repo_names selected_repo) in
      if String.eqb selected_repo "" then sret tt
      else
        let% repo := slift (find_repo (repos b) selected_repo) in
        let% _ := emit (ODeepDive (repo_name repo) (doc_score repo) (code_score repo)
                          (activity_score repo)) in
        let r := repo_raw repo in
        let% _ := emit (ORepoStats (stargazers_count r) (forks_count r) (open_issues_count r)
                          (Repo.size r) (take_cp 10 (created_at r))) in
        let% pushed := slift (str_slice10 (pushed_at r)) in
        let% _ := emit (OLastUpdated pushed) in
        let% _ := (if truthy_list (languages (enr repo))
                   then emit (ORepoLanguages (languages (enr repo))) else sret tt) in
        if truthy_str (readme_preview (enr repo))
        then emit (OPreview (take_cp 300 (match readme_preview (enr repo) with
                                          | Some p => p | None => "" end) ++ "..."))
        else emit (OWarning "⚠️ No README found for this repository")
  end.

(** ** The dashboard *)

Definition total_stars (b : Bundle) : Z := sum_Z (fun r => stargazers_count (repo_raw r)) (repos b).

(** The report of the export button (app.py 742-756). *)
Definition make_report (username : string) (score : Q) (dims : list (string * Q))
  (ai_result : option Json) (b : Bundle) : Report := {|
  report_username := username;
  report_portfolio_score := score;
  report_dimension_scores := dims;
  report_ai_analysis := ai_result;
  report_repositories :=
    map (fun r => (repo_name r, stargazers_count (repo_raw r), forks_count (repo_raw r), doc_score r))
        (firstn 10 (repos b)) |}.

(** The [else] branch of app.py 430-757; [selected] is the stored value
    of the repository selector and [export_btn] the value of the export
    button during this run. *)
Definition dashboard (env : Env) (username : string) (b : Bundle) (selected : option string)
  (export_btn : bool) : Script unit :=
  let (portfolio_score, dimension_scores) := Portfolio.calculate_portfolio_score (Data b) in
  let model := get_working_model (env_gemini_key env) (env_configure env) (env_listing env) in
  let (ai_res, ai_err) :=
    analyze_with_ai (env_set_order env) (env_new_model env) (env_generate_content env)
      (env_json_loads env) b model in
  let% _ := (match ai_err with Some e => emit (OAIError e) | None => sret tt end) in
  let% ai_result := slift ai_res in
  let% recommendations := slift (Recommend.get_actionable_recommendations b dimension_scores) in
  let% _ := emit (OSuccess ("✅ Analysis complete for @" ++ username)) in
  let% _ := emit (OMetrics portfolio_score (Qltb 80 portfolio_score) (public_repos (user b))
                   (total_stars b) (followers (user b))) in
  let% _ := ai_read ai_result "verdict" false OVerdict in
  let% _ := emit (ORadar dimension_scores) in
  let% _ := language_distribution b in
  let% _ := ai_read ai_result "summary" false OSummary in
  let% _ := activity_timeline b in
  let% _ := deep_dive b selected in
  let% _ := ai_items ai_result "improve_repos" "improvement" "🔧" in
  let% _ := ai_items ai_result "archive_repos" "reason" "📦" in
  let% _ := emit (ORecommendations (firstn 3 recommendations)) in
  let% _ := interview_tab ai_result in
  let% _ := ai_read ai_result "pros" true OStrengths in
  let% _ := ai_read ai_result "cons" true OImprovements in
  if export_btn then
    emit (ODownload ("github_audit_" ++ username ++ ".json")
            (make_report username portfolio_score dimension_scores ai_result b))
  else sret tt.

(** ** Fixtures *)

Definition lottie_ok : result (Response Json) :=
  Ok {| status_code := 200; json := Ok (JObj [("v", JStr "5.7.4")]) |}.

(** A run environment whose model answers with [partial_reply]. *)
Definition partial_env : Env := {|
  env_github := demo_github (demo_repos 3);
  env_b64decode := identity_decoder;
  env_now := Scoring.sample_now;
  env_github_token := Some "tok";
  env_lottie := lottie_ok;
  env_gemini_key := Some "key";
  env_configure := Ok tt;
  env_listing := sample_listing;
  env_set_order := fun l => l;
  env_new_model := fun _ => Ok tt;
  env_generate_content := constant_model (dq "{'score': 70}");
  env_json_loads := decode_one (dq "{'score': 70}") partial_reply |}.

(** The same environment without a Gemini key: no AI analysis. *)
Definition no_ai_env : Env := {|
  env_github := env_github partial_env;
  env_b64decode := env_b64decode partial_env;
  env_now := env_now partial_env;
  env_github_token := env_github_token partial_env;
  env_lottie := lottie_ok;
  env_gemini_key := None;
  env_configure := env_configure partial_env;
  env_listing := env_listing partial_env;
  env_set_order := env_set_order partial_env;
  env_new_model := env_new_model partial_env;
  env_generate_content := env_generate_content partial_env;
  env_json_loads := env_json_loads partial_env |}.

Definition empty_bundle : Bundle := {| user := Portfolio.sample_user; repos := []; orgs := [] |}.

(** Eight languages used once, then one used by three repositories. *)
Definition polyglot : Bundle := {|
  user := Portfolio.sample_user;
  repos := map Portfolio.star_repo
             ["C"; "Go"; "Java"; "Ruby"; "Perl"; "Lua"; "Dart"; "Zig"; "Rust"; "Rust"; "Rust"];
  orgs := [] |}.

(** ** What the dashboard can show *)

(** The shape of a repository selector the deep dive draws: the names of
    the repositories and the value [st.selectbox] returns. *)
Definition select_ok (b : Bundle) (stored : option string) (o : Output) : Prop :=
  match o with
  | OSelectbox ns v => ns = map repo_name (repos b) /\ selectbox ns stored = Some v
  | _ => True
  end.

Local Open Scope list_scope.

(** Prove that every output of a script built from the dashboard's parts
    has a property: unfold the parts, split the binds and the branches. *)
Ltac script_outs :=
  unfold ai_read, ai_items, interview_tab, skills_chart, language_distribution,
    activity_timeline, deep_dive;
  cbv zeta beta;
  repeat (apply outs_sbind; [|intros ?]);
  first [ apply outs_sfor; intros ?; script_outs
        | apply outs_emit; first [ exact eq_refl | exact I
                                 | cbv beta iota delta [select_ok]; split; [reflexivity | assumption] ]
        | apply outs_slift | apply outs_sret
        | match goal with |- Forall _ (snd (match ?x with _ => _ end)) => destruct x eqn:? end;
          script_outs ].

(** Decompose the two computed values the dashboard starts from. *)
Ltac dashboard_outs :=
  unfold dashboard;
  match goal with |- context [Portfolio.calculate_portfolio_score ?d] =>
    destruct (Portfolio.calculate_portfolio_score d) as [s dims] end;
  destruct (analyze_with_ai _ _ _ _ _ _) as [ai err]; script_outs.

Section DashboardOutputs.
Context (env : Env) (u : string) (b : Bundle) (sel : option string).

(** Without the export click the dashboard offers no download. *)
Lemma dashboard_no_download :
  Forall (fun o => is_download o = false) (snd (dashboard env u b sel false)).
Proof. dashboard_outs. Qed.

(** The only selector is the deep dive's, with the value [st.selectbox]
    computes from the stored one. *)
Lemma dashboard_select_ok (x : bool) :
  Forall (select_ok b sel) (snd (dashboard env u b sel x)).
Proof. dashboard_outs. Qed.

End DashboardOutputs.

(** ** Crashes of the dashboard *)

(** C5: the adapter's fail-open result reaches the dashboard: when the
    decoded reply is a non-empty JSON value without a ["verdict"] (such as
    [{"score": 70}]), the dashboard crashes at [ai_result['verdict']]
    before showing any AI field. *)
Theorem reply_without_verdict_crashes (env : Env) (u : string) (b : Bundle)
  (sel : option string) (x : bool) (j : Json) (e : PyExc) :
  is_ok (Recommend.get_actionable_recommendations b
           (snd (Portfolio.calculate_portfolio_score (Data b)))) = true ->
  fst (analyze_with_ai (env_set_order env) (env_new_model env) (env_generate_content env)
         (env_json_loads env) b
         (get_working_model (env_gemini_key env) (env_configure env) (env_listing env)))
    = Ok (Some j) ->
  json_truthy j = true -> json_getitem j "verdict" = Raise e ->
  exists pre, finish (dashboard env u b sel x) = pre ++ [OCrash e] /\
    Forall (fun o => match o with OVerdict _ | OSummary _ | OStrengths _ | OImprovements _ => False
                                  | _ => True end) pre.
Proof.
  intros Hr Ha Ht Hv. unfold dashboard.
  destruct (Portfolio.calculate_portfolio_score (Data b)) as [s d]. cbn [snd] in Hr.
  destruct (Recommend.get_actionable_recommendations b d) as [recs|e']; [|discriminate].
  destruct (analyze_with_ai _ _ _ _ _ _) as [ai err]. cbn [fst] in Ha. subst ai.
  destruct err as [e0|]; cbn [sbind slift emit sret ai_read]; rewrite Ht, Hv;
    cbn [sbind slift finish app]; exists_removelast; repeat constructor.
Qed.

(** C9: for a user without repositories the run crashes in
    [get_actionable_recommendations] with [KeyError('Documentation')],
    after the AI call, before the success message. *)
Theorem zero_repos_crashes (env : Env) (u : string) (b : Bundle) (sel : option string) (x : bool) :
  repos b = [] ->
  is_ok (fst (analyze_with_ai (env_set_order env) (env_new_model env) (env_generate_content env)
                (env_json_loads env) b
                (get_working_model (env_gemini_key env) (env_configure env) (env_listing env))))
    = true ->
  exists pre, finish (dashboard env u b sel x) = pre ++ [OCrash (KeyError Portfolio.DOCUMENTATION)] /\
    Forall (fun o => exists e, o = OAIError e) pre.
Proof.
  intros Hb Ha. unfold dashboard. rewrite (Portfolio.calculate_portfolio_score_nil b Hb).
  destruct (analyze_with_ai _ _ _ _ _ _) as [[ai|e'] err]; [|discriminate].
  destruct err as [e0|]; cbn [sbind slift emit sret finish app];
    exists_removelast; repeat constructor; eauto.
Qed.

(** ** The language chart *)

Lemma existsb_eqb_In (x : string) (l : list string) : existsb (String.eqb x) l = true <-> In x l.
Proof.
  rewrite existsb_exists. split.
  - intros (y & Hy & E). apply String.eqb_eq in E. subst. exact Hy.
  - intro H. exists x. split; [exact H | apply String.eqb_refl].
Qed.

Lemma first_seen_snoc (ys : list string) (x : string) :
  first_seen (ys ++ [x]) =
  if existsb (String.eqb x) (first_seen ys) then first_seen ys else first_seen ys ++ [x].
Proof. unfold first_seen. rewrite fold_left_app. reflexivity. Qed.

Lemma first_seen_In (ys : list string) (k : string) : In k (first_seen ys) <-> In k ys.
Proof.
  revert k. induction ys as [|x ys IH] using rev_ind; intro k; [reflexivity|].
  rewrite first_seen_snoc, in_app_iff. destruct (existsb _ _) eqn:E.
  - apply existsb_eqb_In, IH in E. rewrite IH. split; [tauto|].
    intros [H|[<-|[]]]; assumption.
  - rewrite in_app_iff, IH. tauto.
Qed.

Lemma first_seen_NoDup (ys : list string) : NoDup (first_seen ys).
Proof.
  induction ys as [|x ys IH] using rev_ind; [constructor|].
  rewrite first_seen_snoc. destruct (existsb _ _) eqn:E; [exact IH|].
  apply NoDup_app; [exact IH | repeat constructor; intros [] | ].
  intros a Ha [<-|[]]. apply existsb_eqb_In in Ha. congruence.
Qed.

(** [counter_add] on a counter without duplicate keys. *)
Lemma counter_add_map (l : list string) (c : string -> Z) (x : string) :
  NoDup l ->
  counter_add (map (fun k => (k, c k)) l) x =
  if existsb (String.eqb x) l then map (fun k => (k, if String.eqb x k then (c k + 1)%Z else c k)) l
  else map (fun k => (k, c k)) l ++ [(x, 1%Z)].
Proof.
  induction l as [|y l IH]; intro Hnd; [reflexivity|].
  apply NoDup_cons_iff in Hnd as [Hy Hnd]. cbn [map counter_add existsb].
  destruct (String.eqb_spec x y) as [<-|Hne]; cbn [orb].
  - f_equal. apply map_ext_in. intros k Hk.
    destruct (String.eqb_spec x k); [subst; contradiction | reflexivity].
  - rewrite IH by exact Hnd. destruct (existsb _ _); reflexivity.
Qed.

Lemma counter_add_spec (ys : list string) (x : string) :
  counter_add (counter_spec ys) x = counter_spec (ys ++ [x]).
Proof.
  unfold counter_spec. rewrite counter_add_map by apply first_seen_NoDup.
  rewrite first_seen_snoc. destruct (existsb _ _) eqn:E.
  - apply map_ext. intro k. rewrite count_occ_app. cbn [count_occ].
    destruct (String.eqb_spec x k), (string_dec x k); try congruence; f_equal; lia.
  - rewrite map_app. f_equal.
    + apply map_ext_in. intros k Hk. rewrite count_occ_app. cbn [count_occ].
      destruct (string_dec x k) as [<-|]; [|f_equal; lia].
      apply existsb_eqb_In in Hk. congruence.
    + cbn [map]. rewrite count_occ_app. cbn [count_occ]. destruct (string_dec x x) as [_|]; [|congruence].
      assert (Hx : ~ In x ys) by (rewrite <- first_seen_In, <- existsb_eqb_In; congruence).
      apply (count_occ_not_In string_dec) in Hx. rewrite Hx. reflexivity.
Qed.

Lemma counter_fold (xs ys : list string) :
  fold_left counter_add xs (counter_spec ys) = counter_spec (ys ++ xs).
Proof.
  revert ys. induction xs as [|x xs IH]; intro ys; [rewrite app_nil_r; reflexivity|].
  cbn [fold_left]. rewrite counter_add_spec, IH, <- app_assoc. reflexivity.
Qed.

(** C14: [Counter(xs).items()] lists the distinct values of [xs] in order
    of first occurrence, each with its number of occurrences. *)
Theorem counter_equiv (xs : list string) : counter xs = counter_spec xs.
Proof. exact (counter_fold xs []). Qed.

(** The chart of a non-empty language list is the first eight entries
    of the [Counter] specification. *)
Lemma language_distribution_spec (b : Bundle) :
  all_langs b <> [] ->
  language_distribution b = emit (OLanguages (firstn 8 (counter_spec (all_langs b)))).
Proof.
  intro Hne. unfold language_distribution.
  destruct (all_langs b) as [|x xs] eqn:E; [contradiction|]. cbn [truthy_list].
  rewrite <- E. f_equal. f_equal. f_equal. exact (counter_fold (all_langs b) []).
Qed.

Lemma NoDup_firstn {A} (n : nat) (l : list A) : NoDup l -> NoDup (firstn n l).
Proof. rewrite <- (firstn_skipn n l) at 1. apply NoDup_app_remove_r. Qed.

(** C18: the pie chart shows the first eight languages met, each with its
    number of occurrences, not the eight most used: whenever a language is
    met after eight others, the chart shows eight distinct languages, with
    their true counts, and leaves that language out, however often it is
    used. *)
Theorem language_chart_first_seen (b : Bundle) (l : string) :
  In l (all_langs b) -> ~ In l (firstn 8 (first_seen (all_langs b))) ->
  exists counts, language_distribution b = emit (OLanguages counts) /\
    length counts = 8%nat /\ NoDup (map fst counts) /\ ~ In l (map fst counts) /\
    Forall (fun kc => snd kc = Z.of_nat (count_occ string_dec (all_langs b) (fst kc))) counts.
Proof.
  intros Hl Hout. set (xs := all_langs b) in *.
  assert (Hfst : map fst (firstn 8 (counter_spec xs)) = firstn 8 (first_seen xs))
    by (unfold counter_spec; rewrite firstn_map, map_map; apply map_id).
  exists (firstn 8 (counter_spec xs)). split; [apply language_distribution_spec; intros E; fold xs in E; rewrite E in Hl; contradiction|].
  split; [|split; [|split]].
  - rewrite <- (length_map fst), Hfst, length_firstn.
    destruct (Nat.le_gt_cases (length (first_seen xs)) 8) as [Hle|Hgt]; [|lia].
    exfalso. apply Hout. rewrite firstn_all2 by exact Hle. apply first_seen_In, Hl.
  - rewrite Hfst. apply NoDup_firstn, first_seen_NoDup.
  - rewrite Hfst. exact Hout.
  - apply Forall_forall. intros [k n] Hk. apply In_firstn in Hk.
    unfold counter_spec in Hk. apply in_map_iff in Hk as (k' & [= <- <-] & _). reflexivity.
Qed.

(** ** The timeline's sort *)

Definition row_ge (r1 r2 : string * DateTime * Z) : Prop := (row_key r2 <= row_key r1)%Z.

Definition key_is (t : Z) (r : string * DateTime * Z) : bool := (row_key r =? t)%Z.

Lemma insert_desc_perm x l : Permutation (insert_desc x l) (x :: l).
Proof.
  induction l as [|y l IH]; [reflexivity|]. cbn [insert_desc].
  destruct (_ <? _)%Z; [reflexivity|]. rewrite IH. apply perm_swap.
Qed.

Lemma insert_desc_hd y x l : HdRel row_ge y l -> row_ge y x -> HdRel row_ge y (insert_desc x l).
Proof.
  intros Hl Hyx. destruct l as [|z l]; cbn [insert_desc]; [constructor; exact Hyx|].
  destruct (_ <? _)%Z; constructor; [exact Hyx|]. inversion Hl; assumption.
Qed.

Lemma insert_desc_sorted x l : Sorted row_ge l -> Sorted row_ge (insert_desc x l).
Proof.
  induction l as [|y l IH]; intro Hs; [repeat constructor|]. cbn [insert_desc].
  apply Sorted_inv in Hs as [Hs Hhd].
  destruct (Z.ltb_spec (row_key y) (row_key x)).
  - constructor; [constructor; assumption | constructor; unfold row_ge; lia].
  - constructor; [exact (IH Hs)|]. apply insert_desc_hd; [exact Hhd | unfold row_ge; lia].
Qed.

Lemma filter_key_none t l : (forall r, In r l -> row_key r < t)%Z -> filter (key_is t) l = [].
Proof.
  induction l as [|r l IH]; intro H; [reflexivity|]. cbn [filter]. unfold key_is at 1.
  rewrite (proj2 (Z.eqb_neq _ _)) by (specialize (H r (or_introl eq_refl)); lia).
  apply IH. intros r' Hr'. apply H. right. exact Hr'.
Qed.

(** Inserting keeps the rows of every date in order, the new one last. *)
Lemma insert_desc_filter t x l :
  Sorted row_ge l ->
  filter (key_is t) (insert_desc x l) = filter (key_is t) l ++ (if key_is t x then [x] else []).
Proof.
  induction l as [|y l IH]; intro Hs; [reflexivity|]. cbn [insert_desc].
  pose proof (Sorted_StronglySorted (fun a b c (H1 : row_ge a b) (H2 : row_ge b c) =>
                (Z.le_trans _ _ _ H2 H1 : row_ge a c)) Hs) as Hss.
  apply Sorted_inv in Hs as [Hs _].
  destruct (Z.ltb_spec (row_key y) (row_key x)) as [Hlt|Hge].
  - change (filter (key_is t) (x :: y :: l))
      with (if key_is t x then x :: filter (key_is t) (y :: l) else filter (key_is t) (y :: l)).
    destruct (key_is t x) eqn:Ex; [|rewrite app_nil_r; reflexivity].
    unfold key_is in Ex. apply Z.eqb_eq in Ex. subst t.
    rewrite (filter_key_none (row_key x) (y :: l)); [reflexivity|].
    apply StronglySorted_inv in Hss as [_ Hall]. rewrite Forall_forall in Hall.
    intros r [<-|Hr]; [exact Hlt|]. specialize (Hall r Hr). unfold row_ge in Hall. lia.
  - cbn [filter]. rewrite (IH Hs). destruct (key_is t y); reflexivity.
Qed.

Lemma sort_desc_fold rows acc :
  Sorted row_ge acc ->
  Sorted row_ge (fold_left (fun acc x => insert_desc x acc) rows acc) /\
  Permutation (fold_left (fun acc x => insert_desc x acc) rows acc) (rows ++ acc) /\
  forall t, filter (key_is t) (fold_left (fun acc x => insert_desc x acc) rows acc) =
            filter (key_is t) acc ++ filter (key_is t) rows.
Proof.
  revert acc. induction rows as [|x rows IH]; intros acc Hs.
  - cbn. split; [exact Hs | split; [reflexivity | intro; rewrite app_nil_r; reflexivity]].
  - cbn [fold_left]. destruct (IH _ (insert_desc_sorted x acc Hs)) as (Hs' & Hp & Hf).
    split; [exact Hs'|]. split.
    + rewrite Hp, insert_desc_perm. symmetry. apply Permutation_middle.
    + intro t. rewrite Hf, insert_desc_filter by exact Hs. cbn [filter].
      destruct (key_is t x); rewrite <- app_assoc; reflexivity.
Qed.

(** C15: [sort_values('Last Updated', ascending=False)] puts the rows in
    order of decreasing push date, loses and adds no row, and keeps the
    rows of one date in their original order. *)
Theorem timeline_sort_desc (rows : list (string * DateTime * Z)) :
  Sorted row_ge (sort_desc rows) /\ Permutation rows (sort_desc rows) /\
  forall t, filter (key_is t) (sort_desc rows) = filter (key_is t) rows.
Proof.
  destruct (sort_desc_fold rows [] (Sorted_nil _)) as (Hs & Hp & Hf).
  unfold sort_desc. rewrite app_nil_r in Hp.
  split; [exact Hs | split; [symmetry; exact Hp | exact Hf]].
Qed.

(** ** Witnesses *)

Lemma reply_without_verdict_crashes_witness :
  json_getitem partial_reply "verdict" = Raise (KeyError "verdict") /\
  exists pre, finish (dashboard partial_env "octo" popular_last None false)
              = pre ++ [OCrash (KeyError "verdict")] /\
    Forall (fun o => match o with OVerdict _ | OSummary _ | OStrengths _ | OImprovements _ => False
                                  | _ => True end) pre.
Proof.
  split; [reflexivity|].
  apply (reply_without_verdict_crashes partial_env "octo" popular_last None false partial_reply);
    vm_compute; reflexivity.
Defined.

Lemma zero_repos_crashes_witness :
  repos empty_bundle = [] /\
  exists pre, finish (dashboard partial_env "octo" empty_bundle None false)
              = pre ++ [OCrash (KeyError Portfolio.DOCUMENTATION)] /\
    Forall (fun o => exists e, o = OAIError e) pre.
Proof.
  split; [reflexivity|]. apply zero_repos_crashes; vm_compute; reflexivity.
Defined.

Lemma language_chart_first_seen_witness :
  In "Rust" (all_langs polyglot) /\ ~ In "Rust" (firstn 8 (first_seen (all_langs polyglot))) /\
  count_occ string_dec (all_langs polyglot) "Rust" = 3%nat /\
  exists counts, language_distribution polyglot = emit (OLanguages counts) /\
    length counts = 8%nat /\ NoDup (map fst counts) /\ ~ In "Rust" (map fst counts) /\
    Forall (fun kc => snd kc = Z.of_nat (count_occ string_dec (all_langs polyglot) (fst kc))) counts.
Proof.
  assert (H1 : In "Rust" (all_langs polyglot)) by (vm_compute; repeat (first [left; reflexivity | right])).
  assert (H2 : ~ In "Rust" (firstn 8 (first_seen (all_langs polyglot))))
    by (vm_compute; intuition discriminate).
  split; [exact H1 | split; [exact H2 | split; [reflexivity |]]].
  exact (language_chart_first_seen polyglot "Rust" H1 H2).
Defined.
