(* ===== verification/Pipeline.v ===== *)
(** * Pipeline: the runs of the page script and a session (app.py 82-85, 396-757)

    Streamlit executes the whole script again on every interaction.  A
    [st.button] returns [True] only during the run that its click
    triggered; the text input keeps its value across runs (it has a
    [key]); the repository selector of the deep dive keeps the value the
    user picked as long as it is drawn in every run, and Streamlit drops
    the state of a widget that a run does not draw.  A run is
    [run_script]: load the animation asset, then, when the ANALYZE button
    was clicked, fetch and render the dashboard of [Dashboard].

    A session is a state ([Session]: the text box, the selector's stored
    value) and a step per user event ([session_step]); [reachable] is the
    step relation's closure from the first page load. *)

From Stdlib Require Import ZArith QArith String List Bool Lia.
From S2P Require Import Prelude Repo Timestamp Scoring Portfolio Recommend Fetcher AIAdapter Script Dashboard.
Import ListNotations.
Local Open Scope string_scope.

(** ** Inputs of a run *)

Inductive Button := AnalyzeBtn | DemoBtn | ExportBtn.

Definition button_eqb (a b : Button) : bool :=
  match a, b with
  | AnalyzeBtn, AnalyzeBtn | DemoBtn, DemoBtn | ExportBtn, ExportBtn => true
  | _, _ => false
  end.

(** What the user does: edit the username box, click a button, or pick a
    repository in the deep dive's selector. *)
Inductive Event := TypeText (s : string) | Click (b : Button) | SelectRepo (n : string).

(** ** The operations *)

(** [load_lottieurl] (app.py 82-85): [requests.get] and [r.json()] are
    not guarded. *)
Definition load_lottieurl (r : result (Response Json)) : result (option Json) :=
  let* resp := r in
  if negb (status_code resp =? 200)%Z then Ok None
  else let* j := json resp in Ok (Some j).

Definition MSG_NOT_FOUND : string :=
  "❌ User not found or API rate limit exceeded. Please try again later.".
Definition MSG_NO_TOKEN : string :=
  "⚠️ GitHub Token not configured. Please check your .env file.".
Definition MSG_NO_USERNAME : string := "Please enter a GitHub username!".

(** [get_enhanced_github_data(username)] in the run's environment. *)
Definition fetch (env : Env) (username : string) : result FetchResult * list Request :=
  get_enhanced_github_data (env_github env) (env_b64decode env) (env_now env)
    (env_github_token env) username [].

(** One run of the script (app.py 396-757): [text] is the value of the
    username box, [selected] the selector's stored value and [clicked]
    the button whose click caused the run.  The result is what the page
    shows and the GitHub requests sent. *)
Definition run_script (env : Env) (text : string) (selected : option string)
  (clicked : option Button) : list Output * list Request :=
  let is_clicked b := match clicked with Some b' => button_eqb b b' | None => false end in
  let username := if is_clicked DemoBtn then "torvalds" else text in
  match load_lottieurl (env_lottie env) with
  | Raise e => ([OCrash e], [])
  | Ok lottie_scanning =>
      if is_clicked AnalyzeBtn then
        if String.eqb username "" then ([OWarning MSG_NO_USERNAME], [])
        else
          let anim := match lottie_scanning with
                      | Some j => if json_truthy j then [OAnimation j] else []
                      | None => []
                      end in
          let (res, trace) := fetch env username in
          let shown := match res with
                       | Raise e => [OCrash e]
                       | Ok ERROR => [OError MSG_NOT_FOUND]
                       | Ok NO_TOKEN => [OError MSG_NO_TOKEN]
                       | Ok (Data b) =>
                           finish (dashboard env username b selected (is_clicked ExportBtn))
                       end in
          ((anim ++ shown)%list, trace)
      else ([], [])
  end.

(** ** Sessions *)

Record Session := {
  sess_text : string;
  sess_selected : option string
}.

(** The first page load: an empty box, no selector state. *)
Definition init_session : Session := {| sess_text := ""; sess_selected := None |}.

(** The value of the selector a run drew, if it drew one. *)
Fixpoint rendered_select (outs : list Output) : option string :=
  match outs with
  | [] => None
  | OSelectbox _ v :: _ => Some v
  | _ :: rest => rendered_select rest
  end.

(** One event: the rerun it causes, and the widget state after it. *)
Definition session_step (env : Env) (st : Session) (ev : Event)
  : Session * (list Output * list Request) :=
  let text := match ev with TypeText s => s | _ => sess_text st end in
  let stored := match ev with SelectRepo n => Some n | _ => sess_selected st end in
  let clicked := match ev with Click b => Some b | _ => None end in
  let run := run_script env text stored clicked in
  ({| sess_text := text; sess_selected := rendered_select (fst run) |}, run).

(** The runs of a sequence of events. *)
Fixpoint run_session (env : Env) (st : Session) (events : list Event)
  : list (list Output * list Request) :=
  match events with
  | [] => []
  | ev :: rest => snd (session_step env st ev) :: run_session env (fst (session_step env st ev)) rest
  end.

Inductive reachable (env : Env) : Session -> Prop :=
| reach_init : reachable env init_session
| reach_step st ev : reachable env st -> reachable env (fst (session_step env st ev)).

(** The first repository name of the bundle fetched for [text]. *)
Definition first_repo (env : Env) (text : string) : option string :=
  match fst (fetch env text) with
  | Ok (Data b) => hd_error (map repo_name (repos b))
  | _ => None
  end.

(** The selector's stored value is the first repository of the user in
    the box, when there is one. *)
Definition select_inv (env : Env) (st : Session) : Prop :=
  forall n, sess_selected st = Some n -> first_repo env (sess_text st) = Some n.

(** ** Fixtures *)

(** [partial_env] with the animation host unreachable. *)
Definition offline_env : Env := {|
  env_github := env_github partial_env;
  env_b64decode := env_b64decode partial_env;
  env_now := env_now partial_env;
  env_github_token := env_github_token partial_env;
  env_lottie := Raise RequestException;
  env_gemini_key := env_gemini_key partial_env;
  env_configure := env_configure partial_env;
  env_listing := env_listing partial_env;
  env_set_order := env_set_order partial_env;
  env_new_model := env_new_model partial_env;
  env_generate_content := env_generate_content partial_env;
  env_json_loads := env_json_loads partial_env |}.

(** [partial_env] with an animation host answering 200 with a body that
    is not JSON. *)
Definition garbled_env : Env := {|
  env_github := env_github partial_env;
  env_b64decode := env_b64decode partial_env;
  env_now := env_now partial_env;
  env_github_token := env_github_token partial_env;
  env_lottie := Ok {| status_code := 200; json := Raise JSONDecodeError |};
  env_gemini_key := env_gemini_key partial_env;
  env_configure := env_configure partial_env;
  env_listing := env_listing partial_env;
  env_set_order := env_set_order partial_env;
  env_new_model := env_new_model partial_env;
  env_generate_content := env_generate_content partial_env;
  env_json_loads := env_json_loads partial_env |}.

(** The state after typing a username. *)
Definition typed_octo : Session := {| sess_text := "octo"; sess_selected := None |}.

(** ** Lemmas on runs *)

Local Open Scope list_scope.

(** The animation shown before the fetch. *)
Lemma anim_outs (P : Output -> Prop) (lottie : option Json) :
  (forall j, P (OAnimation j)) ->
  Forall P (match lottie with
            | Some j => if json_truthy j then [OAnimation j] else []
            | None => []
            end).
Proof. intro H. destruct lottie as [j|]; [destruct (json_truthy j)|]; auto. Qed.

(** A run outputs what [finish] makes of the dashboard, after the
    animation, or one message. *)
Lemma run_script_cases (env : Env) (text : string) (sel : option string) (c : option Button) :
  (exists e, run_script env text sel c = ([OCrash e], [])) \/
  fst (run_script env text sel c) = [] \/
  fst (run_script env text sel c) = [OWarning MSG_NO_USERNAME] \/
  exists anim shown, fst (run_script env text sel c) = anim ++ shown /\
    Forall (fun o => exists j, o = OAnimation j) anim /\
    ((exists e, shown = [OCrash e]) \/ shown = [OError MSG_NOT_FOUND] \/
     shown = [OError MSG_NO_TOKEN] \/
     exists b, c = Some AnalyzeBtn /\ fst (fetch env text) = Ok (Data b) /\
               shown = finish (dashboard env text b sel false)).
Proof.
  unfold run_script. destruct (load_lottieurl (env_lottie env)) as [lottie|e]; [|left; eauto].
  destruct c as [[| |]|]; cbn [button_eqb]; try (right; left; reflexivity).
  destruct (String.eqb text "") eqn:Ht; [right; right; left; reflexivity|].
  destruct (fetch env text) as [[[| |b]|e] tr] eqn:Hf.
  all: right; right; right; eexists _, _; split; [reflexivity|].
  all: split; [apply anim_outs; eauto|].
  - right; right; left; reflexivity.
  - right; left; reflexivity.
  - right; right; right. exists b. auto.
  - left; eauto.
Qed.

(** Every output of a run has [P] when the messages, the animation, a
    crash and the dashboard's outputs have it. *)
Lemma run_outs (P : Output -> Prop) (env : Env) (text : string) (sel : option string)
  (c : option Button) :
  (forall e, P (OCrash e)) -> (forall j, P (OAnimation j)) -> (forall m, P (OError m)) ->
  P (OWarning MSG_NO_USERNAME) ->
  (forall b, fst (fetch env text) = Ok (Data b) -> Forall P (snd (dashboard env text b sel false))) ->
  Forall P (fst (run_script env text sel c)).
Proof.
  intros Hc Ha He Hw Hd.
  destruct (run_script_cases env text sel c)
    as [[e ->]|[->|[->|(anim & shown & -> & Han & Hs)]]]; repeat constructor; auto.
  apply Forall_app. split.
  - eapply Forall_impl; [|exact Han]. intros o [j ->]. auto.
  - destruct Hs as [[e ->]|[->|[->|(b & _ & Hf & ->)]]]; repeat constructor; auto.
    apply finish_outs; auto.
Qed.

Lemma rendered_select_In (outs : list Output) (v : string) :
  rendered_select outs = Some v -> exists ns, In (OSelectbox ns v) outs.
Proof.
  induction outs as [|o outs IH]; [discriminate|]. cbn [rendered_select].
  destruct o; try (intro H; destruct (IH H) as [ns Hin]; exists ns; right; exact Hin).
  intros [= ->]. eexists. left. reflexivity.
Qed.

(** A selector drawn by a run lists the repositories fetched for the box
    and shows the value [st.selectbox] computes from the stored one; only
    the ANALYZE click draws one. *)
Lemma run_select (env : Env) (text : string) (sel : option string) (c : option Button)
  (ns : list string) (v : string) :
  In (OSelectbox ns v) (fst (run_script env text sel c)) ->
  c = Some AnalyzeBtn /\
  exists b, fst (fetch env text) = Ok (Data b) /\ ns = map repo_name (repos b) /\
            selectbox ns sel = Some v.
Proof.
  destruct (run_script_cases env text sel c)
    as [[e ->]|[->|[->|(anim & shown & -> & Han & Hs)]]]; cbn [fst In];
    try (intros [[=]|[]]); try contradiction.
  intro Hin. apply in_app_or in Hin as [Hin|Hin].
  - rewrite Forall_forall in Han. destruct (Han _ Hin) as [j [=]].
  - destruct Hs as [[e ->]|[->|[->|(b & Hc & Hf & ->)]]]; cbn [In] in Hin;
      try (destruct Hin as [[=]|[]]).
    split; [exact Hc|]. exists b. split; [exact Hf|].
    assert (H := finish_outs _ _ (dashboard_select_ok env text b sel false) (fun _ => I)).
    rewrite Forall_forall in H. exact (H _ Hin).
Qed.

(** The selector shows the first option when its stored value is absent
    or the first option. *)
Lemma selectbox_first (ns : list string) (sel : option string) (v : string) :
  (forall n, sel = Some n -> hd_error ns = Some n) -> selectbox ns sel = Some v -> hd_error ns = Some v.
Proof.
  unfold selectbox. intro Hs. destruct sel as [n|]; [|auto].
  rewrite (Hs n eq_refl). destruct (existsb _ _); auto.
Qed.

(** From a state with [select_inv], a selector drawn by the next run
    lists the repositories of the user in the box and shows the first. *)
Lemma step_select (env : Env) (st : Session) (ev : Event) (ns : list string) (v : string) :
  select_inv env st -> In (OSelectbox ns v) (fst (snd (session_step env st ev))) ->
  sess_text (fst (session_step env st ev)) = sess_text st /\
  exists b, fst (fetch env (sess_text st)) = Ok (Data b) /\ ns = map repo_name (repos b) /\
            hd_error ns = Some v.
Proof.
  intros Hi Hin. cbn [session_step snd] in Hin.
  apply run_select in Hin as (Hc & b & Hf & -> & Hv).
  destruct ev as [s|bt|m]; cbn in Hc; try discriminate.
  split; [reflexivity|]. exists b. split; [exact Hf|]. split; [reflexivity|].
  apply (selectbox_first _ (sess_selected st)); [|exact Hv].
  intros n Hn. specialize (Hi n Hn). unfold first_repo in Hi. rewrite Hf in Hi. exact Hi.
Qed.

(** [select_inv] holds in every reachable state (rule induction). *)
Lemma reachable_select_inv (env : Env) (st : Session) : reachable env st -> select_inv env st.
Proof.
  induction 1 as [|st ev Hr IH]; [intros n [=]|].
  intros n Hn. cbn [session_step fst sess_selected] in Hn.
  apply rendered_select_In in Hn as [ns Hin].
  destruct (step_select env st ev ns n IH Hin) as (-> & b & Hf & -> & Hhd).
  unfold first_repo. rewrite Hf. exact Hhd.
Qed.

(** ** Properties of sessions *)

(** C11: the repository deep dive can only ever show the first
    repository: the selector is drawn inside [if analyze_btn:], so picking
    another repository reruns the script without the dashboard and
    Streamlit drops the pick; in every run of every session, a selector
    drawn shows its first option. *)
Theorem selector_stuck_on_first (env : Env) (st : Session) (ev : Event) (ns : list string) (v : string) :
  reachable env st -> In (OSelectbox ns v) (fst (snd (session_step env st ev))) ->
  hd_error ns = Some v.
Proof.
  intros Hr Hin.
  destruct (step_select env st ev ns v (reachable_select_inv env st Hr) Hin) as (_ & b & _ & _ & Hv).
  exact Hv.
Qed.

(** C17: picking a repository in the deep dive hides the whole dashboard:
    the rerun it causes has [analyze_btn] false, shows nothing but a
    possible crash of the animation download, sends no request, and the
    pick is forgotten. *)
Theorem select_repo_hides_dashboard (env : Env) (st : Session) (n : string) :
  snd (snd (session_step env st (SelectRepo n))) = [] /\
  Forall (fun o => is_crash o = true) (fst (snd (session_step env st (SelectRepo n)))) /\
  sess_selected (fst (session_step env st (SelectRepo n))) = None.
Proof.
  unfold session_step, run_script. cbn [fst snd sess_selected].
  destruct (load_lottieurl (env_lottie env)); repeat constructor.
Qed.

(** C3: the export button can never offer the report: it is drawn inside
    [if analyze_btn:], and its click reruns the script with [analyze_btn]
    false, so no run of any session shows a download. *)
Theorem export_never_offered (env : Env) (st : Session) (events : list Event) :
  forall run, In run (run_session env st events) ->
  forall f rep, ~ In (ODownload f rep) (fst run).
Proof.
  revert st. induction events as [|ev rest IH]; intros st run Hrun; [contradiction|].
  destruct Hrun as [<-|Hrun]; [|exact (IH _ run Hrun)].
  intros f rep Hin.
  assert (Hnd : Forall (fun o => is_download o = false) (fst (snd (session_step env st ev)))).
  { apply run_outs; try reflexivity. intros b _. apply dashboard_no_download. }
  rewrite Forall_forall in Hnd. apply Hnd in Hin. discriminate.
Qed.

(** C10: clicking SAMPLE DEMO sends no request and shows nothing but a
    possible crash of the animation download: the assignment
    [username = "torvalds"] happens in a run where [analyze_btn] is false. *)
Theorem demo_click_never_analyses (env : Env) (text : string) (sel : option string) :
  snd (run_script env text sel (Some DemoBtn)) = [] /\
  Forall (fun o => is_crash o = true) (fst (run_script env text sel (Some DemoBtn))).
Proof.
  unfold run_script. cbn [button_eqb].
  destruct (load_lottieurl (env_lottie env)); repeat constructor.
Qed.

(** [load_lottieurl] raises exactly when [requests.get] raises or the
    answer is a 200 whose body is not JSON. *)
Lemma load_lottieurl_raise (r : result (Response Json)) (e : PyExc) :
  load_lottieurl r = Raise e <->
  r = Raise e \/ exists resp, r = Ok resp /\ status_code resp = 200%Z /\ json resp = Raise e.
Proof.
  unfold load_lottieurl. split.
  - destruct r as [resp|e']; cbn [py_bind]; [|intros [= ->]; left; reflexivity].
    destruct (Z.eqb_spec (status_code resp) 200) as [S|S]; cbn [negb]; [|discriminate].
    destruct (json resp) as [j|e'] eqn:J; cbn [py_bind]; [discriminate|].
    intros [= ->]. right. exists resp. auto.
  - intros [->|(resp & -> & S & J)]; [reflexivity|]. cbn [py_bind]. rewrite S, J. reflexivity.
Qed.

(** C23: an exception of the animation download ends every run before
    anything is shown, whatever the user did: [requests.get] raising, or
    [r.json()] raising on a 200 answer that is not JSON (the spec: the
    failure is silently tolerated). *)
Theorem lottie_failure_crashes (env : Env) (text : string) (sel : option string)
  (c : option Button) (e : PyExc) :
  env_lottie env = Raise e \/
  (exists resp, env_lottie env = Ok resp /\ status_code resp = 200%Z /\ json resp = Raise e) ->
  run_script env text sel c = ([OCrash e], []).
Proof. intro H. unfold run_script. rewrite (proj2 (load_lottieurl_raise _ e) H). reflexivity. Qed.

(** C16: from every state of a session, typing a non-empty username and
    clicking ANALYZE runs the analysis of that username: the second run
    sends exactly the requests of [get_enhanced_github_data(username)]. *)
Theorem analysis_reachable (env : Env) (st : Session) (u : string) :
  u <> "" -> is_ok (load_lottieurl (env_lottie env)) = true ->
  exists outs, nth_error (run_session env st [TypeText u; Click AnalyzeBtn]) 1
               = Some (outs, snd (fetch env u)).
Proof.
  intros Hu Hl. cbn [run_session nth_error]. unfold session_step. cbn [fst snd sess_text].
  unfold run_script. destruct (load_lottieurl (env_lottie env)); [|discriminate].
  cbn [button_eqb]. rewrite (proj2 (String.eqb_neq u "") Hu).
  destruct (fetch env u) as [res tr]. eexists. reflexivity.
Qed.

(** ** Witnesses *)

Lemma selector_stuck_on_first_witness :
  reachable no_ai_env typed_octo /\
  In (OSelectbox ["demo"; "demo"; "demo"] "demo")
     (fst (snd (session_step no_ai_env typed_octo (Click AnalyzeBtn)))) /\
  hd_error ["demo"; "demo"; "demo"] = Some "demo".
Proof.
  assert (Hr : reachable no_ai_env typed_octo).
  { change typed_octo with (fst (session_step no_ai_env init_session (TypeText "octo"))).
    apply reach_step, reach_init. }
  assert (Hin : In (OSelectbox ["demo"; "demo"; "demo"] "demo")
                   (fst (snd (session_step no_ai_env typed_octo (Click AnalyzeBtn))))).
  { vm_compute. repeat (first [left; reflexivity | right]). }
  split; [exact Hr | split; [exact Hin | exact (selector_stuck_on_first _ _ _ _ _ Hr Hin)]].
Defined.

Lemma export_never_offered_witness :
  In (run_script partial_env "octo" None (Some ExportBtn))
     (run_session partial_env init_session [TypeText "octo"; Click AnalyzeBtn; Click ExportBtn]) /\
  forall f rep, ~ In (ODownload f rep) (fst (run_script partial_env "octo" None (Some ExportBtn))).
Proof.
  assert (H : In (run_script partial_env "octo" None (Some ExportBtn))
                 (run_session partial_env init_session
                    [TypeText "octo"; Click AnalyzeBtn; Click ExportBtn]))
    by (right; right; left; vm_compute; reflexivity).
  split; [exact H | exact (export_never_offered _ _ _ _ H)].
Defined.

Lemma lottie_failure_crashes_witness :
  run_script offline_env "octo" None (Some AnalyzeBtn) = ([OCrash RequestException], []) /\
  run_script garbled_env "octo" None (Some AnalyzeBtn) = ([OCrash JSONDecodeError], []).
Proof.
  split; apply lottie_failure_crashes; [left; reflexivity |].
  right. eexists. split; [reflexivity | split; reflexivity].
Defined.

Lemma analysis_reachable_witness :
  "octo" <> "" /\ is_ok (load_lottieurl (env_lottie partial_env)) = true /\
  exists outs, nth_error (run_session partial_env init_session [TypeText "octo"; Click AnalyzeBtn]) 1
               = Some (outs, snd (fetch partial_env "octo")).
Proof.
  split; [discriminate|]. split; [reflexivity|].
  apply analysis_reachable; [discriminate | reflexivity].
Defined.
